(** * The distributed-task coordination store (pkg/disttask/framework/storage)

    A shallow embedding of [task_table.go]: the task manager issues SQL
    statements against five tables through a session; here a table is a list
    of rows, a statement is a function on the tables, and the manager's
    methods are programs of a state-and-error monad over the session. *)

From Stdlib Require Import ZArith List Bool Lia.
From Stdlib Require Import Strings.String Strings.Byte.
From stdpp Require Import base decidable option list sorting strings numbers.
From stdpp Require gmap.

Local Open Scope Z_scope.

(** ** Data model *)

(** Go's [[]byte]. *)
Definition bytes := list byte.

#[global] Instance byte_eq_decision : EqDecision byte := byte_eq_dec.

(** [len(b)] as a Go [int]. *)
Definition len {A} (l : list A) : Z := Z.of_nat (length l).

(** The fields [UnmarshalJSON] fills in a [*errors.Error] of the
    [pingcap/errors] library. *)
Record NormalizedError := {
  ne_code : Z;
  ne_codeText : string;
  ne_message : string
}.

#[global] Instance NormalizedError_eq_dec : EqDecision NormalizedError.
Proof. solve_decision. Defined.

(** Go [error] values this file creates or passes on. *)
Inductive error :=
| ErrUnstableSubtasks
| ErrTaskNotFound
| ErrTaskAlreadyExists
| ErrSubtaskNotFound
| ErrNew (msg : string)                  (* errors.New *)
| Errorf (format : string) (args : list Z)  (* errors.Errorf *)
| ErrStd (e : NormalizedError)           (* a *errors.Error *)
| ErrJSON (msg : string)                 (* what UnmarshalJSON returns on bad input *)
| ErrStore                               (* a failed statement of the store *)
| Annotatef (cause : error) (args : list Z).

#[global] Instance error_eq_dec : EqDecision error.
Proof. solve_decision. Defined.

(** [errors.Cause]: strips the annotations. *)
Fixpoint Cause (e : error) : error :=
  match e with
  | Annotatef c _ => Cause c
  | _ => e
  end.

(** Modelled from the spec: the state constants of the [proto] package, which
    is not part of the sources given; [TaskState] and [SubtaskState] are Go
    string types, and the names are those of the spec's state enums (the
    literals "paused", "running" and "pending" also occur in PauseSubtasks and
    ResumeSubtasks). *)
Definition TaskStatePending := "pending".
Definition TaskStateRunning := "running".
Definition TaskStateSucceed := "succeed".
Definition TaskStateFailed := "failed".
Definition TaskStateReverting := "reverting".
Definition TaskStateReverted := "reverted".
Definition TaskStateCancelling := "cancelling".
Definition TaskStatePausing := "pausing".
Definition TaskStatePaused := "paused".
Definition TaskStateResuming := "resuming".
Definition SubtaskStatePending := "pending".
Definition SubtaskStateRunning := "running".
Definition SubtaskStateSucceed := "succeed".
Definition SubtaskStateFailed := "failed".
Definition SubtaskStateCanceled := "canceled".
Definition SubtaskStatePaused := "paused".
Definition SubtaskStateRevertPending := "revert_pending".

(** The constants and functions this file takes from other packages:
    [proto], [variable], [intest], [kv] and the JSON codec of
    [pingcap/errors]. *)
Class Extern := {
  MaxConcurrentTask : Z;                 (* proto.MaxConcurrentTask *)
  NormalPriority : Z;                    (* proto.NormalPriority *)
  StepInit : Z;                          (* proto.StepInit *)
  Type2Int : string -> Z;                (* proto.Type2Int *)
  DefTiDBMemQuotaQuery : Z;              (* variable.DefTiDBMemQuotaQuery *)
  InTest : bool;                         (* intest.InTest *)
  TxnTotalSizeLimit : Z;                 (* kv.TxnTotalSizeLimit.Load() *)
  UnmarshalJSON : bytes -> error + NormalizedError;
  MarshalJSON : NormalizedError -> error + bytes;
  ErrorText : error -> string            (* err.Error() *)
}.

(** [maxSubtaskBatchSize = 16 * units.MiB]. *)
Definition maxSubtaskBatchSize : Z := 16 * 1048576.

(** [proto.Task]; a zero [time.Time] is [None]. *)
Record Task := {
  ID : Z;
  Key : string;
  Type_ : string;
  State : string;
  Step : Z;
  Priority : Z;
  Concurrency : Z;
  CreateTime : Z;
  StartTime : option Z;
  StateUpdateTime : option Z;
  Meta : bytes;
  SchedulerID : string;
  Error : option error
}.

(** [proto.Subtask]. *)
Record Subtask := {
  SubID : Z;
  SubStep : Z;
  SubTaskID : Z;
  SubType : string;
  SubExecID : string;
  SubState : string;
  SubConcurrency : Z;
  SubCreateTime : Z;
  SubOrdinal : Z;
  SubStartTime : option Z;
  SubUpdateTime : option Z;
  SubMeta : bytes;
  SubSummary : string
}.

(** [proto.ManagedNode]. *)
Record ManagedNode := {
  NodeID : string;
  Role : string;
  CPUCount : Z
}.

(** A row of [mysql.tidb_global_task] (and of its history table); a nullable
    column is an [option]. *)
Record TaskRow := {
  t_id : Z;
  t_task_key : string;
  t_type : string;
  t_state : string;
  t_step : Z;
  t_priority : Z;
  t_concurrency : Z;
  t_create_time : Z;
  t_start_time : option Z;
  t_state_update_time : option Z;
  t_meta : bytes;
  t_dispatcher_id : string;
  t_error : option bytes
}.

(** A row of [mysql.tidb_background_subtask] (and of its history table). The
    column [task_key] holds the owning task's id. *)
Record SubtaskRow := {
  s_id : Z;
  s_step : Z;
  s_task_key : Z;
  s_type : Z;
  s_exec_id : string;
  s_state : string;
  s_concurrency : Z;
  s_create_time : Z;
  s_ordinal : option Z;
  s_start_time : option Z;
  s_state_update_time : option Z;
  s_meta : bytes;
  s_summary : string;
  s_checkpoint : string;
  s_error : option bytes;
  s_end_time : option Z
}.

#[global] Instance TaskRow_eq_dec : EqDecision TaskRow.
Proof. solve_decision. Defined.

#[global] Instance SubtaskRow_eq_dec : EqDecision SubtaskRow.
Proof. solve_decision. Defined.

(** The five tables. *)
Record DB := {
  tidb_global_task : list TaskRow;
  tidb_global_task_history : list TaskRow;
  tidb_background_subtask : list SubtaskRow;
  tidb_background_subtask_history : list SubtaskRow;
  dist_framework_meta : list ManagedNode
}.

(** A session on the store: the tables as the session sees them, the tables
    as they were at [begin] while a transaction is open, the statement
    context's affected-row count, the session variables the code reads, the
    store's clock and auto-increment counters, and the failures the store is
    going to answer with: one flag is consumed by every statement, [true]
    makes that statement fail, and an exhausted list means no failure. *)
Record Session := {
  store : DB;
  txn_begin : option DB;
  AffectedRows : Z;
  last_insert_id : Z;
  MemQuotaQuery : Z;
  now : Z;
  task_auto_inc : Z;
  subtask_auto_inc : Z;
  faults : list bool
}.

Definition set_store (d : DB) (se : Session) : Session :=
  {| store := d; txn_begin := txn_begin se; AffectedRows := AffectedRows se;
     last_insert_id := last_insert_id se; MemQuotaQuery := MemQuotaQuery se;
     now := now se; task_auto_inc := task_auto_inc se;
     subtask_auto_inc := subtask_auto_inc se; faults := faults se |}.

Definition set_txn_begin (o : option DB) (se : Session) : Session :=
  {| store := store se; txn_begin := o; AffectedRows := AffectedRows se;
     last_insert_id := last_insert_id se; MemQuotaQuery := MemQuotaQuery se;
     now := now se; task_auto_inc := task_auto_inc se;
     subtask_auto_inc := subtask_auto_inc se; faults := faults se |}.

Definition set_AffectedRows (n : Z) (se : Session) : Session :=
  {| store := store se; txn_begin := txn_begin se; AffectedRows := n;
     last_insert_id := last_insert_id se; MemQuotaQuery := MemQuotaQuery se;
     now := now se; task_auto_inc := task_auto_inc se;
     subtask_auto_inc := subtask_auto_inc se; faults := faults se |}.

Definition set_last_insert_id (n : Z) (se : Session) : Session :=
  {| store := store se; txn_begin := txn_begin se; AffectedRows := AffectedRows se;
     last_insert_id := n; MemQuotaQuery := MemQuotaQuery se;
     now := now se; task_auto_inc := task_auto_inc se;
     subtask_auto_inc := subtask_auto_inc se; faults := faults se |}.

Definition set_MemQuotaQuery (n : Z) (se : Session) : Session :=
  {| store := store se; txn_begin := txn_begin se; AffectedRows := AffectedRows se;
     last_insert_id := last_insert_id se; MemQuotaQuery := n;
     now := now se; task_auto_inc := task_auto_inc se;
     subtask_auto_inc := subtask_auto_inc se; faults := faults se |}.


Definition set_task_auto_inc (n : Z) (se : Session) : Session :=
  {| store := store se; txn_begin := txn_begin se; AffectedRows := AffectedRows se;
     last_insert_id := last_insert_id se; MemQuotaQuery := MemQuotaQuery se;
     now := now se; task_auto_inc := n;
     subtask_auto_inc := subtask_auto_inc se; faults := faults se |}.

Definition set_subtask_auto_inc (n : Z) (se : Session) : Session :=
  {| store := store se; txn_begin := txn_begin se; AffectedRows := AffectedRows se;
     last_insert_id := last_insert_id se; MemQuotaQuery := MemQuotaQuery se;
     now := now se; task_auto_inc := task_auto_inc se;
     subtask_auto_inc := n; faults := faults se |}.

Definition set_faults (fs : list bool) (se : Session) : Session :=
  {| store := store se; txn_begin := txn_begin se; AffectedRows := AffectedRows se;
     last_insert_id := last_insert_id se; MemQuotaQuery := MemQuotaQuery se;
     now := now se; task_auto_inc := task_auto_inc se;
     subtask_auto_inc := subtask_auto_inc se; faults := fs |}.

Definition set_tasks (l : list TaskRow) (d : DB) : DB :=
  {| tidb_global_task := l;
     tidb_global_task_history := tidb_global_task_history d;
     tidb_background_subtask := tidb_background_subtask d;
     tidb_background_subtask_history := tidb_background_subtask_history d;
     dist_framework_meta := dist_framework_meta d |}.

Definition set_task_history (l : list TaskRow) (d : DB) : DB :=
  {| tidb_global_task := tidb_global_task d;
     tidb_global_task_history := l;
     tidb_background_subtask := tidb_background_subtask d;
     tidb_background_subtask_history := tidb_background_subtask_history d;
     dist_framework_meta := dist_framework_meta d |}.

Definition set_subtasks (l : list SubtaskRow) (d : DB) : DB :=
  {| tidb_global_task := tidb_global_task d;
     tidb_global_task_history := tidb_global_task_history d;
     tidb_background_subtask := l;
     tidb_background_subtask_history := tidb_background_subtask_history d;
     dist_framework_meta := dist_framework_meta d |}.

Definition set_subtask_history (l : list SubtaskRow) (d : DB) : DB :=
  {| tidb_global_task := tidb_global_task d;
     tidb_global_task_history := tidb_global_task_history d;
     tidb_background_subtask := tidb_background_subtask d;
     tidb_background_subtask_history := l;
     dist_framework_meta := dist_framework_meta d |}.

(** ** The monad of the manager's methods

    A Go function [func(...) (A, error)] working on a session. *)
Definition M (A : Type) : Type := Session -> (error + A) * Session.

Definition ret {A} (a : A) : M A := fun se => (inr a, se).
Definition throw {A} (e : error) : M A := fun se => (inl e, se).
Definition bind {A B} (m : M A) (k : A -> M B) : M B :=
  fun se => match m se with
            | (inl e, se') => (inl e, se')
            | (inr a, se') => k a se'
            end.
Definition get_session : M Session := fun se => (inr se, se).

Notation "x <- m ;; k" := (bind m (fun x => k))
  (at level 20, m at level 99, k at level 200, only parsing).
Notation "m ;;; k" := (bind m (fun _ => k))
  (at level 20, k at level 200, only parsing).

(** [for _, x := range l { if err := f x; err != nil { return err } }]. *)
Fixpoint for_each {A} (f : A -> M unit) (l : list A) : M unit :=
  match l with
  | [] => ret tt
  | x :: l' => f x ;;; for_each f l'
  end.

(** ** Statements

    What an UPDATE, DELETE and SELECT with a WHERE clause do to a table. The
    affected-row count of an UPDATE is the number of rows the statement
    changed: a matching row that already holds the new values does not count
    (the comment in UpdateTaskAndAddSubTasks relies on it: an update that
    changes nothing gives AffectedRows 0). *)
Definition update_where {R} `{EqDecision R} (p : R -> bool) (f : R -> R)
    (table : list R) : list R :=
  map (fun r => if p r then f r else r) table.

Definition changed_rows {R} `{EqDecision R} (p : R -> bool) (f : R -> R)
    (table : list R) : Z :=
  len (List.filter (fun r => p r && negb (bool_decide (f r = r))) table).

Definition select_where {R} (p : R -> bool) (table : list R) : list R :=
  List.filter p table.

Definition delete_where {R} (p : R -> bool) (table : list R) : list R :=
  List.filter (fun r => negb (p r)) table.

(** [sqlexec.ExecSQL]: the store either fails the statement, which then has
    no effect, or runs it. *)
Definition ExecSQL {A} (stmt : Session -> A * Session) : M A :=
  fun se =>
    match faults se with
    | true :: fs => (inl ErrStore, set_faults fs se)
    | false :: fs => let '(a, se') := stmt (set_faults fs se) in (inr a, se')
    | [] => let '(a, se') := stmt se in (inr a, se')
    end.

(** [begin], [commit] and [rollback]. A transaction the store fails to
    commit is not applied. *)
Definition sql_begin (se : Session) : unit * Session :=
  (tt, set_txn_begin (Some (store se)) se).

Definition sql_commit (se : Session) : unit * Session :=
  (tt, set_txn_begin None se).

Definition abort_txn (se : Session) : Session :=
  match txn_begin se with
  | Some d => set_txn_begin None (set_store d se)
  | None => se
  end.

Definition sql_rollback (se : Session) : unit * Session :=
  (tt, abort_txn se).

(** [WithNewSession]: the pool hands out the session; the pool's own failure
    to do so is outside this model. *)
Definition WithNewSession {A} (fn : M A) : M A := fn.

(** [WithNewTxn]: [begin], then [fn], then by the deferred function
    [commit] when [fn] succeeded and [rollback] otherwise; an error of the
    commit replaces a nil error. *)
Definition WithNewTxn {A} (fn : M A) : M A :=
  WithNewSession (fun se =>
    match ExecSQL sql_begin se with
    | (inl e, se1) => (inl e, se1)
    | (inr _, se1) =>
        match fn se1 with
        | (inl e, se2) =>
            match ExecSQL sql_rollback se2 with
            | (_, se3) => (inl e, abort_txn se3)
            end
        | (inr a, se2) =>
            match ExecSQL sql_commit se2 with
            | (inl commitErr, se3) => (inl commitErr, abort_txn se3)
            | (inr _, se3) => (inr a, se3)
            end
        end
    end).

(** [ExecuteSQLWithNewSession]. *)
Definition ExecuteSQLWithNewSession {A} (stmt : Session -> A * Session) : M A :=
  WithNewSession (ExecSQL stmt).

(** A SELECT leaves the tables alone. *)
Definition query {A} (q : DB -> A) (se : Session) : A * Session :=
  (q (store se), set_AffectedRows 0 se).

(** An UPDATE of the live task table. *)
Definition update_tasks (p : TaskRow -> bool) (f : TaskRow -> TaskRow)
    (se : Session) : unit * Session :=
  let table := tidb_global_task (store se) in
  (tt, set_AffectedRows (changed_rows p f table)
         (set_store (set_tasks (update_where p f table) (store se)) se)).

(** An UPDATE of the live subtask table. *)
Definition update_subtasks (p : SubtaskRow -> bool) (f : SubtaskRow -> SubtaskRow)
    (se : Session) : unit * Session :=
  let table := tidb_background_subtask (store se) in
  (tt, set_AffectedRows (changed_rows p f table)
         (set_store (set_subtasks (update_where p f table) (store se)) se)).

Definition in_states (states : list string) (s : string) : bool :=
  existsb (String.eqb s) states.

Definition in_ids (ids : list Z) (i : Z) : bool :=
  existsb (Z.eqb i) ids.

(** ** The methods of the task manager *)

Section TaskManager.
Context `{Extern}.

Definition row2TaskBasic (r : TaskRow) : Task :=
  {| ID := t_id r; Key := t_task_key r; Type_ := t_type r;
     State := t_state r; Step := t_step r; Priority := t_priority r;
     Concurrency := t_concurrency r; CreateTime := t_create_time r;
     StartTime := None; StateUpdateTime := None; Meta := [];
     SchedulerID := ""; Error := None |}.

Definition row2Task (r : TaskRow) : Task :=
  let task := row2TaskBasic r in
  {| ID := ID task; Key := Key task; Type_ := Type_ task;
     State := State task; Step := Step task; Priority := Priority task;
     Concurrency := Concurrency task; CreateTime := CreateTime task;
     StartTime := t_start_time r;
     StateUpdateTime := t_state_update_time r;
     Meta := t_meta r;
     SchedulerID := t_dispatcher_id r;
     Error :=
       match t_error r with
       | Some errBytes =>
           match UnmarshalJSON errBytes with
           | inl _ => Some (ErrNew (string_of_list_byte errBytes))
           | inr stdErr => Some (ErrStd stdErr)
           end
       | None => None
       end |}.

(** *** Node registry *)

Definition host_le (a b : ManagedNode) : Prop :=
  String.leb (NodeID a) (NodeID b) = true.

#[global] Instance host_le_dec : RelDecision host_le.
Proof. intros a b. unfold host_le. apply _. Defined.

(** [select host, role, cpu_count from mysql.dist_framework_meta order by host]. *)
Definition getAllNodesWithSession : M (list ManagedNode) :=
  ExecSQL (query (fun d => merge_sort host_le (dist_framework_meta d))).

(** [nodeMap] groups the nodes by role, each group in the order of [nodes]. *)
Definition nodes_of_role (role : string) (nodes : list ManagedNode) : list ManagedNode :=
  List.filter (fun n => String.eqb (Role n) role) nodes.

Definition getManagedNodesWithSession : M (list ManagedNode) :=
  nodes <- getAllNodesWithSession ;;
  if len (nodes_of_role "background" nodes) =? 0
  then ret (nodes_of_role "" nodes)
  else ret (nodes_of_role "background" nodes).

(** The loop of getCPUCountOfManagedNode: [cpuCount] stays 0 unless a node
    has a positive count, and the first such node decides. *)
Fixpoint first_cpu_count (nodes : list ManagedNode) : Z :=
  match nodes with
  | [] => 0
  | n :: rest => if 0 <? CPUCount n then CPUCount n else first_cpu_count rest
  end.

Definition ErrNoManagedNodes : error := ErrNew "no managed nodes".
Definition ErrNoUsableCapacity : error :=
  ErrNew "no managed node have enough resource for dist task".

Definition getCPUCountOfManagedNode : M Z :=
  nodes <- getManagedNodesWithSession ;;
  if len nodes =? 0 then throw ErrNoManagedNodes
  else
    let cpuCount := first_cpu_count nodes in
    if cpuCount =? 0 then throw ErrNoUsableCapacity
    else ret cpuCount.

(** *** Task store *)

(** [insert into mysql.tidb_global_task(InsertTaskColumns) values (...)]:
    the store assigns the id; the columns not listed are NULL. *)
Definition sql_insert_task (key tp state : string) (priority concurrency step : Z)
    (meta : bytes) (se : Session) : unit * Session :=
  let id := task_auto_inc se in
  let row := {| t_id := id; t_task_key := key; t_type := tp; t_state := state;
                t_step := step; t_priority := priority;
                t_concurrency := concurrency; t_create_time := now se;
                t_start_time := None; t_state_update_time := None;
                t_meta := meta; t_dispatcher_id := ""; t_error := None |} in
  (tt, set_last_insert_id id (set_AffectedRows 1 (set_task_auto_inc (id + 1)
         (set_store (set_tasks (tidb_global_task (store se) ++ [row]) (store se)) se)))).

Definition ErrConcurrencyExceedsCapacity (concurrency cpuCount : Z) : error :=
  Errorf "task concurrency(%d) larger than cpu count(%d) of managed node"
         [concurrency; cpuCount].

Definition CreateTaskWithSession (key tp : string) (concurrency : Z) (meta : bytes) : M Z :=
  cpuCount <- getCPUCountOfManagedNode ;;
  if cpuCount <? concurrency
  then throw (ErrConcurrencyExceedsCapacity concurrency cpuCount)
  else
    ExecSQL (sql_insert_task key tp TaskStatePending NormalPriority concurrency StepInit meta) ;;;
    taskID <- ExecSQL (fun se => (last_insert_id se, set_AffectedRows 0 se)) ;;
    ret taskID.

Definition CreateTask (key tp : string) (concurrency : Z) (meta : bytes) : M Z :=
  WithNewSession (CreateTaskWithSession key tp concurrency meta).

(** [order by priority asc, create_time asc, id asc]. *)
Definition task_leb (a b : TaskRow) : bool :=
  (t_priority a <? t_priority b)
  || ((t_priority a =? t_priority b)
      && ((t_create_time a <? t_create_time b)
          || ((t_create_time a =? t_create_time b) && (t_id a <=? t_id b)))).

Definition task_le (a b : TaskRow) : Prop := task_leb a b = true.

#[global] Instance task_le_dec : RelDecision task_le.
Proof. intros a b. unfold task_le. apply _. Defined.

Definition unfinished_states : list string :=
  [TaskStatePending; TaskStateRunning; TaskStateReverting;
   TaskStateCancelling; TaskStatePausing; TaskStateResuming].

(** [limit n]. *)
Definition limit {A} (n : Z) (rows : list A) : list A := take (Z.to_nat n) rows.

Definition GetTopUnfinishedTasks : M (list Task) :=
  rs <- ExecuteSQLWithNewSession (query (fun d =>
          limit (MaxConcurrentTask * 2)
            (merge_sort task_le
               (select_where (fun r => in_states unfinished_states (t_state r))
                  (tidb_global_task d))))) ;;
  ret (map row2TaskBasic rs).

Definition GetTaskByID (taskID : Z) : M Task :=
  rs <- ExecuteSQLWithNewSession (query (fun d =>
          select_where (fun r => t_id r =? taskID) (tidb_global_task d))) ;;
  match rs with
  | [] => throw ErrTaskNotFound
  | r :: _ => ret (row2Task r)
  end.



(** *** Subtask store *)

(** The loop of CollectSubTaskError over the selected [error] column. *)
Fixpoint collect_errors (rs : list (option bytes)) (subTaskErrors : list (option error))
    : error + list (option error) :=
  match rs with
  | [] => inr subTaskErrors
  | None :: rest => collect_errors rest (subTaskErrors ++ [None])
  | Some errBytes :: rest =>
      if len errBytes =? 0 then collect_errors rest (subTaskErrors ++ [None])
      else
        match UnmarshalJSON errBytes with
        | inl err => inl err
        | inr stdErr => collect_errors rest (subTaskErrors ++ [Some (ErrStd stdErr)])
        end
  end.

Definition CollectSubTaskError (taskID : Z) : M (list (option error)) :=
  rs <- ExecuteSQLWithNewSession (query (fun d =>
          map s_error
            (select_where
               (fun r => (s_task_key r =? taskID)
                         && in_states [SubtaskStateFailed; SubtaskStateCanceled] (s_state r))
               (tidb_background_subtask d)))) ;;
  match collect_errors rs [] with
  | inl err => throw err
  | inr subTaskErrors => ret subTaskErrors
  end.

(** [set state = %?, start_time = unix_timestamp(), state_update_time = unix_timestamp()]. *)
Definition start_row (state : string) (t : Z) (r : SubtaskRow) : SubtaskRow :=
  {| s_id := s_id r; s_step := s_step r; s_task_key := s_task_key r;
     s_type := s_type r; s_exec_id := s_exec_id r; s_state := state;
     s_concurrency := s_concurrency r; s_create_time := s_create_time r;
     s_ordinal := s_ordinal r; s_start_time := Some t;
     s_state_update_time := Some t; s_meta := s_meta r;
     s_summary := s_summary r; s_checkpoint := s_checkpoint r;
     s_error := s_error r; s_end_time := s_end_time r |}.

(** [where id = %? and exec_id = %?]. *)
Definition owned_by (subtaskID : Z) (execID : string) (r : SubtaskRow) : bool :=
  (s_id r =? subtaskID) && String.eqb (s_exec_id r) execID.

Definition StartSubtask (subtaskID : Z) (execID : string) : M unit :=
  WithNewTxn (
    ExecSQL (fun se =>
      update_subtasks (owned_by subtaskID execID)
        (start_row TaskStateRunning (now se)) se) ;;;
    vars <- get_session ;;
    if AffectedRows vars =? 0 then throw ErrSubtaskNotFound
    else ret tt).

(** *** Step transition *)

(** The SET clause of updateTaskStateStep; [start_time] is only assigned when
    the task object is pending. *)
Definition switch_row (task : Task) (nextState : string) (nextStep : Z) (t : Z)
    (r : TaskRow) : TaskRow :=
  {| t_id := t_id r; t_task_key := t_task_key r; t_type := t_type r;
     t_state := nextState; t_step := nextStep;
     t_priority := t_priority r; t_concurrency := t_concurrency r;
     t_create_time := t_create_time r;
     t_start_time :=
       if String.eqb (State task) TaskStatePending then Some t else t_start_time r;
     t_state_update_time := Some t;
     t_meta := Meta task;
     t_dispatcher_id := t_dispatcher_id r; t_error := t_error r |}.

(** [where id = %? and state = %? and step = %?]. *)
Definition at_state_step (task : Task) (r : TaskRow) : bool :=
  (t_id r =? ID task) && String.eqb (t_state r) (State task) && (t_step r =? Step task).

Definition updateTaskStateStep (task : Task) (nextState : string) (nextStep : Z) : M unit :=
  ExecSQL (fun se =>
    update_tasks (at_state_step task) (switch_row task nextState nextStep (now se)) se).

(** The rows one multi-row INSERT adds: the store numbers them
    consecutively. *)
Fixpoint number_rows (mk : Z -> Subtask -> SubtaskRow) (next : Z) (subtasks : list Subtask)
    : list SubtaskRow :=
  match subtasks with
  | [] => []
  | s :: rest => mk next s :: number_rows mk (next + 1) rest
  end.

Definition insert_subtask_rows (mk : Z -> Subtask -> SubtaskRow) (subtasks : list Subtask)
    (se : Session) : unit * Session :=
  let first := subtask_auto_inc se in
  (tt, set_last_insert_id first (set_AffectedRows (len subtasks)
         (set_subtask_auto_inc (first + len subtasks)
            (set_store (set_subtasks
                          (tidb_background_subtask (store se)
                             ++ number_rows mk first subtasks)
                          (store se)) se)))).

(** The value list of insertSubtasks for one subtask. *)
Definition pending_row (t : Z) (id : Z) (subtask : Subtask) : SubtaskRow :=
  {| s_id := id; s_step := SubStep subtask; s_task_key := SubTaskID subtask;
     s_type := Type2Int (SubType subtask); s_exec_id := SubExecID subtask;
     s_state := TaskStatePending; s_concurrency := SubConcurrency subtask;
     s_create_time := t; s_ordinal := Some (SubOrdinal subtask);
     s_start_time := None; s_state_update_time := None;
     s_meta := SubMeta subtask; s_summary := "{}"; s_checkpoint := "{}";
     s_error := None; s_end_time := None |}.

Definition insertSubtasks (subtasks : list Subtask) : M unit :=
  if len subtasks =? 0 then ret tt
  else ExecSQL (fun se => insert_subtask_rows (pending_row (now se)) subtasks se).

(** The body of the closure of SwitchTaskStep, after the memory quota has
    been raised. *)
Definition switch_body (task : Task) (nextState : string) (nextStep : Z)
    (subtasks : list Subtask) : M unit :=
  updateTaskStateStep task nextState nextStep ;;;
  vars <- get_session ;;
  if AffectedRows vars =? 0 then ret tt
  else insertSubtasks subtasks.

(** SwitchTaskStep; setting the session variable to the default value is
    taken to succeed, and the deferred call puts the old value back. *)
Definition SwitchTaskStep (task : Task) (nextState : string) (nextStep : Z)
    (subtasks : list Subtask) : M unit :=
  WithNewTxn (fun se =>
    if MemQuotaQuery se <? DefTiDBMemQuotaQuery then
      let bak := MemQuotaQuery se in
      let '(r, se') :=
        switch_body task nextState nextStep subtasks
          (set_MemQuotaQuery DefTiDBMemQuotaQuery se) in
      (r, set_MemQuotaQuery bak se')
    else switch_body task nextState nextStep subtasks se).

(** One round of the loop of splitSubtasks on [(res, currBatch, size)]. *)
Definition split_step (maxSize : Z) (st : list (list Subtask) * list Subtask * Z)
    (s : Subtask) : list (list Subtask) * list Subtask * Z :=
  let '(res, currBatch, size) := st in
  let '(res, currBatch, size) :=
    if maxSize <? size + len (SubMeta s)
    then (res ++ [currBatch], [], 0)
    else (res, currBatch, size) in
  (res, currBatch ++ [s], size + len (SubMeta s)).

Definition maxSize : Z := Z.min TxnTotalSizeLimit maxSubtaskBatchSize.

Definition splitSubtasks (subtasks : list Subtask) : list (list Subtask) :=
  let '(res, currBatch, _) := fold_left (split_step maxSize) subtasks ([], [], 0) in
  if 0 <? len currBatch then res ++ [currBatch] else res.

(** [select count(1) from mysql.tidb_background_subtask where task_key = %? and step = %?]. *)
Definition count_subtasks (taskID step : Z) (d : DB) : Z :=
  len (select_where (fun r => (s_task_key r =? taskID) && (s_step r =? step))
         (tidb_background_subtask d)).

Definition SwitchTaskStepInBatch (task : Task) (nextState : string) (nextStep : Z)
    (subtasks : list Subtask) : M unit :=
  WithNewSession (
    existingTaskCnt <- ExecSQL (query (count_subtasks (ID task) nextStep)) ;;
    if len subtasks <? existingTaskCnt
    then throw (Annotatef ErrUnstableSubtasks [len subtasks; existingTaskCnt])
    else
      let subtaskBatches := splitSubtasks (drop (Z.to_nat existingTaskCnt) subtasks) in
      for_each insertSubtasks subtaskBatches ;;;
      updateTaskStateStep task nextState nextStep).

(** [errors.Normalize(msg)]. *)
Definition Normalize (msg : string) : NormalizedError :=
  {| ne_code := 0; ne_codeText := ""; ne_message := msg |}.

Definition serializeErr (err : option error) : option bytes :=
  match err with
  | None => None
  | Some err =>
      let originErr := Cause err in
      let tErr := match originErr with
                  | ErrStd e => e
                  | _ => Normalize (ErrorText originErr)
                  end in
      match MarshalJSON tErr with
      | inl _ => None
      | inr errBytes => Some errBytes
      end
  end.

(** [WithNewTxn] for a closure that assigns a variable of the function that
    calls [WithNewTxn]: the variable's value is passed along. *)
Definition WithNewTxnVar {A L} (fn : L -> Session -> (error + A) * L * Session) (l : L)
    : Session -> (error + A) * L * Session :=
  fun se =>
    match ExecSQL sql_begin se with
    | (inl e, se1) => (inl e, l, se1)
    | (inr _, se1) =>
        match fn l se1 with
        | (inl e, l', se2) =>
            match ExecSQL sql_rollback se2 with
            | (_, se3) => (inl e, l', abort_txn se3)
            end
        | (inr a, l', se2) =>
            match ExecSQL sql_commit se2 with
            | (inl commitErr, se3) => (inl commitErr, l', abort_txn se3)
            | (inr _, se3) => (inr a, l', se3)
            end
        end
    end.

(** The SET clause of UpdateTaskAndAddSubTasks. *)
Definition legacy_update_row (task : Task) (t : Z) (r : TaskRow) : TaskRow :=
  {| t_id := t_id r; t_task_key := t_task_key r; t_type := t_type r;
     t_state := State task; t_step := Step task;
     t_priority := t_priority r; t_concurrency := Concurrency task;
     t_create_time := t_create_time r; t_start_time := t_start_time r;
     t_state_update_time := Some t;
     t_meta := Meta task;
     t_dispatcher_id := SchedulerID task;
     t_error := serializeErr (Error task) |}.

(** [where id = %? and state = %?]. *)
Definition at_state (taskID : Z) (state : string) (r : TaskRow) : bool :=
  (t_id r =? taskID) && String.eqb (t_state r) state.

(** The value list of UpdateTaskAndAddSubTasks for one subtask: the task's
    id, no ordinal. *)
Definition legacy_row (task : Task) (subtaskState : string) (t : Z) (id : Z)
    (subtask : Subtask) : SubtaskRow :=
  {| s_id := id; s_step := SubStep subtask; s_task_key := ID task;
     s_type := Type2Int (SubType subtask); s_exec_id := SubExecID subtask;
     s_state := subtaskState; s_concurrency := SubConcurrency subtask;
     s_create_time := t; s_ordinal := None;
     s_start_time := None; s_state_update_time := None;
     s_meta := SubMeta subtask; s_summary := "{}"; s_checkpoint := "{}";
     s_error := None; s_end_time := None |}.

Definition ErrStateChanged : error :=
  ErrNew "invalid task state transform, state already changed".

(** The closure of UpdateTaskAndAddSubTasks; [retryable] is the variable it
    shares with its caller. The failpoint is off. *)
Definition update_and_add_fn (task : Task) (subtasks : list Subtask) (prevState : string)
    (retryable : bool) (se : Session) : (error + unit) * bool * Session :=
  match ExecSQL (fun se =>
          update_tasks (at_state (ID task) prevState)
            (legacy_update_row task (now se)) se) se with
  | (inl err, se1) => (inl err, retryable, se1)
  | (inr _, se1) =>
      let checked : (error + unit) * bool * Session :=
        if AffectedRows se1 =? 0 then
          if negb InTest then (inl ErrStateChanged, false, se1)
          else
            match ExecSQL (query (fun d =>
                    map t_id (select_where (at_state (ID task) prevState)
                                (tidb_global_task d)))) se1 with
            | (inl err, se2) => (inl err, retryable, se2)
            | (inr rs, se2) =>
                if len rs =? 0 then (inl ErrStateChanged, false, se2)
                else (inr tt, retryable, se2)
            end
        else (inr tt, retryable, se1) in
      match checked with
      | (inl err, retryable, se2) => (inl err, retryable, se2)
      | (inr _, retryable, se2) =>
          if 0 <? len subtasks then
            let subtaskState :=
              if String.eqb (State task) TaskStateReverting
              then SubtaskStateRevertPending else SubtaskStatePending in
            match ExecSQL (fun se =>
                    insert_subtask_rows (legacy_row task subtaskState (now se))
                      subtasks se) se2 with
            | (inl _, se3) => (inr tt, retryable, se3)
            | (inr _, se3) => (inr tt, retryable, se3)
            end
          else (inr tt, retryable, se2)
      end
  end.

(** UpdateTaskAndAddSubTasks returns [(retryable, err)]. *)
Definition UpdateTaskAndAddSubTasks (task : Task) (subtasks : list Subtask)
    (prevState : string) (se : Session) : (bool * (error + unit)) * Session :=
  let '(err, retryable, se') :=
    WithNewTxnVar (update_and_add_fn task subtasks prevState) true se in
  ((retryable, err), se').

(** *** History *)

Definition set_meta (meta : bytes) (t : Z) (r : TaskRow) : TaskRow :=
  {| t_id := t_id r; t_task_key := t_task_key r; t_type := t_type r;
     t_state := t_state r; t_step := t_step r;
     t_priority := t_priority r; t_concurrency := t_concurrency r;
     t_create_time := t_create_time r; t_start_time := t_start_time r;
     t_state_update_time := Some t;
     t_meta := meta;
     t_dispatcher_id := t_dispatcher_id r; t_error := t_error r |}.

(** [insert into ..._history select * from ... where ...]. *)
Definition copy_tasks_to_history (p : TaskRow -> bool) (se : Session) : unit * Session :=
  let d := store se in
  let rows := select_where p (tidb_global_task d) in
  (tt, set_AffectedRows (len rows)
         (set_store (set_task_history (tidb_global_task_history d ++ rows) d) se)).

Definition copy_subtasks_to_history (p : SubtaskRow -> bool) (se : Session) : unit * Session :=
  let d := store se in
  let rows := select_where p (tidb_background_subtask d) in
  (tt, set_AffectedRows (len rows)
         (set_store (set_subtask_history (tidb_background_subtask_history d ++ rows) d) se)).

Definition delete_tasks (p : TaskRow -> bool) (se : Session) : unit * Session :=
  let d := store se in
  (tt, set_AffectedRows (len (select_where p (tidb_global_task d)))
         (set_store (set_tasks (delete_where p (tidb_global_task d)) d) se)).

Definition delete_subtasks (p : SubtaskRow -> bool) (se : Session) : unit * Session :=
  let d := store se in
  (tt, set_AffectedRows (len (select_where p (tidb_background_subtask d)))
         (set_store (set_subtasks (delete_where p (tidb_background_subtask d)) d) se)).

Definition TransferSubtasks2HistoryWithSession (taskID : Z) : M unit :=
  ExecSQL (copy_subtasks_to_history (fun r => s_task_key r =? taskID)) ;;;
  ExecSQL (delete_subtasks (fun r => s_task_key r =? taskID)).

(** The last loop of TransferTasks2History with the [err] it starts from:
    every round assigns [err] anew, and [err] is what is returned. *)
Fixpoint transfer_subtasks_loop (tasks : list Task) (err : error + unit) : M unit :=
  match tasks with
  | [] => fun se => (err, se)
  | t :: rest =>
      fun se =>
        match TransferSubtasks2HistoryWithSession (ID t) se with
        | (inl e, se') => (inl e, se')
        | (inr _, se') => transfer_subtasks_loop rest (inr tt) se'
        end
  end.

Definition TransferTasks2History (tasks : list Task) : M unit :=
  if len tasks =? 0 then ret tt
  else
    let taskIDs := map ID tasks in
    WithNewTxn (
      for_each (fun t =>
        ExecSQL (fun se =>
          update_tasks (fun r => t_id r =? ID t) (set_meta (Meta t) (now se)) se))
        tasks ;;;
      ExecSQL (copy_tasks_to_history (fun r => in_ids taskIDs (t_id r))) ;;;
      (fun se =>
         let '(err, se1) :=
           ExecSQL (delete_tasks (fun r => in_ids taskIDs (t_id r))) se in
         transfer_subtasks_loop tasks err se1)).

End TaskManager.

(** ** The other methods of the task manager *)

(** What these methods take from other packages in addition. *)
Class Host := {
  Int2Type : Z -> string;                (* proto.Int2Type *)
  GetCPUCount : Z                        (* cpu.GetCPUCount() *)
}.

#[global] Instance ManagedNode_eq_dec : EqDecision ManagedNode.
Proof. solve_decision. Defined.

Definition set_nodes (l : list ManagedNode) (d : DB) : DB :=
  {| tidb_global_task := tidb_global_task d;
     tidb_global_task_history := tidb_global_task_history d;
     tidb_background_subtask := tidb_background_subtask d;
     tidb_background_subtask_history := tidb_background_subtask_history d;
     dist_framework_meta := l |}.

(** [select distinct]: the values in the order of their first rows. *)
Definition distinct {A} `{EqDecision A} (l : list A) : list A :=
  fold_left (fun acc x => if bool_decide (x ∈ acc) then acc else acc ++ [x]) l [].

(** [group by key]: one row per value of the key, with the aggregate of the
    rows that have it. *)
Definition group_by {R K V} `{EqDecision K} (key : R -> K) (agg : list R -> V)
    (rows : list R) : list (K * V) :=
  map (fun k => (k, agg (List.filter (fun r => bool_decide (key r = k)) rows)))
      (distinct (map key rows)).

(** [max(...)] over the rows of a group, which is never empty. *)
Definition sql_max (l : list Z) : Z :=
  match l with
  | [] => 0
  | x :: rest => fold_left Z.max rest x
  end.

(** [sum(...)]. *)
Definition sql_sum (l : list Z) : Z := fold_right Z.add 0 l.

(** [update ... limit 1]: the first row the WHERE clause finds, in the order
    of the table. *)
Fixpoint update_first {R} (p : R -> bool) (f : R -> R) (table : list R) : list R :=
  match table with
  | [] => []
  | r :: rest => if p r then f r :: rest else r :: update_first p f rest
  end.

Definition changed_first {R} `{EqDecision R} (p : R -> bool) (f : R -> R)
    (table : list R) : Z :=
  match List.find p table with
  | Some r => if bool_decide (f r = r) then 0 else 1
  | None => 0
  end.

Definition update_subtasks_limit1 (p : SubtaskRow -> bool) (f : SubtaskRow -> SubtaskRow)
    (se : Session) : unit * Session :=
  let table := tidb_background_subtask (store se) in
  (tt, set_AffectedRows (changed_first p f table)
         (set_store (set_subtasks (update_first p f table) (store se)) se)).

(** [strings.Repeat(s, count)], which panics on a negative count: [None] is
    the panic. *)
Definition Repeat (s : string) (count : Z) : option string :=
  if count <? 0 then None
  else Some (String.concat "" (replicate (Z.to_nat count) s)).

Section TaskManagerRest.
Context `{Extern} `{Host}.

(** *** Task store *)

Definition GetOneTask : M (option Task) :=
  rs <- ExecuteSQLWithNewSession (query (fun d =>
          limit 1 (select_where (fun r => String.eqb (t_state r) TaskStatePending)
                     (tidb_global_task d)))) ;;
  match rs with
  | [] => ret None
  | r :: _ => ret (Some (row2Task r))
  end.

Definition GetTasksInStates (states : list string) : M (list Task) :=
  if len states =? 0 then ret []
  else
    rs <- ExecuteSQLWithNewSession (query (fun d =>
            merge_sort task_le
              (select_where (fun r => in_states states (t_state r))
                 (tidb_global_task d)))) ;;
    ret (map row2Task rs).

Definition GetTasksFromHistoryInStates (states : list string) : M (list Task) :=
  if len states =? 0 then ret []
  else
    rs <- ExecuteSQLWithNewSession (query (fun d =>
            select_where (fun r => in_states states (t_state r))
              (tidb_global_task_history d))) ;;
    ret (map row2Task rs).



(** The two GROUP BYs of GetUsedSlotsOnNodes. *)
Definition used_slots_rows (d : DB) : list (string * Z) :=
  let active := select_where
                  (fun r => in_states [TaskStatePending; TaskStateRunning] (s_state r))
                  (tidb_background_subtask d) in
  let a := group_by (fun r => (s_exec_id r, s_task_key r))
             (fun g => sql_max (map s_concurrency g)) active in
  group_by (fun row : string * Z * Z => fst (fst row))
    (fun g => sql_sum (map snd g)) a.

Definition GetUsedSlotsOnNodes : M (gmap.gmap string Z) :=
  rs <- ExecuteSQLWithNewSession (query used_slots_rows) ;;
  ret (fold_left (fun (slots : gmap.gmap string Z) r => <[fst r := snd r]> slots) rs ∅).

Definition IsTaskCancelling (taskID : Z) : M bool :=
  rs <- ExecuteSQLWithNewSession (query (fun d =>
          select_where (fun r => (t_id r =? taskID)
                                 && String.eqb (t_state r) TaskStateCancelling)
            (tidb_global_task d))) ;;
  ret (0 <? len rs).

(** *** Subtask store *)

(** The column [task_key] is read as a string and parsed with
    [strconv.Atoi]; here the column holds the number. *)
Definition row2BasicSubTask (r : SubtaskRow) : Subtask :=
  {| SubID := s_id r; SubStep := s_step r; SubTaskID := s_task_key r;
     SubType := Int2Type (s_type r); SubExecID := s_exec_id r;
     SubState := s_state r; SubConcurrency := s_concurrency r;
     SubCreateTime := s_create_time r;
     SubOrdinal := match s_ordinal r with Some o => o | None => 0 end;
     SubStartTime := None; SubUpdateTime := None; SubMeta := [];
     SubSummary := "" |}.

Definition Row2SubTask (r : SubtaskRow) : Subtask :=
  let subtask := row2BasicSubTask r in
  {| SubID := SubID subtask; SubStep := SubStep subtask;
     SubTaskID := SubTaskID subtask; SubType := SubType subtask;
     SubExecID := SubExecID subtask; SubState := SubState subtask;
     SubConcurrency := SubConcurrency subtask;
     SubCreateTime := SubCreateTime subtask; SubOrdinal := SubOrdinal subtask;
     SubStartTime := s_start_time r; SubUpdateTime := s_state_update_time r;
     SubMeta := s_meta r; SubSummary := s_summary r |}.

(** [where exec_id = %? and task_key = %? and step = %? and state in (...)]. *)
Definition on_exec_step_states (tidbID : string) (taskID step : Z) (states : list string)
    (r : SubtaskRow) : bool :=
  String.eqb (s_exec_id r) tidbID && (s_task_key r =? taskID) && (s_step r =? step)
  && in_states states (s_state r).

(** The placeholder list is built with [strings.Repeat("%?,", len(states)-1)]
    before the session is asked for: without a state the call panics. *)
Definition GetSubtasksByStepAndStates (tidbID : string) (taskID step : Z)
    (states : list string) : option (M (list Subtask)) :=
  match Repeat "%?," (len states - 1) with
  | None => None
  | Some _ =>
      Some (rs <- ExecuteSQLWithNewSession (query (fun d =>
                    select_where (on_exec_step_states tidbID taskID step states)
                      (tidb_background_subtask d))) ;;
            ret (map Row2SubTask rs))
  end.

Definition GetSubtasksByExecIdsAndStepAndState (execIDs : list string) (taskID step : Z)
    (state : string) : option (M (list Subtask)) :=
  match Repeat "%?," (len execIDs - 1) with
  | None => None
  | Some _ =>
      Some (rs <- ExecuteSQLWithNewSession (query (fun d =>
                    select_where
                      (fun r => (s_task_key r =? taskID) && (s_step r =? step)
                                && String.eqb (s_state r) state
                                && in_states execIDs (s_exec_id r))
                      (tidb_background_subtask d))) ;;
            ret (map Row2SubTask rs))
  end.

Definition GetFirstSubtaskInStates (tidbID : string) (taskID step : Z)
    (states : list string) : option (M (option Subtask)) :=
  match Repeat "%?," (len states - 1) with
  | None => None
  | Some _ =>
      Some (rs <- ExecuteSQLWithNewSession (query (fun d =>
                    limit 1 (select_where (on_exec_step_states tidbID taskID step states)
                               (tidb_background_subtask d)))) ;;
            match rs with
            | [] => ret None
            | r :: _ => ret (Some (Row2SubTask r))
            end)
  end.

Definition HasSubtasksInStates (tidbID : string) (taskID step : Z)
    (states : list string) : option (M bool) :=
  match Repeat "%?," (len states - 1) with
  | None => None
  | Some _ =>
      Some (rs <- ExecuteSQLWithNewSession (query (fun d =>
                    limit 1 (select_where (on_exec_step_states tidbID taskID step states)
                               (tidb_background_subtask d)))) ;;
            ret (0 <? len rs))
  end.

(** [where exec_id = %? and task_key = %? and state in (pending, running)]. *)
Definition active_on (execID : string) (taskID : Z) (r : SubtaskRow) : bool :=
  String.eqb (s_exec_id r) execID && (s_task_key r =? taskID)
  && in_states [SubtaskStatePending; SubtaskStateRunning] (s_state r).

(** The SET clause of FailSubtask. *)
Definition fail_row (errBytes : option bytes) (t : Z) (r : SubtaskRow) : SubtaskRow :=
  {| s_id := s_id r; s_step := s_step r; s_task_key := s_task_key r;
     s_type := s_type r; s_exec_id := s_exec_id r; s_state := SubtaskStateFailed;
     s_concurrency := s_concurrency r; s_create_time := s_create_time r;
     s_ordinal := s_ordinal r; s_start_time := Some t;
     s_state_update_time := Some t; s_meta := s_meta r;
     s_summary := s_summary r; s_checkpoint := s_checkpoint r;
     s_error := errBytes; s_end_time := Some t |}.

Definition FailSubtask (execID : string) (taskID : Z) (err : option error) : M unit :=
  match err with
  | None => ret tt
  | Some _ =>
      ExecuteSQLWithNewSession (fun se =>
        update_subtasks_limit1 (active_on execID taskID)
          (fail_row (serializeErr err) (now se)) se)
  end.

(** The SET clause of CancelSubtask. *)
Definition cancel_row (t : Z) (r : SubtaskRow) : SubtaskRow :=
  {| s_id := s_id r; s_step := s_step r; s_task_key := s_task_key r;
     s_type := s_type r; s_exec_id := s_exec_id r; s_state := SubtaskStateCanceled;
     s_concurrency := s_concurrency r; s_create_time := s_create_time r;
     s_ordinal := s_ordinal r; s_start_time := Some t;
     s_state_update_time := Some t; s_meta := s_meta r;
     s_summary := s_summary r; s_checkpoint := s_checkpoint r;
     s_error := s_error r; s_end_time := Some t |}.

Definition CancelSubtask (execID : string) (taskID : Z) : M unit :=
  ExecuteSQLWithNewSession (fun se =>
    update_subtasks_limit1 (active_on execID taskID) (cancel_row (now se)) se).

Definition GetActiveSubtasks (taskID : Z) : M (list Subtask) :=
  rs <- ExecuteSQLWithNewSession (query (fun d =>
          select_where
            (fun r => (s_task_key r =? taskID)
                      && in_states [SubtaskStatePending; SubtaskStateRunning] (s_state r))
            (tidb_background_subtask d))) ;;
  ret (map row2BasicSubTask rs).

Definition GetSubtasksByStepAndState (taskID step : Z) (state : string)
    : M (list Subtask) :=
  rs <- ExecuteSQLWithNewSession (query (fun d =>
          select_where
            (fun r => (s_task_key r =? taskID) && String.eqb (s_state r) state
                      && (s_step r =? step))
            (tidb_background_subtask d))) ;;
  if len rs =? 0 then ret []
  else ret (map Row2SubTask rs).

(** [select state, count( * ) ... group by state], put into a Go map. *)
Definition GetSubtaskCntGroupByStates (taskID step : Z) : M (gmap.gmap string Z) :=
  rs <- ExecuteSQLWithNewSession (query (fun d =>
          group_by s_state (fun g => len g)
            (select_where (fun r => (s_task_key r =? taskID) && (s_step r =? step))
               (tidb_background_subtask d)))) ;;
  ret (fold_left (fun (res : gmap.gmap string Z) r => <[fst r := snd r]> res) rs ∅).

(** The SET clause of UpdateSubtaskStateAndError. *)
Definition state_error_row (state : string) (errBytes : option bytes) (t : Z)
    (r : SubtaskRow) : SubtaskRow :=
  {| s_id := s_id r; s_step := s_step r; s_task_key := s_task_key r;
     s_type := s_type r; s_exec_id := s_exec_id r; s_state := state;
     s_concurrency := s_concurrency r; s_create_time := s_create_time r;
     s_ordinal := s_ordinal r; s_start_time := s_start_time r;
     s_state_update_time := Some t; s_meta := s_meta r;
     s_summary := s_summary r; s_checkpoint := s_checkpoint r;
     s_error := errBytes; s_end_time := s_end_time r |}.

Definition UpdateSubtaskStateAndError (execID : string) (id : Z) (state : string)
    (subTaskErr : option error) : M unit :=
  ExecuteSQLWithNewSession (fun se =>
    update_subtasks (owned_by id execID)
      (state_error_row state (serializeErr subTaskErr) (now se)) se).

(** The SET clause of FinishSubtask. *)
Definition finish_row (meta : bytes) (t : Z) (r : SubtaskRow) : SubtaskRow :=
  {| s_id := s_id r; s_step := s_step r; s_task_key := s_task_key r;
     s_type := s_type r; s_exec_id := s_exec_id r; s_state := TaskStateSucceed;
     s_concurrency := s_concurrency r; s_create_time := s_create_time r;
     s_ordinal := s_ordinal r; s_start_time := s_start_time r;
     s_state_update_time := Some t; s_meta := meta;
     s_summary := s_summary r; s_checkpoint := s_checkpoint r;
     s_error := s_error r; s_end_time := Some t |}.

Definition FinishSubtask (execID : string) (id : Z) (meta : bytes) : M unit :=
  ExecuteSQLWithNewSession (fun se =>
    update_subtasks (owned_by id execID) (finish_row meta (now se)) se).

Definition DeleteSubtasksByTaskID (taskID : Z) : M unit :=
  ExecuteSQLWithNewSession (delete_subtasks (fun r => s_task_key r =? taskID)).

Definition GetTaskExecutorIDsByTaskID (taskID : Z) : M (list string) :=
  rs <- ExecuteSQLWithNewSession (query (fun d =>
          distinct (map s_exec_id
                      (select_where (fun r => s_task_key r =? taskID)
                         (tidb_background_subtask d))))) ;;
  if len rs =? 0 then ret []
  else ret rs.

Definition GetTaskExecutorIDsByTaskIDAndStep (taskID step : Z) : M (list string) :=
  rs <- ExecuteSQLWithNewSession (query (fun d =>
          distinct (map s_exec_id
                      (select_where
                         (fun r => (s_task_key r =? taskID) && (s_step r =? step))
                         (tidb_background_subtask d))))) ;;
  if len rs =? 0 then ret []
  else ret rs.

Definition set_exec_id (execID : string) (r : SubtaskRow) : SubtaskRow :=
  {| s_id := s_id r; s_step := s_step r; s_task_key := s_task_key r;
     s_type := s_type r; s_exec_id := execID; s_state := s_state r;
     s_concurrency := s_concurrency r; s_create_time := s_create_time r;
     s_ordinal := s_ordinal r; s_start_time := s_start_time r;
     s_state_update_time := s_state_update_time r; s_meta := s_meta r;
     s_summary := s_summary r; s_checkpoint := s_checkpoint r;
     s_error := s_error r; s_end_time := s_end_time r |}.

Definition UpdateSubtasksExecIDs (subtasks : list Subtask) : M unit :=
  if len subtasks =? 0 then ret tt
  else
    WithNewTxn (
      for_each (fun subtask =>
        ExecSQL (update_subtasks
                   (fun r => (s_id r =? SubID subtask)
                             && String.eqb (s_state r) (SubState subtask))
                   (set_exec_id (SubExecID subtask))))
        subtasks).




Definition set_state (state : string) (r : SubtaskRow) : SubtaskRow :=
  {| s_id := s_id r; s_step := s_step r; s_task_key := s_task_key r;
     s_type := s_type r; s_exec_id := s_exec_id r; s_state := state;
     s_concurrency := s_concurrency r; s_create_time := s_create_time r;
     s_ordinal := s_ordinal r; s_start_time := s_start_time r;
     s_state_update_time := s_state_update_time r; s_meta := s_meta r;
     s_summary := s_summary r; s_checkpoint := s_checkpoint r;
     s_error := s_error r; s_end_time := s_end_time r |}.

Definition PauseSubtasks (execID : string) (taskID : Z) : M unit :=
  ExecuteSQLWithNewSession
    (update_subtasks
       (fun r => (s_task_key r =? taskID) && in_states ["running"; "pending"] (s_state r)
                 && String.eqb (s_exec_id r) execID)
       (set_state "paused")).

(** [set state = "pending", error = null]. *)
Definition resume_row (r : SubtaskRow) : SubtaskRow :=
  {| s_id := s_id r; s_step := s_step r; s_task_key := s_task_key r;
     s_type := s_type r; s_exec_id := s_exec_id r; s_state := "pending";
     s_concurrency := s_concurrency r; s_create_time := s_create_time r;
     s_ordinal := s_ordinal r; s_start_time := s_start_time r;
     s_state_update_time := s_state_update_time r; s_meta := s_meta r;
     s_summary := s_summary r; s_checkpoint := s_checkpoint r;
     s_error := None; s_end_time := s_end_time r |}.

Definition ResumeSubtasks (taskID : Z) : M unit :=
  ExecuteSQLWithNewSession
    (update_subtasks
       (fun r => (s_task_key r =? taskID) && String.eqb (s_state r) "paused")
       resume_row).

(** *** Node registry *)

(** [insert ... on duplicate key update ...]: [host] is the key of the
    table; the constant column keyspace_id is left out. *)
Definition upsert_node (host role : string) (cpuCount : Z)
    (onDuplicate : ManagedNode -> ManagedNode) (se : Session) : unit * Session :=
  let table := dist_framework_meta (store se) in
  let same n := String.eqb (NodeID n) host in
  if existsb same table then
    (tt, set_AffectedRows (2 * changed_rows same onDuplicate table)
           (set_store (set_nodes (update_where same onDuplicate table) (store se)) se))
  else
    (tt, set_AffectedRows 1
           (set_store
              (set_nodes (table ++ [{| NodeID := host; Role := role;
                                       CPUCount := cpuCount |}]) (store se)) se)).

Definition InitMetaSession (execID role : string) : M unit :=
  let cpuCount := GetCPUCount in
  ExecSQL (upsert_node execID role cpuCount
             (fun n => {| NodeID := NodeID n; Role := role; CPUCount := cpuCount |})).

Definition InitMeta (tidbID role : string) : M unit :=
  WithNewSession (InitMetaSession tidbID role).

Definition RecoverMeta (execID role : string) : M unit :=
  let cpuCount := GetCPUCount in
  ExecuteSQLWithNewSession
    (upsert_node execID role cpuCount
       (fun n => {| NodeID := NodeID n; Role := Role n; CPUCount := cpuCount |})).

Definition GetManagedNodes : M (list ManagedNode) :=
  WithNewSession getManagedNodesWithSession.

Definition GetAllNodes : M (list ManagedNode) :=
  WithNewSession getAllNodesWithSession.

Definition GetCPUCountOfManagedNode : M Z :=
  WithNewSession getCPUCountOfManagedNode.

(** *** History *)

Definition GetSubtasksWithHistory (taskID step : Z) : M (list Subtask) :=
  rs <- WithNewTxn (
          rs <- ExecSQL (query (fun d =>
                  select_where (fun r => (s_task_key r =? taskID) && (s_step r =? step))
                    (tidb_background_subtask d))) ;;
          rsFromHistory <- ExecSQL (query (fun d =>
                  select_where (fun r => (s_task_key r =? taskID) && (s_step r =? step))
                    (tidb_background_subtask_history d))) ;;
          ret (rs ++ rsFromHistory)) ;;
  if len rs =? 0 then ret []
  else ret (map Row2SubTask rs).

Definition defaultSubtaskKeepDays : Z := 14.

(** [DELETE ... WHERE state_update_time < UNIX_TIMESTAMP() - %d]; the
    failpoint is off, and a comparison with NULL selects nothing. *)
Definition GCSubtasks : M unit :=
  let subtaskHistoryKeepSeconds := defaultSubtaskKeepDays * 24 * 60 * 60 in
  ExecuteSQLWithNewSession (fun se =>
    let d := store se in
    let old r := match s_state_update_time r with
                 | Some t => t <? now se - subtaskHistoryKeepSeconds
                 | None => false
                 end in
    (tt, set_AffectedRows
           (len (select_where old (tidb_background_subtask_history d)))
           (set_store
              (set_subtask_history
                 (delete_where old (tidb_background_subtask_history d)) d) se))).

End TaskManagerRest.

(** ** A concrete environment

    Values for the constants of the other packages, and a decoder that
    accepts exactly the byte strings that start with an opening brace; used
    to run the methods on examples. *)
Definition sample_unmarshal (b : bytes) : error + NormalizedError :=
  match b with
  | "{"%byte :: _ => inr (Normalize (string_of_list_byte b))
  | _ => inl (ErrJSON "invalid character looking for beginning of value")
  end.

Definition sample_extern (txnLimit : Z) (inTest : bool) : Extern :=
  {| MaxConcurrentTask := 4;
     NormalPriority := 512;
     StepInit := -1;
     Type2Int := fun _ => 0;
     DefTiDBMemQuotaQuery := 1073741824;
     InTest := inTest;
     TxnTotalSizeLimit := txnLimit;
     UnmarshalJSON := sample_unmarshal;
     MarshalJSON := fun e => inr (list_byte_of_string (ne_message e));
     ErrorText := fun _ => "error" |}.

Definition empty_db : DB :=
  {| tidb_global_task := []; tidb_global_task_history := [];
     tidb_background_subtask := []; tidb_background_subtask_history := [];
     dist_framework_meta := [] |}.

(** A session on [d] with the clock at [t] and the store answering with the
    failures [fs]. *)
Definition session_on (d : DB) (t : Z) (fs : list bool) : Session :=
  {| store := d; txn_begin := None; AffectedRows := 0; last_insert_id := 0;
     MemQuotaQuery := 1073741824; now := t; task_auto_inc := 100;
     subtask_auto_inc := 1000; faults := fs |}.

Definition sample_env : Extern := sample_extern 5 false.

Definition sample_host : Host :=
  {| Int2Type := fun _ => "import"; GetCPUCount := 8 |}.

Definition sample_task_row (id : Z) (state : string) (step priority created : Z)
    (meta : bytes) : TaskRow :=
  {| t_id := id; t_task_key := "job1"; t_type := "import"; t_state := state;
     t_step := step; t_priority := priority; t_concurrency := 4;
     t_create_time := created; t_start_time := None; t_state_update_time := None;
     t_meta := meta; t_dispatcher_id := ""; t_error := None |}.

Definition sample_task (id : Z) (state : string) (step : Z) (meta : bytes) : Task :=
  {| ID := id; Key := "job1"; Type_ := "import"; State := state; Step := step;
     Priority := 512; Concurrency := 4; CreateTime := 10; StartTime := None;
     StateUpdateTime := None; Meta := meta; SchedulerID := ""; Error := None |}.

Definition sample_subtask_row (id taskID step : Z) (exec state : string)
    (err : option bytes) : SubtaskRow :=
  {| s_id := id; s_step := step; s_task_key := taskID; s_type := 0;
     s_exec_id := exec; s_state := state; s_concurrency := 1; s_create_time := 10;
     s_ordinal := Some 1; s_start_time := None; s_state_update_time := None;
     s_meta := []; s_summary := "{}"; s_checkpoint := "{}";
     s_error := err; s_end_time := None |}.

Definition sample_subtask (taskID step : Z) (exec : string) (meta : bytes) : Subtask :=
  {| SubID := 0; SubStep := step; SubTaskID := taskID; SubType := "";
     SubExecID := exec; SubState := ""; SubConcurrency := 1; SubCreateTime := 0;
     SubOrdinal := 1; SubStartTime := None; SubUpdateTime := None;
     SubMeta := meta; SubSummary := "" |}.

(** ** Auxiliary definitions for the statements below *)

(** The sum of [len(s.Meta)] over a batch. *)
Definition meta_size (batch : list Subtask) : Z :=
  fold_right (fun s acc => len (SubMeta s) + acc) 0 batch.

(** What the loop of splitSubtasks keeps true of [(res, currBatch, size)]. *)
Definition split_inv (bound : Z) (st : list (list Subtask) * list Subtask * Z) : Prop :=
  let '(res, currBatch, size) := st in
  size = meta_size currBatch
  /\ (1 < len currBatch -> meta_size currBatch <= bound)
  /\ Forall (fun batch => 1 < len batch -> meta_size batch <= bound) res.

Definition split_flat (st : list (list Subtask) * list Subtask * Z) : list Subtask :=
  let '(res, currBatch, _) := st in concat res ++ currBatch.

(** The managed nodes of getManagedNodesWithSession as a function of the
    tables. *)
Definition managed_nodes (d : DB) : list ManagedNode :=
  let nodes := merge_sort host_le (dist_framework_meta d) in
  if len (nodes_of_role "background" nodes) =? 0
  then nodes_of_role "" nodes
  else nodes_of_role "background" nodes.

(** [m] leaves the transaction open or closed as it found it. *)
Definition keeps_txn {A} (m : M A) : Prop :=
  forall s r s', m s = (r, s') -> txn_begin s' = txn_begin s.

(** [m] leaves the session variable tidb_mem_quota_query as it found it. *)
Definition keeps_quota {A} (m : M A) : Prop :=
  forall s r s', m s = (r, s') -> MemQuotaQuery s' = MemQuotaQuery s.

(** What SwitchTaskStep writes when both of its statements take effect. *)
Definition switched (task : Task) (nextState : string) (nextStep : Z)
    (rows : list SubtaskRow) (t : Z) (d : DB) : DB :=
  set_subtasks (tidb_background_subtask d ++ rows)
    (set_tasks (update_where (at_state_step task)
                  (switch_row task nextState nextStep t) (tidb_global_task d)) d).

(** What CollectSubTaskError makes of one stored error it can decode. *)
Definition collected (decode : bytes -> error + NormalizedError) (stored : option bytes)
    (entry : option error) : Prop :=
  match stored with
  | None => entry = None
  | Some errBytes =>
      if len errBytes =? 0 then entry = None
      else exists stdErr, decode errBytes = inr stdErr /\ entry = Some (ErrStd stdErr)
  end.

(** A stored error the decoder accepts, or none. *)
Definition decodable (decode : bytes -> error + NormalizedError) (stored : option bytes)
    : Prop :=
  match stored with
  | None => True
  | Some errBytes => len errBytes = 0 \/ exists stdErr, decode errBytes = inr stdErr
  end.

(** The subtask table after one UPDATE per given subtask, the UPDATEs taken
    in the order of the list. *)
Definition updated_each (p : Subtask -> SubtaskRow -> bool)
    (f : Subtask -> SubtaskRow -> SubtaskRow) (subtasks : list Subtask)
    (table : list SubtaskRow) : list SubtaskRow :=
  fold_left (fun tab s => update_where (p s) (f s) tab) subtasks table.

(** ** Lengths *)

Lemma len_app {A} (l1 l2 : list A) : len (l1 ++ l2) = len l1 + len l2.
Proof. unfold len. rewrite length_app. lia. Qed.

Lemma len_nonneg {A} (l : list A) : 0 <= len l.
Proof. unfold len. lia. Qed.

(** ** Batching of subtasks *)

Section SplitSubtasks.
Context `{Extern}.



Lemma meta_size_snoc batch s :
  meta_size (batch ++ [s]) = meta_size batch + len (SubMeta s).
Proof.
  induction batch as [|x batch IH]; simpl; [lia|]. rewrite IH. lia.
Qed.


Lemma split_step_inv bound st s :
  split_inv bound st -> split_inv bound (split_step bound st s).
Proof.
  destruct st as [[res cur] size]. unfold split_inv, split_step.
  intros (Hsize & Hcur & Hres).
  destruct (bound <? size + len (SubMeta s)) eqn:Hflush.
  - repeat split.
    + simpl. lia.
    + simpl. unfold len. simpl. lia.
    + apply Forall_app. split; [exact Hres|]. constructor; [exact Hcur|constructor].
  - apply Z.ltb_ge in Hflush. repeat split.
    + rewrite meta_size_snoc. lia.
    + intros _. rewrite meta_size_snoc. lia.
    + exact Hres.
Qed.

Lemma split_step_flat bound st s :
  split_flat (split_step bound st s) = split_flat st ++ [s].
Proof.
  destruct st as [[res cur] size]. unfold split_flat, split_step.
  destruct (bound <? size + len (SubMeta s)).
  - rewrite concat_app. simpl. rewrite !app_nil_r. reflexivity.
  - rewrite app_assoc. reflexivity.
Qed.

Lemma split_loop bound subtasks st :
  split_inv bound st ->
  split_inv bound (fold_left (split_step bound) subtasks st)
  /\ split_flat (fold_left (split_step bound) subtasks st) = split_flat st ++ subtasks.
Proof.
  revert st. induction subtasks as [|s rest IH]; intros st Hinv; simpl.
  - rewrite app_nil_r. auto.
  - destruct (IH (split_step bound st s) (split_step_inv bound st s Hinv)) as [Hi Hf].
    split; [exact Hi|]. rewrite Hf, split_step_flat, <- app_assoc. reflexivity.
Qed.

Lemma splitSubtasks_flat_bounded (subtasks : list Subtask) :
  concat (splitSubtasks subtasks) = subtasks
  /\ Forall (fun batch => 1 < len batch -> meta_size batch <= maxSize)
       (splitSubtasks subtasks).
Proof.
  unfold splitSubtasks.
  assert (Hinit : split_inv maxSize ([], [], 0)).
  { repeat split; simpl; try constructor. unfold len. simpl. lia. }
  destruct (split_loop maxSize subtasks _ Hinit) as [Hinv Hflat].
  destruct (fold_left (split_step maxSize) subtasks ([], [], 0)) as [[res cur] size].
  simpl in Hflat. destruct Hinv as (_ & Hcur & Hres).
  destruct (0 <? len cur) eqn:Hlen.
  - split.
    + rewrite concat_app. simpl. rewrite app_nil_r. exact Hflat.
    + apply Forall_app. split; [exact Hres|]. constructor; [exact Hcur|constructor].
  - apply Z.ltb_ge in Hlen. split; [|exact Hres].
    destruct cur as [|x cur]; [rewrite app_nil_r in Hflat; exact Hflat|].
    unfold len in Hlen. simpl in Hlen. lia.
Qed.

(** C9: the batches of splitSubtasks, put end to end, are the input list,
    and a batch of more than one subtask holds at most
    min(TxnTotalSizeLimit, maxSubtaskBatchSize) bytes of Meta. *)
Theorem splitSubtasks_concat_and_bound (subtasks : list Subtask) :
  concat (splitSubtasks subtasks) = subtasks
  /\ Forall (fun batch =>
               1 < len batch ->
               meta_size batch <= Z.min TxnTotalSizeLimit maxSubtaskBatchSize)
       (splitSubtasks subtasks).
Proof. exact (splitSubtasks_flat_bounded subtasks). Qed.

End SplitSubtasks.

(** ** Statements and transactions on a store that answers *)

Section Statements.

Lemma changed_rows_nonneg {R} `{EqDecision R} (p : R -> bool) (f : R -> R) table :
  0 <= changed_rows p f table.
Proof. apply len_nonneg. Qed.

Lemma len_zero_nil {A} (l : list A) : len l = 0 -> l = [].
Proof. destruct l; [reflexivity|]. unfold len. simpl. lia. Qed.

(** No row counts as changed exactly when the update leaves every matching
    row as it is. *)
Lemma changed_rows_zero {R} `{EqDecision R} (p : R -> bool) (f : R -> R) table :
  changed_rows p f table = 0 <-> (forall r, In r table -> p r = true -> f r = r).
Proof.
  unfold changed_rows. split.
  - intros Hz r Hin Hp. apply len_zero_nil in Hz.
    destruct (decide (f r = r)) as [|Hne]; [assumption|].
    assert (Hr : In r (List.filter (fun r => p r && negb (bool_decide (f r = r))) table)).
    { apply filter_In. split; [assumption|]. rewrite Hp. simpl.
      apply negb_true_iff, bool_decide_eq_false. assumption. }
    rewrite Hz in Hr. destruct Hr.
  - intros Hall. induction table as [|x table IH]; [reflexivity|].
    simpl. destruct (p x) eqn:Hp; simpl.
    + rewrite bool_decide_eq_true_2 by (apply Hall; [left; reflexivity|assumption]).
      simpl. apply IH. intros r Hin. apply Hall. right. assumption.
    + apply IH. intros r Hin. apply Hall. right. assumption.
Qed.

Lemma update_where_unchanged {R} `{EqDecision R} (p : R -> bool) (f : R -> R) table :
  changed_rows p f table = 0 -> update_where p f table = table.
Proof.
  rewrite changed_rows_zero. intros Hall. unfold update_where.
  induction table as [|x table IH]; [reflexivity|]. simpl. f_equal.
  - destruct (p x) eqn:Hp; [|reflexivity]. apply Hall; [left; reflexivity|assumption].
  - apply IH. intros r Hin. apply Hall. right. assumption.
Qed.

Lemma update_where_no_match {R} `{EqDecision R} (p : R -> bool) (f : R -> R) table :
  (forall r, In r table -> p r = false) ->
  changed_rows p f table = 0 /\ update_where p f table = table.
Proof.
  intros Hnone.
  assert (Hz : changed_rows p f table = 0).
  { apply changed_rows_zero. intros r Hin Hp. rewrite (Hnone r Hin) in Hp. discriminate. }
  split; [assumption|]. apply update_where_unchanged. assumption.
Qed.

Lemma changed_rows_pos {R} `{EqDecision R} (p : R -> bool) (f : R -> R) table r :
  In r table -> p r = true -> f r <> r -> 0 < changed_rows p f table.
Proof.
  intros Hin Hp Hne.
  pose proof (changed_rows_nonneg p f table) as Hge.
  destruct (decide (changed_rows p f table = 0)) as [Hz|]; [|lia].
  exfalso. apply Hne. apply (proj1 (changed_rows_zero p f table) Hz r Hin Hp).
Qed.

Lemma In_update_where {R} `{EqDecision R} (p : R -> bool) (f : R -> R) table r :
  In r table -> p r = true -> In (f r) (update_where p f table).
Proof.
  intros Hin Hp. unfold update_where.
  apply in_map_iff. exists r. rewrite Hp. auto.
Qed.

Lemma ExecSQL_healthy {A} (stmt : Session -> A * Session) se :
  faults se = [] -> ExecSQL stmt se = (inr (fst (stmt se)), snd (stmt se)).
Proof.
  intros Hf. unfold ExecSQL. rewrite Hf. destruct (stmt se). reflexivity.
Qed.

(** A transaction on a store that answers: the closure's writes are kept
    when it returns nil and dropped when it returns an error. *)
Lemma WithNewTxn_commit {A} (fn : M A) se a se2 :
  faults se = [] ->
  fn (set_txn_begin (Some (store se)) se) = (inr a, se2) ->
  faults se2 = [] ->
  WithNewTxn fn se = (inr a, set_txn_begin None se2).
Proof.
  intros Hf Hfn Hf2. unfold WithNewTxn, WithNewSession, ExecSQL.
  rewrite Hf. simpl. rewrite Hfn, Hf2. reflexivity.
Qed.

Lemma WithNewTxn_rollback {A} (fn : M A) se e se2 :
  faults se = [] ->
  fn (set_txn_begin (Some (store se)) se) = (inl e, se2) ->
  faults se2 = [] ->
  WithNewTxn fn se = (inl e, abort_txn (abort_txn se2)).
Proof.
  intros Hf Hfn Hf2. unfold WithNewTxn, WithNewSession, ExecSQL.
  rewrite Hf. simpl. rewrite Hfn, Hf2. reflexivity.
Qed.

Lemma keeps_txn_ret {A} (a : A) : keeps_txn (ret a).
Proof. intros s r s' Heq. injection Heq as _ <-. reflexivity. Qed.

Lemma keeps_txn_bind {A B} (m : M A) (k : A -> M B) :
  keeps_txn m -> (forall a, keeps_txn (k a)) -> keeps_txn (bind m k).
Proof.
  intros Hm Hk s r s' Heq. unfold bind in Heq.
  destruct (m s) as [[e|a] s1] eqn:Hms.
  - injection Heq as _ <-. apply (Hm _ _ _ Hms).
  - rewrite (Hk a _ _ _ Heq). apply (Hm _ _ _ Hms).
Qed.

Lemma keeps_txn_ExecSQL {A} (stmt : Session -> A * Session) :
  (forall s, txn_begin (snd (stmt s)) = txn_begin s) -> keeps_txn (ExecSQL stmt).
Proof.
  intros Hstmt s r s' Heq. unfold ExecSQL in Heq.
  destruct (faults s) as [|[] fs].
  - specialize (Hstmt s). destruct (stmt s). injection Heq as _ <-. exact Hstmt.
  - injection Heq as _ <-. reflexivity.
  - specialize (Hstmt (set_faults fs s)). destruct (stmt (set_faults fs s)).
    injection Heq as _ <-. exact Hstmt.
Qed.

Lemma keeps_txn_for_each {A} (f : A -> M unit) l :
  (forall a, keeps_txn (f a)) -> keeps_txn (for_each f l).
Proof.
  intros Hf. induction l as [|a l IH]; simpl.
  - apply keeps_txn_ret.
  - apply keeps_txn_bind; [apply Hf|intros _; exact IH].
Qed.

(** A transaction that ends in an error leaves the tables as they were. *)
Lemma WithNewTxn_error_unchanged {A} (fn : M A) se e se' :
  keeps_txn fn -> WithNewTxn fn se = (inl e, se') -> store se' = store se.
Proof.
  intros Hk Heq. unfold WithNewTxn, WithNewSession in Heq.
  destruct (ExecSQL sql_begin se) as [[e0|u] se1] eqn:Hb.
  - injection Heq as _ <-. unfold ExecSQL in Hb.
    destruct (faults se) as [|[] fs]; simpl in Hb;
      try discriminate; injection Hb as _ <-; reflexivity.
  - assert (Hse1 : txn_begin se1 = Some (store se)).
    { unfold ExecSQL in Hb.
      destruct (faults se) as [|[] fs]; simpl in Hb;
        try discriminate; injection Hb as _ <-; reflexivity. }
    destruct (fn se1) as [[e1|a] se2] eqn:Hfn;
      pose proof (Hk _ _ _ Hfn) as Hse2; rewrite Hse1 in Hse2.
    + destruct (ExecSQL sql_rollback se2) as [r3 se3] eqn:Hr.
      injection Heq as _ <-. unfold ExecSQL in Hr.
      destruct (faults se2) as [|[] fs]; simpl in Hr; injection Hr as _ <-;
        unfold abort_txn; simpl; rewrite Hse2; reflexivity.
    + destruct (ExecSQL sql_commit se2) as [[e3|u3] se3] eqn:Hc; [|discriminate].
      injection Heq as _ <-. unfold ExecSQL in Hc.
      destruct (faults se2) as [|[] fs]; simpl in Hc;
        try discriminate; injection Hc as _ <-.
      unfold abort_txn. simpl. rewrite Hse2. reflexivity.
Qed.

(** The two renderings of [WithNewTxn] agree on a closure that assigns no
    variable of its caller. *)
Lemma WithNewTxnVar_WithNewTxn {A L} (fn : M A) (l : L) se :
  WithNewTxnVar (fun l se => let '(r, se') := fn se in (r, l, se')) l se
  = (let '(r, se') := WithNewTxn fn se in (r, l, se')).
Proof.
  unfold WithNewTxnVar, WithNewTxn, WithNewSession.
  destruct (ExecSQL sql_begin se) as [[e|u] se1]; [reflexivity|].
  destruct (fn se1) as [[e|a] se2].
  - destruct (ExecSQL sql_rollback se2). reflexivity.
  - destruct (ExecSQL sql_commit se2) as [[e|u'] se3]; reflexivity.
Qed.

(** The tables are a record of five lists. *)
Lemma set_subtasks_same d : set_subtasks (tidb_background_subtask d) d = d.
Proof. destruct d. reflexivity. Qed.

Lemma set_tasks_same d : set_tasks (tidb_global_task d) d = d.
Proof. destruct d. reflexivity. Qed.

End Statements.

(** ** StartSubtask *)

Section StartSubtask.
Context `{Extern}.

Lemma owned_by_true subtaskID execID r :
  owned_by subtaskID execID r = true <-> s_id r = subtaskID /\ s_exec_id r = execID.
Proof.
  unfold owned_by. rewrite andb_true_iff, Z.eqb_eq, String.eqb_eq. reflexivity.
Qed.

(** What StartSubtask does on a store that answers every statement:
    whether it commits or, having changed no row, rolls back, the subtask
    table afterwards is the one its UPDATE gives, and the call fails with
    ErrSubtaskNotFound exactly when the UPDATE changed no row. *)
Lemma StartSubtask_healthy se subtaskID execID :
  faults se = [] ->
  let table := tidb_background_subtask (store se) in
  let n := changed_rows (owned_by subtaskID execID)
             (start_row TaskStateRunning (now se)) table in
  fst (StartSubtask subtaskID execID se)
    = (if n =? 0 then inl ErrSubtaskNotFound else inr tt)
  /\ store (snd (StartSubtask subtaskID execID se))
     = set_subtasks (update_where (owned_by subtaskID execID)
                       (start_row TaskStateRunning (now se)) table) (store se).
Proof.
  intros Hf table n.
  unfold StartSubtask, WithNewTxn, WithNewSession, ExecSQL, bind, get_session.
  rewrite Hf. simpl. rewrite Hf. simpl. fold table. fold n.
  destruct (n =? 0) eqn:Hn.
  - simpl. rewrite Hf. simpl. split; [reflexivity|].
    apply Z.eqb_eq in Hn. subst n. rewrite update_where_unchanged by assumption.
    subst table. rewrite set_subtasks_same. reflexivity.
  - simpl. rewrite Hf. simpl. split; reflexivity.
Qed.

(** Without a row for the predicate the closure of StartSubtask ends in an
    error whatever the store answers. *)
Lemma StartSubtask_fn_not_owned subtaskID execA se1 :
  (forall r, In r (tidb_background_subtask (store se1)) ->
             owned_by subtaskID execA r = false) ->
  exists e se2,
    (ExecSQL (fun se =>
       update_subtasks (owned_by subtaskID execA)
         (start_row TaskStateRunning (now se)) se) ;;;
     vars <- get_session ;;
     if AffectedRows vars =? 0 then throw ErrSubtaskNotFound else ret tt) se1
    = (inl e, se2)
    /\ (e = ErrSubtaskNotFound \/ e = ErrStore).
Proof.
  intros Hnone. unfold bind, ExecSQL, get_session.
  destruct (faults se1) as [|[] fs]; simpl.
  - rewrite (proj1 (update_where_no_match _ _ _ Hnone)). simpl. eauto.
  - eauto.
  - rewrite (proj1 (update_where_no_match _ _ _ Hnone)). simpl. eauto.
Qed.

(** C7: StartSubtask by an executor that does not own the subtask, or for
    an id no row has, fails with ErrSubtaskNotFound whatever the state of
    the row, and changes nothing; on a store that fails a statement the
    error is the store's, and still nothing is changed. *)
Theorem StartSubtask_not_owned se subtaskID execA :
  (forall r, In r (tidb_background_subtask (store se)) ->
             s_id r = subtaskID -> s_exec_id r <> execA) ->
  (faults se = [] -> fst (StartSubtask subtaskID execA se) = inl ErrSubtaskNotFound)
  /\ (fst (StartSubtask subtaskID execA se) = inl ErrSubtaskNotFound
      \/ fst (StartSubtask subtaskID execA se) = inl ErrStore)
  /\ store (snd (StartSubtask subtaskID execA se)) = store se.
Proof.
  intros Hown.
  assert (Hnone : forall r, In r (tidb_background_subtask (store se)) ->
                            owned_by subtaskID execA r = false).
  { intros r Hin. destruct (owned_by subtaskID execA r) eqn:Hp; [|reflexivity].
    apply owned_by_true in Hp. destruct Hp as [Hid Hex].
    exfalso. exact (Hown r Hin Hid Hex). }
  assert (Herr : fst (StartSubtask subtaskID execA se) = inl ErrSubtaskNotFound
                 \/ fst (StartSubtask subtaskID execA se) = inl ErrStore).
  { unfold StartSubtask, WithNewTxn, WithNewSession.
    destruct (ExecSQL sql_begin se) as [[e0|u] se1] eqn:Hb.
    - right. unfold ExecSQL in Hb.
      destruct (faults se) as [|[] fs]; simpl in Hb; try discriminate.
      injection Hb as <- _. reflexivity.
    - assert (Hse1 : store se1 = store se).
      { unfold ExecSQL in Hb.
        destruct (faults se) as [|[] fs]; simpl in Hb;
          try discriminate; injection Hb as _ <-; reflexivity. }
      rewrite <- Hse1 in Hnone.
      destruct (StartSubtask_fn_not_owned subtaskID execA se1 Hnone)
        as (e & se2 & Hfn & He).
      rewrite Hfn. destruct (ExecSQL sql_rollback se2). simpl.
      destruct He as [-> | ->]; auto. }
  split; [|split; [exact Herr|]].
  - intros Hf.
    destruct (StartSubtask_healthy se subtaskID execA Hf) as [Hres _].
    rewrite Hres, (proj1 (update_where_no_match _ _ _ Hnone)). reflexivity.
  - destruct (StartSubtask subtaskID execA se) as [r se'] eqn:Hrun.
    simpl in Herr |- *.
    assert (He : exists e, r = inl e) by (destruct Herr as [-> | ->]; eauto).
    destruct He as [e ->].
    unfold StartSubtask in Hrun.
    refine (WithNewTxn_error_unchanged _ _ _ _ _ Hrun).
    apply keeps_txn_bind; [apply keeps_txn_ExecSQL; reflexivity|].
    intros _. apply keeps_txn_bind.
    + intros s r s' Heq. injection Heq as _ <-. reflexivity.
    + intros vars. destruct (AffectedRows vars =? 0).
      * intros s r s' Heq. injection Heq as _ <-. reflexivity.
      * apply keeps_txn_ret.
Qed.

(** C10: the UPDATE of StartSubtask asks for the id and the executor only:
    a row of that id owned by the executor is set to running with the
    current time as start time whatever its state was, and for a row that
    was not running (succeed, failed, canceled, ...) the call succeeds. *)
Theorem StartSubtask_ignores_state se subtaskID execID r :
  faults se = [] ->
  In r (tidb_background_subtask (store se)) ->
  s_id r = subtaskID -> s_exec_id r = execID ->
  let se' := snd (StartSubtask subtaskID execID se) in
  tidb_background_subtask (store se')
    = update_where (owned_by subtaskID execID) (start_row TaskStateRunning (now se))
        (tidb_background_subtask (store se))
  /\ In (start_row TaskStateRunning (now se) r) (tidb_background_subtask (store se'))
  /\ s_state (start_row TaskStateRunning (now se) r) = SubtaskStateRunning
  /\ s_start_time (start_row TaskStateRunning (now se) r) = Some (now se)
  /\ (s_state r <> SubtaskStateRunning ->
      fst (StartSubtask subtaskID execID se) = inr tt).
Proof.
  intros Hf Hin Hid Hex se'.
  destruct (StartSubtask_healthy se subtaskID execID Hf) as [Hres Hstore].
  assert (Hp : owned_by subtaskID execID r = true) by (apply owned_by_true; auto).
  assert (Htab : tidb_background_subtask (store se')
    = update_where (owned_by subtaskID execID) (start_row TaskStateRunning (now se))
        (tidb_background_subtask (store se))).
  { subst se'. rewrite Hstore. reflexivity. }
  split; [exact Htab|]. split.
  { rewrite Htab. apply In_update_where; assumption. }
  split; [reflexivity|]. split; [reflexivity|].
  intros Hstate. rewrite Hres.
  assert (Hpos : 0 < changed_rows (owned_by subtaskID execID)
                       (start_row TaskStateRunning (now se))
                       (tidb_background_subtask (store se))).
  { apply (changed_rows_pos _ _ _ r Hin Hp). intros Heq. apply Hstate.
    rewrite <- Heq. reflexivity. }
  destruct (Z.eqb_spec (changed_rows (owned_by subtaskID execID)
                       (start_row TaskStateRunning (now se))
                       (tidb_background_subtask (store se))) 0); [lia|reflexivity].
Qed.

End StartSubtask.

(** ** SwitchTaskStep *)

Section SwitchTaskStep.
Context `{Extern}.

Lemma insertSubtasks_healthy subtasks se :
  faults se = [] ->
  insertSubtasks subtasks se
  = (inr tt,
     if len subtasks =? 0 then se
     else snd (insert_subtask_rows (pending_row (now se)) subtasks se)).
Proof.
  intros Hf. unfold insertSubtasks.
  destruct (len subtasks =? 0); [reflexivity|].
  unfold ExecSQL. rewrite Hf. reflexivity.
Qed.

Lemma number_rows_nil mk next subtasks :
  len subtasks = 0 -> number_rows mk next subtasks = [].
Proof. intros Hl. apply len_zero_nil in Hl. subst. reflexivity. Qed.




Lemma GetTaskByID_healthy taskID se :
  faults se = [] ->
  GetTaskByID taskID se
  = (match select_where (fun r => t_id r =? taskID) (tidb_global_task (store se)) with
     | [] => inl ErrTaskNotFound
     | r :: _ => inr (row2Task r)
     end, set_AffectedRows 0 se).
Proof.
  intros Hf. unfold GetTaskByID, ExecuteSQLWithNewSession, WithNewSession, bind, ExecSQL.
  rewrite Hf. simpl.
  destruct (select_where _ _); reflexivity.
Qed.

(** An UPDATE that keeps the id keeps the rows a SELECT by id finds, in
    place. *)
Lemma select_id_update_where p f taskID table :
  (forall r, t_id (f r) = t_id r) ->
  select_where (fun r => t_id r =? taskID) (update_where p f table)
  = update_where p f (select_where (fun r => t_id r =? taskID) table).
Proof.
  intros Hid. unfold select_where, update_where.
  induction table as [|x table IH]; [reflexivity|]. simpl.
  assert (Hx : t_id (if p x then f x else x) = t_id x)
    by (destruct (p x); [apply Hid|reflexivity]).
  rewrite Hx. destruct (t_id x =? taskID); simpl; rewrite IH; reflexivity.
Qed.







End SwitchTaskStep.

(** ** SwitchTaskStepInBatch *)

Section SwitchTaskStepInBatch.
Context `{Extern}.

Lemma number_rows_app mk next l1 l2 :
  number_rows mk next (l1 ++ l2)
  = number_rows mk next l1 ++ number_rows mk (next + len l1) l2.
Proof.
  revert next. induction l1 as [|s l1 IH]; intros next; simpl.
  - f_equal. unfold len. simpl. lia.
  - f_equal. rewrite IH. f_equal. f_equal. unfold len. simpl. lia.
Qed.

(** Inserting the batches one statement each adds the rows of all of them,
    numbered through. *)
Lemma insert_batches_healthy batches se :
  faults se = [] ->
  exists se',
    for_each insertSubtasks batches se = (inr tt, se')
    /\ faults se' = [] /\ now se' = now se
    /\ subtask_auto_inc se' = subtask_auto_inc se + len (concat batches)
    /\ store se'
       = set_subtasks
           (tidb_background_subtask (store se)
              ++ number_rows (pending_row (now se)) (subtask_auto_inc se) (concat batches))
           (store se).
Proof.
  revert se. induction batches as [|batch batches IH]; intros se Hf; simpl.
  - exists se. unfold ret. repeat split; try assumption.
    + unfold len. simpl. lia.
    + rewrite app_nil_r, set_subtasks_same. reflexivity.
  - unfold bind. rewrite insertSubtasks_healthy by assumption.
    destruct (len batch =? 0) eqn:Hb.
    + apply Z.eqb_eq, len_zero_nil in Hb. subst batch. simpl. apply IH. assumption.
    + set (se1 := snd (insert_subtask_rows (pending_row (now se)) batch se)).
      destruct (IH se1 Hf) as (se' & Hrun & Hf' & Hnow & Hinc & Hstore).
      exists se'. split; [exact Hrun|]. split; [exact Hf'|].
      split; [rewrite Hnow; reflexivity|]. split.
      * rewrite Hinc. simpl. rewrite len_app. lia.
      * rewrite Hstore. simpl. rewrite number_rows_app, app_assoc.
        destruct (store se). reflexivity.
Qed.

(** C6, amended: on a store that answers, SwitchTaskStepInBatch fails, with
    ErrUnstableSubtasks as cause and nothing written, exactly when more
    subtask rows exist for (task, nextStep) than subtasks are given;
    otherwise it succeeds, having inserted the given subtasks but the first
    existingTaskCnt and then run the UPDATE of updateTaskStateStep, which
    carries the predicate id = task.ID and state = task.State and
    step = task.Step and whose affected-row count is not looked at. *)
Theorem SwitchTaskStepInBatch_healthy task nextState nextStep subtasks se :
  faults se = [] ->
  let d := store se in
  let existingTaskCnt := count_subtasks (ID task) nextStep d in
  let result := SwitchTaskStepInBatch task nextState nextStep subtasks se in
  (len subtasks < existingTaskCnt ->
     fst result = inl (Annotatef ErrUnstableSubtasks [len subtasks; existingTaskCnt])
     /\ Cause (Annotatef ErrUnstableSubtasks [len subtasks; existingTaskCnt])
        = ErrUnstableSubtasks
     /\ store (snd result) = d)
  /\ (existingTaskCnt <= len subtasks ->
        fst result = inr tt
        /\ store (snd result)
           = set_tasks
               (update_where (at_state_step task)
                  (switch_row task nextState nextStep (now se)) (tidb_global_task d))
               (set_subtasks
                  (tidb_background_subtask d
                     ++ number_rows (pending_row (now se)) (subtask_auto_inc se)
                          (drop (Z.to_nat existingTaskCnt) subtasks))
                  d)).
Proof.
  intros Hf d cnt result. subst result.
  unfold SwitchTaskStepInBatch, WithNewSession, bind.
  rewrite ExecSQL_healthy by assumption. cbn [query fst snd]. fold d cnt.
  split; intros Hcnt.
  - destruct (Z.ltb_spec (len subtasks) cnt) as [_|Hge]; [|lia].
    simpl. split; [reflexivity|]. split; reflexivity.
  - destruct (Z.ltb_spec (len subtasks) cnt) as [Hlt|_]; [lia|].
    destruct (insert_batches_healthy
                (splitSubtasks (drop (Z.to_nat cnt) subtasks))
                (set_AffectedRows 0 se) Hf)
      as (se' & Hrun & Hf' & Hnow & _ & Hstore).
    rewrite Hrun. unfold updateTaskStateStep. rewrite ExecSQL_healthy by assumption.
    simpl.
    split; [reflexivity|].
    rewrite Hstore, Hnow. simpl.
    rewrite (proj1 (splitSubtasks_flat_bounded _)). reflexivity.
Qed.

End SwitchTaskStepInBatch.

(** ** Admission control of CreateTask *)

Section CreateTask.
Context `{Extern}.

Lemma getManagedNodes_healthy se :
  faults se = [] ->
  getManagedNodesWithSession se = (inr (managed_nodes (store se)), set_AffectedRows 0 se).
Proof.
  intros Hf. unfold getManagedNodesWithSession, getAllNodesWithSession, bind.
  rewrite ExecSQL_healthy by assumption. cbn [query fst snd]. unfold managed_nodes.
  destruct (len (nodes_of_role "background" _) =? 0); reflexivity.
Qed.

Lemma getCPUCountOfManagedNode_healthy se :
  faults se = [] ->
  getCPUCountOfManagedNode se
  = (let nodes := managed_nodes (store se) in
     if len nodes =? 0 then inl ErrNoManagedNodes
     else if first_cpu_count nodes =? 0 then inl ErrNoUsableCapacity
          else inr (first_cpu_count nodes),
     set_AffectedRows 0 se).
Proof.
  intros Hf. unfold getCPUCountOfManagedNode, bind.
  rewrite getManagedNodes_healthy by assumption. cbv zeta.
  destruct (len (managed_nodes (store se)) =? 0); [reflexivity|].
  destruct (first_cpu_count (managed_nodes (store se)) =? 0); reflexivity.
Qed.

(** The loop finds the count of the first node that has a positive one. *)
Lemma first_cpu_count_found pre n post :
  (forall m, In m pre -> CPUCount m <= 0) -> 0 < CPUCount n ->
  first_cpu_count (pre ++ n :: post) = CPUCount n.
Proof.
  intros Hpre Hn. induction pre as [|m pre IH]; simpl.
  - destruct (Z.ltb_spec 0 (CPUCount n)); [reflexivity|lia].
  - destruct (Z.ltb_spec 0 (CPUCount m)) as [Hm|_].
    + specialize (Hpre m (or_introl eq_refl)). lia.
    + apply IH. intros m' Hin. apply Hpre. right. assumption.
Qed.

Lemma first_cpu_count_none nodes :
  (forall m, In m nodes -> CPUCount m <= 0) -> first_cpu_count nodes = 0.
Proof.
  intros Hall. induction nodes as [|m nodes IH]; simpl; [reflexivity|].
  destruct (Z.ltb_spec 0 (CPUCount m)) as [Hm|_].
  - specialize (Hall m (or_introl eq_refl)). lia.
  - apply IH. intros m' Hin. apply Hall. right. assumption.
Qed.

(** C5: on a store that answers, CreateTask fails with "no managed nodes"
    when there is no managed node, with "no managed node have enough
    resource" when no managed node has a positive CPU count, and otherwise,
    with k the CPU count of the first managed node that has a positive one,
    succeeds exactly when the concurrency is at most k; a success appends one
    row, pending and at StepInit, and returns its id; a failure writes
    nothing. *)
Theorem CreateTask_admission se key tp concurrency meta :
  faults se = [] ->
  let nodes := managed_nodes (store se) in
  let result := CreateTask key tp concurrency meta se in
  (nodes = [] ->
     fst result = inl ErrNoManagedNodes /\ store (snd result) = store se)
  /\ (nodes <> [] -> (forall m, In m nodes -> CPUCount m <= 0) ->
        fst result = inl ErrNoUsableCapacity /\ store (snd result) = store se)
  /\ (forall pre n post,
        nodes = pre ++ n :: post ->
        (forall m, In m pre -> CPUCount m <= 0) -> 0 < CPUCount n ->
        let k := CPUCount n in
        ((exists taskID, fst result = inr taskID) <-> concurrency <= k)
        /\ (k < concurrency ->
              fst result = inl (ErrConcurrencyExceedsCapacity concurrency k)
              /\ store (snd result) = store se)
        /\ (concurrency <= k ->
              exists row,
                fst result = inr (t_id row)
                /\ store (snd result)
                   = set_tasks (tidb_global_task (store se) ++ [row]) (store se)
                /\ t_state row = TaskStatePending /\ t_step row = StepInit
                /\ t_task_key row = key /\ t_type row = tp
                /\ t_concurrency row = concurrency /\ t_meta row = meta
                /\ t_priority row = NormalPriority)).
Proof.
  intros Hf nodes result. subst result.
  unfold CreateTask, WithNewSession, CreateTaskWithSession, bind.
  rewrite getCPUCountOfManagedNode_healthy by assumption. cbv zeta. fold nodes.
  split; [|split].
  - intros Hnil. rewrite Hnil. simpl. auto.
  - intros Hne Hall.
    destruct (Z.eqb_spec (len nodes) 0) as [Hl|_].
    { apply len_zero_nil in Hl. contradiction. }
    rewrite (first_cpu_count_none nodes Hall). simpl. auto.
  - intros pre n post Hnodes Hpre Hn. set (k := CPUCount n).
    destruct (Z.eqb_spec (len nodes) 0) as [Hl|_].
    { apply len_zero_nil in Hl. rewrite Hl in Hnodes. destruct pre; discriminate. }
    rewrite Hnodes, (first_cpu_count_found pre n post Hpre Hn). fold k.
    destruct (Z.eqb_spec k 0) as [Hk|_]; [lia|].
    destruct (Z.ltb_spec k concurrency) as [Hlt|Hle].
    + simpl. split; [|split].
      * split; [intros [taskID Hid]; discriminate|lia].
      * auto.
      * lia.
    + rewrite ExecSQL_healthy by assumption. cbn [fst snd sql_insert_task].
      rewrite ExecSQL_healthy by assumption. cbn [fst snd].
      split; [|split].
      * split; [intros _; assumption|]. intros _. eexists. reflexivity.
      * lia.
      * intros _. unfold ret. simpl.
        match goal with |- context [ _ ++ [?r] ] => exists r end.
        simpl. repeat split.
Qed.

End CreateTask.

(** ** GetTopUnfinishedTasks *)

Section GetTopUnfinishedTasks.
Context `{Extern}.

Lemma task_le_iff a b :
  task_le a b <->
  t_priority a < t_priority b
  \/ (t_priority a = t_priority b
      /\ (t_create_time a < t_create_time b
          \/ (t_create_time a = t_create_time b /\ t_id a <= t_id b))).
Proof.
  unfold task_le, task_leb.
  rewrite orb_true_iff, andb_true_iff, orb_true_iff, andb_true_iff.
  rewrite !Z.ltb_lt, !Z.eqb_eq, Z.leb_le. reflexivity.
Qed.

#[local] Instance task_le_total : Total task_le.
Proof. intros a b. rewrite !task_le_iff. lia. Qed.

#[local] Instance task_le_trans : Transitive task_le.
Proof. intros a b c. rewrite !task_le_iff. lia. Qed.

Lemma in_states_In states s : in_states states s = true <-> In s states.
Proof.
  unfold in_states. rewrite existsb_exists. split.
  - intros (x & Hin & Heq). apply String.eqb_eq in Heq. subst. assumption.
  - intros Hin. exists s. split; [assumption|apply String.eqb_refl].
Qed.

(** C2, amended: on a store that answers, GetTopUnfinishedTasks returns the
    first 2 * MaxConcurrentTask rows, at most, of the live task rows whose
    state is pending, running, reverting, cancelling, pausing or resuming,
    taken in the order of priority, then create time, then id; a paused task
    is not among them. *)
Theorem GetTopUnfinishedTasks_sorted_prefix se :
  faults se = [] ->
  exists rs rest,
    fst (GetTopUnfinishedTasks se) = inr (map row2TaskBasic rs)
    /\ store (snd (GetTopUnfinishedTasks se)) = store se
    /\ rs ++ rest
       ≡ₚ select_where (fun r => in_states unfinished_states (t_state r))
            (tidb_global_task (store se))
    /\ StronglySorted task_le (rs ++ rest)
    /\ length rs = Nat.min (Z.to_nat (MaxConcurrentTask * 2)) (length (rs ++ rest))
    /\ Forall (fun r =>
                 In r (tidb_global_task (store se))
                 /\ In (t_state r)
                      [TaskStatePending; TaskStateRunning; TaskStateReverting;
                       TaskStateCancelling; TaskStatePausing; TaskStateResuming]
                 /\ t_state r <> TaskStatePaused) rs.
Proof.
  intros Hf.
  set (rows := select_where (fun r => in_states unfinished_states (t_state r))
                 (tidb_global_task (store se))).
  set (n := Z.to_nat (MaxConcurrentTask * 2)).
  exists (take n (merge_sort task_le rows)), (drop n (merge_sort task_le rows)).
  unfold GetTopUnfinishedTasks, ExecuteSQLWithNewSession, WithNewSession, bind.
  rewrite ExecSQL_healthy by assumption. cbn [query fst snd ret]. fold rows.
  unfold limit. fold n. rewrite take_drop.
  split; [reflexivity|]. split; [reflexivity|].
  split; [apply merge_sort_Permutation|].
  split; [apply StronglySorted_merge_sort; apply _|].
  split.
  { rewrite length_take. reflexivity. }
  apply Forall_forall. intros r Hin.
  assert (Hrow : In r rows).
  { apply list_elem_of_In. rewrite <- (merge_sort_Permutation task_le rows).
    apply (subseteq_take n). apply list_elem_of_In. exact Hin. }
  apply filter_In in Hrow. destruct Hrow as [Hlive Hst].
  apply in_states_In in Hst. split; [assumption|]. split; [exact Hst|].
  intros Hp. rewrite Hp in Hst. simpl in Hst.
  repeat (destruct Hst as [Hst|Hst]; [discriminate|]). exact Hst.
Qed.

End GetTopUnfinishedTasks.

(** ** Stored errors on the read paths *)

Section StoredErrors.
Context `{Extern}.

(** row2Task keeps the bytes of an error it cannot decode as the text of a
    plain error. *)
Lemma row2Task_malformed_error r errBytes err :
  t_error r = Some errBytes -> UnmarshalJSON errBytes = inl err ->
  Error (row2Task r) = Some (ErrNew (string_of_list_byte errBytes)).
Proof. intros Hr Hu. unfold row2Task. simpl. rewrite Hr, Hu. reflexivity. Qed.

Lemma collect_errors_malformed rs errBytes err acc :
  In (Some errBytes) rs -> errBytes <> [] -> UnmarshalJSON errBytes = inl err ->
  exists e, collect_errors rs acc = inl e.
Proof.
  intros Hin Hne Hu. revert acc.
  induction rs as [|o rs IH]; intros acc; [destruct Hin|].
  destruct Hin as [Ho|Hin].
  - subst o. simpl.
    destruct (Z.eqb_spec (len errBytes) 0) as [Hl|_].
    + apply len_zero_nil in Hl. contradiction.
    + rewrite Hu. eexists. reflexivity.
  - simpl. destruct o as [b|]; [|apply IH; assumption].
    destruct (len b =? 0); [apply IH; assumption|].
    destruct (UnmarshalJSON b); [eexists; reflexivity|apply IH; assumption].
Qed.

(** C4: where row2Task turns error bytes it cannot decode into a plain
    error, CollectSubTaskError on the same bytes, stored with a failed or
    canceled subtask of the task, returns the decoder's error: the read
    fails. *)
Theorem CollectSubTaskError_fails_on_malformed se taskID r errBytes err :
  faults se = [] ->
  In r (tidb_background_subtask (store se)) ->
  s_task_key r = taskID ->
  In (s_state r) [SubtaskStateFailed; SubtaskStateCanceled] ->
  s_error r = Some errBytes -> errBytes <> [] ->
  UnmarshalJSON errBytes = inl err ->
  (exists e, fst (CollectSubTaskError taskID se) = inl e)
  /\ (forall tr, t_error tr = Some errBytes ->
                 Error (row2Task tr) = Some (ErrNew (string_of_list_byte errBytes))).
Proof.
  intros Hf Hin Hkey Hst Herr Hne Hu. split.
  - unfold CollectSubTaskError, ExecuteSQLWithNewSession, WithNewSession, bind.
    rewrite ExecSQL_healthy by assumption. cbn [query fst snd].
    set (rs := map s_error _).
    assert (Hrs : In (Some errBytes) rs).
    { subst rs. rewrite <- Herr. apply in_map. apply filter_In. split; [assumption|].
      apply andb_true_iff. split; [apply Z.eqb_eq; assumption|].
      apply in_states_In. assumption. }
    destruct (collect_errors_malformed rs errBytes err [] Hrs Hne Hu) as [e He].
    rewrite He. exists e. reflexivity.
  - intros tr Htr. apply (row2Task_malformed_error tr errBytes err); assumption.
Qed.

End StoredErrors.

(** ** UpdateTaskAndAddSubTasks *)

Section UpdateTaskAndAddSubTasks.
Context `{Extern}.

Lemma at_state_true taskID state r :
  at_state taskID state r = true <-> t_id r = taskID /\ t_state r = state.
Proof.
  unfold at_state. rewrite andb_true_iff, Z.eqb_eq, String.eqb_eq. reflexivity.
Qed.

(** C3: when the store fails the INSERT of the subtasks, and only it, the
    closure of UpdateTaskAndAddSubTasks returns nil; the transaction is
    committed, the call reports no error, the task row carries the update and
    no subtask has been added. *)
Theorem UpdateTaskAndAddSubTasks_insert_failure_commits se task subtasks prevState r :
  faults se = [false; false; true] ->
  In r (tidb_global_task (store se)) ->
  t_id r = ID task -> t_state r = prevState ->
  legacy_update_row task (now se) r <> r ->
  subtasks <> [] ->
  let result := UpdateTaskAndAddSubTasks task subtasks prevState se in
  fst result = (true, inr tt)
  /\ store (snd result)
     = set_tasks (update_where (at_state (ID task) prevState)
                    (legacy_update_row task (now se)) (tidb_global_task (store se)))
         (store se)
  /\ In (legacy_update_row task (now se) r) (tidb_global_task (store (snd result)))
  /\ tidb_background_subtask (store (snd result)) = tidb_background_subtask (store se).
Proof.
  intros Hf Hin Hid Hst Hchg Hsub result.
  assert (Hp : at_state (ID task) prevState r = true) by (apply at_state_true; auto).
  pose proof (changed_rows_pos _ _ _ r Hin Hp Hchg) as Hpos.
  assert (Hlen : (0 <? len subtasks) = true).
  { apply Z.ltb_lt. destruct subtasks; [contradiction|]. unfold len. simpl. lia. }
  assert (Hres : result
    = ((true, inr tt),
       set_txn_begin None
         (set_faults []
            (set_AffectedRows
               (changed_rows (at_state (ID task) prevState)
                  (legacy_update_row task (now se)) (tidb_global_task (store se)))
               (set_store
                  (set_tasks
                     (update_where (at_state (ID task) prevState)
                        (legacy_update_row task (now se)) (tidb_global_task (store se)))
                     (store se))
                  (set_txn_begin (Some (store se)) se)))))).
  { subst result.
    unfold UpdateTaskAndAddSubTasks, WithNewTxnVar, update_and_add_fn, ExecSQL.
    rewrite Hf. simpl.
    destruct (Z.eqb_spec
                (changed_rows (at_state (ID task) prevState)
                   (legacy_update_row task (now se)) (tidb_global_task (store se))) 0)
      as [Hz|_]; [lia|].
    rewrite Hlen. simpl. reflexivity. }
  rewrite Hres. simpl. split; [reflexivity|]. split; [reflexivity|].
  split; [|reflexivity]. apply In_update_where; assumption.
Qed.

End UpdateTaskAndAddSubTasks.

(** ** TransferTasks2History *)

Section TransferTasks2History.
Context `{Extern}.






(** What TransferTasks2History does for one task on a store that answers. *)
Lemma TransferTasks2History_single_healthy T se :
  faults se = [] ->
  let d := store se in
  let refreshed := update_where (fun r => t_id r =? ID T) (set_meta (Meta T) (now se))
                     (tidb_global_task d) in
  let moved r := in_ids [ID T] (t_id r) in
  let owned r := s_task_key r =? ID T in
  fst (TransferTasks2History [T] se) = inr tt
  /\ faults (snd (TransferTasks2History [T] se)) = []
  /\ store (snd (TransferTasks2History [T] se))
     = {| tidb_global_task := delete_where moved refreshed;
          tidb_global_task_history :=
            tidb_global_task_history d ++ select_where moved refreshed;
          tidb_background_subtask := delete_where owned (tidb_background_subtask d);
          tidb_background_subtask_history :=
            tidb_background_subtask_history d
              ++ select_where owned (tidb_background_subtask d);
          dist_framework_meta := dist_framework_meta d |}.
Proof.
  intros Hf d refreshed moved owned.
  unfold TransferTasks2History. simpl (len [T] =? 0). cbv iota.
  match goal with |- context [WithNewTxn ?fn se] => set (body := fn) end.
  assert (Hbody : exists se2,
            body (set_txn_begin (Some (store se)) se) = (inr tt, se2)
            /\ faults se2 = []
            /\ store se2
               = {| tidb_global_task := delete_where moved refreshed;
                    tidb_global_task_history :=
                      tidb_global_task_history d ++ select_where moved refreshed;
                    tidb_background_subtask :=
                      delete_where owned (tidb_background_subtask d);
                    tidb_background_subtask_history :=
                      tidb_background_subtask_history d
                        ++ select_where owned (tidb_background_subtask d);
                    dist_framework_meta := dist_framework_meta d |}).
  { subst body. unfold bind. simpl. unfold bind, TransferSubtasks2HistoryWithSession.
    repeat (rewrite ExecSQL_healthy by assumption; simpl).
    unfold bind. repeat (rewrite ExecSQL_healthy by assumption; simpl).
    eexists. split; [reflexivity|]. split; [assumption|]. reflexivity. }
  destruct Hbody as (se2 & Hbody & Hf2 & Hs2).
  rewrite (WithNewTxn_commit body se tt se2 Hf Hbody Hf2).
  split; [reflexivity|]. split; [exact Hf2|exact Hs2].
Qed.


Lemma select_delete_disjoint {R} (p q : R -> bool) table :
  (forall r, p r = true -> q r = true) ->
  select_where p (delete_where q table) = [].
Proof.
  intros Himp. unfold select_where, delete_where.
  induction table as [|x table IH]; [reflexivity|]. simpl.
  destruct (q x) eqn:Hq; simpl; [exact IH|].
  destruct (p x) eqn:Hp; [|exact IH].
  rewrite (Himp x Hp) in Hq. discriminate.
Qed.

Lemma select_none {R} (p : R -> bool) table :
  (forall r, In r table -> p r = false) -> select_where p table = [].
Proof.
  intros Hnone. unfold select_where.
  induction table as [|x table IH]; [reflexivity|]. simpl.
  rewrite (Hnone x (or_introl eq_refl)). apply IH.
  intros r Hin. apply Hnone. right. assumption.
Qed.

Lemma select_app {R} (p : R -> bool) l1 l2 :
  select_where p (l1 ++ l2) = select_where p l1 ++ select_where p l2.
Proof. apply List.filter_app. Qed.





End TransferTasks2History.

(** ** SwitchTaskStep on any store *)

Section SwitchTaskStepAtomic.
Context `{Extern}.

(** A statement that went through ran on the session, some failure flags
    apart; one that failed left the session, some failure flags apart. *)
Lemma ExecSQL_inr_inv {A} (stmt : Session -> A * Session) se a se' :
  ExecSQL stmt se = (inr a, se') -> exists fs, stmt (set_faults fs se) = (a, se').
Proof.
  unfold ExecSQL. intros Heq. destruct (faults se) as [|[] fs] eqn:Hf.
  - exists []. rewrite <- Hf.
    replace (set_faults (faults se) se) with se by (destruct se; reflexivity).
    destruct (stmt se). injection Heq as <- <-. reflexivity.
  - discriminate.
  - exists fs. destruct (stmt (set_faults fs se)). injection Heq as <- <-. reflexivity.
Qed.

Lemma ExecSQL_inl_inv {A} (stmt : Session -> A * Session) se e se' :
  ExecSQL stmt se = (inl e, se') -> e = ErrStore /\ exists fs, se' = set_faults fs se.
Proof.
  unfold ExecSQL. intros Heq. destruct (faults se) as [|[] fs].
  - destruct (stmt se). discriminate.
  - injection Heq as <- <-. eauto.
  - destruct (stmt (set_faults fs se)). discriminate.
Qed.

Lemma keeps_quota_ExecSQL {A} (stmt : Session -> A * Session) :
  (forall s, MemQuotaQuery (snd (stmt s)) = MemQuotaQuery s) -> keeps_quota (ExecSQL stmt).
Proof.
  intros Hstmt s [e|a] s' Heq.
  - apply ExecSQL_inl_inv in Heq. destruct Heq as (_ & fs & ->). reflexivity.
  - apply ExecSQL_inr_inv in Heq. destruct Heq as (fs & Heq).
    specialize (Hstmt (set_faults fs s)). rewrite Heq in Hstmt. exact Hstmt.
Qed.

Lemma keeps_quota_bind {A B} (m : M A) (k : A -> M B) :
  keeps_quota m -> (forall a, keeps_quota (k a)) -> keeps_quota (bind m k).
Proof.
  intros Hm Hk s r s' Heq. unfold bind in Heq.
  destruct (m s) as [[e|a] s1] eqn:Hms.
  - injection Heq as _ <-. apply (Hm _ _ _ Hms).
  - rewrite (Hk a _ _ _ Heq). apply (Hm _ _ _ Hms).
Qed.

Lemma keeps_quota_pure {A} (r : error + A) : keeps_quota (fun se => (r, se)).
Proof. intros s r' s' Heq. injection Heq as _ <-. reflexivity. Qed.

Lemma keeps_quota_switch_body task nextState nextStep subtasks :
  keeps_quota (switch_body task nextState nextStep subtasks).
Proof.
  unfold switch_body.
  apply keeps_quota_bind; [apply keeps_quota_ExecSQL; reflexivity|]. intros _.
  apply keeps_quota_bind.
  { intros s r s' Heq. injection Heq as _ <-. reflexivity. }
  intros vars. destruct (AffectedRows vars =? 0); [apply keeps_quota_pure|].
  unfold insertSubtasks. destruct (len subtasks =? 0); [apply keeps_quota_pure|].
  apply keeps_quota_ExecSQL. reflexivity.
Qed.

Lemma abort_txn_quota se : MemQuotaQuery (abort_txn se) = MemQuotaQuery se.
Proof. unfold abort_txn. destruct (txn_begin se); reflexivity. Qed.

Lemma WithNewTxn_keeps_quota {A} (fn : M A) : keeps_quota fn -> keeps_quota (WithNewTxn fn).
Proof.
  intros Hfn s r s' Heq. unfold WithNewTxn, WithNewSession in Heq.
  destruct (ExecSQL sql_begin s) as [[e0|u] s1] eqn:Hb.
  - injection Heq as _ <-. apply (keeps_quota_ExecSQL sql_begin ltac:(reflexivity) _ _ _ Hb).
  - pose proof (keeps_quota_ExecSQL sql_begin ltac:(reflexivity) _ _ _ Hb) as H1.
    destruct (fn s1) as [[e1|a] s2] eqn:Hrun; pose proof (Hfn _ _ _ Hrun) as H2.
    + destruct (ExecSQL sql_rollback s2) as [r3 s3] eqn:Hr.
      injection Heq as _ <-. rewrite abort_txn_quota.
      rewrite (keeps_quota_ExecSQL sql_rollback
                 ltac:(intros; apply abort_txn_quota) _ _ _ Hr). congruence.
    + destruct (ExecSQL sql_commit s2) as [[e3|u3] s3] eqn:Hc;
        injection Heq as _ <-; rewrite ?abort_txn_quota;
        rewrite (keeps_quota_ExecSQL sql_commit ltac:(reflexivity) _ _ _ Hc); congruence.
Qed.

(** X1: whatever the store answers and however SwitchTaskStep ends, the
    session's memory quota is afterwards what it was before: the raised value
    does not leak into the pooled session. *)
Theorem SwitchTaskStep_restores_mem_quota task nextState nextStep subtasks se :
  MemQuotaQuery (snd (SwitchTaskStep task nextState nextStep subtasks se))
  = MemQuotaQuery se.
Proof.
  destruct (SwitchTaskStep task nextState nextStep subtasks se) as [r se'] eqn:Hrun.
  unfold SwitchTaskStep in Hrun. simpl.
  refine (WithNewTxn_keeps_quota _ _ _ _ _ Hrun).
  intros s r0 s' Heq.
  destruct (MemQuotaQuery s <? DefTiDBMemQuotaQuery).
  - destruct (switch_body task nextState nextStep subtasks
                (set_MemQuotaQuery DefTiDBMemQuotaQuery s)) as [r1 s1].
    injection Heq as _ <-. reflexivity.
  - apply (keeps_quota_switch_body _ _ _ _ _ _ _ Heq).
Qed.


Lemma WithNewTxn_inr_inv {A} (fn : M A) se a se' :
  WithNewTxn fn se = (inr a, se') ->
  exists fs s2 fs',
    fn (set_txn_begin (Some (store se)) (set_faults fs se)) = (inr a, s2)
    /\ se' = set_txn_begin None (set_faults fs' s2).
Proof.
  unfold WithNewTxn, WithNewSession. intros Heq.
  destruct (ExecSQL sql_begin se) as [[e0|u] s1] eqn:Hb; [discriminate|].
  apply ExecSQL_inr_inv in Hb. destruct Hb as (fs & Hb). injection Hb as _ <-.
  destruct (fn _) as [[e1|a1] s2] eqn:Hrun.
  - destruct (ExecSQL sql_rollback s2). discriminate.
  - destruct (ExecSQL sql_commit s2) as [[e3|u3] s3] eqn:Hc; [discriminate|].
    injection Heq as <- <-.
    apply ExecSQL_inr_inv in Hc. destruct Hc as (fs' & Hc). injection Hc as _ <-.
    exists fs, s2, fs'. split; [exact Hrun|reflexivity].
Qed.

Lemma switch_body_inr_inv task nextState nextStep subtasks s1 s2 :
  switch_body task nextState nextStep subtasks s1 = (inr tt, s2) ->
  store s2
  = if changed_rows (at_state_step task) (switch_row task nextState nextStep (now s1))
         (tidb_global_task (store s1)) =? 0
    then store s1
    else switched task nextState nextStep
           (number_rows (pending_row (now s1)) (subtask_auto_inc s1) subtasks)
           (now s1) (store s1).
Proof.
  unfold switch_body, updateTaskStateStep, bind, get_session. intros Heq.
  destruct (ExecSQL _ s1) as [[e|u] s1'] eqn:Hupd; [discriminate|].
  apply ExecSQL_inr_inv in Hupd. destruct Hupd as (fs & Hupd).
  inversion Hupd; subst; clear Hupd. cbn [AffectedRows set_AffectedRows] in Heq.
  cbn [store set_store set_faults now tidb_global_task] in Heq.
  destruct (changed_rows _ _ _ =? 0) eqn:Hn.
  - injection Heq as <-. simpl.
    apply Z.eqb_eq in Hn. rewrite update_where_unchanged by assumption.
    apply set_tasks_same.
  - unfold insertSubtasks in Heq. destruct (len subtasks =? 0) eqn:Hl.
    + injection Heq as <-. simpl. unfold switched.
      apply Z.eqb_eq in Hl. rewrite (number_rows_nil _ _ _ Hl), app_nil_r.
      destruct (store s1). reflexivity.
    + apply ExecSQL_inr_inv in Heq. destruct Heq as (fs' & Heq).
      inversion Heq; subst; clear Heq. reflexivity.
Qed.

Lemma keeps_txn_pure {A} (r : error + A) : keeps_txn (fun se => (r, se)).
Proof. intros s r' s' Heq. injection Heq as _ <-. reflexivity. Qed.

Lemma keeps_txn_switch_body task nextState nextStep subtasks :
  keeps_txn (switch_body task nextState nextStep subtasks).
Proof.
  unfold switch_body.
  apply keeps_txn_bind; [apply keeps_txn_ExecSQL; reflexivity|]. intros _.
  apply keeps_txn_bind.
  { intros s r s' Heq. injection Heq as _ <-. reflexivity. }
  intros vars. destruct (AffectedRows vars =? 0); [apply keeps_txn_pure|].
  unfold insertSubtasks. destruct (len subtasks =? 0); [apply keeps_txn_pure|].
  apply keeps_txn_ExecSQL. reflexivity.
Qed.

(** X2: whatever the store answers, SwitchTaskStep writes all or nothing: a
    call that ends in an error has written nothing, and a call that succeeds
    has either changed no task row and written nothing, or switched the task
    rows and inserted every given subtask. *)
Theorem SwitchTaskStep_all_or_nothing task nextState nextStep subtasks se :
  let result := SwitchTaskStep task nextState nextStep subtasks se in
  (forall e, fst result = inl e -> store (snd result) = store se)
  /\ (fst result = inr tt ->
      store (snd result)
      = if changed_rows (at_state_step task)
             (switch_row task nextState nextStep (now se))
             (tidb_global_task (store se)) =? 0
        then store se
        else switched task nextState nextStep
               (number_rows (pending_row (now se)) (subtask_auto_inc se) subtasks)
               (now se) (store se)).
Proof.
  intros result. subst result.
  destruct (SwitchTaskStep task nextState nextStep subtasks se) as [r se'] eqn:Hrun.
  unfold SwitchTaskStep in Hrun. simpl. split.
  - intros e ->. refine (WithNewTxn_error_unchanged _ _ _ _ _ Hrun).
    intros s r0 s' Heq.
    destruct (MemQuotaQuery s <? DefTiDBMemQuotaQuery).
    + destruct (switch_body task nextState nextStep subtasks
                  (set_MemQuotaQuery DefTiDBMemQuotaQuery s)) as [r1 s1] eqn:Hb.
      injection Heq as _ <-. apply (keeps_txn_switch_body _ _ _ _ _ _ _ Hb).
    + apply (keeps_txn_switch_body _ _ _ _ _ _ _ Heq).
  - intros ->. apply WithNewTxn_inr_inv in Hrun.
    destruct Hrun as (fs & s2 & fs' & Hfn & ->).
    cbn [MemQuotaQuery set_txn_begin set_faults] in Hfn.
    destruct (MemQuotaQuery se <? DefTiDBMemQuotaQuery).
    + destruct (switch_body task nextState nextStep subtasks _) as [r1 s1] eqn:Hb.
      injection Hfn as -> <-.
      apply switch_body_inr_inv in Hb. simpl. exact Hb.
    + apply switch_body_inr_inv in Hfn. simpl. exact Hfn.
Qed.

End SwitchTaskStepAtomic.

(** ** SwitchTaskStepInBatch, retried *)

Section SwitchTaskStepInBatchRetry.
Context `{Extern}.

Lemma SwitchTaskStepInBatch_run task nextState nextStep subtasks se :
  faults se = [] ->
  count_subtasks (ID task) nextStep (store se) <= len subtasks ->
  fst (SwitchTaskStepInBatch task nextState nextStep subtasks se) = inr tt
  /\ faults (snd (SwitchTaskStepInBatch task nextState nextStep subtasks se)) = []
  /\ tidb_background_subtask
       (store (snd (SwitchTaskStepInBatch task nextState nextStep subtasks se)))
     = tidb_background_subtask (store se)
         ++ number_rows (pending_row (now se)) (subtask_auto_inc se)
              (drop (Z.to_nat (count_subtasks (ID task) nextStep (store se))) subtasks).
Proof.
  intros Hf Hcnt.
  unfold SwitchTaskStepInBatch, WithNewSession, bind.
  rewrite ExecSQL_healthy by assumption. cbn [query fst snd].
  destruct (Z.ltb_spec (len subtasks) (count_subtasks (ID task) nextStep (store se)))
    as [Hlt|_]; [lia|].
  destruct (insert_batches_healthy
              (splitSubtasks
                 (drop (Z.to_nat (count_subtasks (ID task) nextStep (store se))) subtasks))
              (set_AffectedRows 0 se) Hf)
    as (se' & Hrun & Hf' & Hnow & _ & Hstore).
  rewrite Hrun. unfold updateTaskStateStep. rewrite ExecSQL_healthy by assumption.
  simpl. split; [reflexivity|]. split; [exact Hf'|].
  rewrite Hstore. simpl.
  rewrite (proj1 (splitSubtasks_flat_bounded _)). reflexivity.
Qed.

Lemma number_rows_len mk next subtasks : len (number_rows mk next subtasks) = len subtasks.
Proof.
  revert next. induction subtasks as [|s l IH]; intros next; [reflexivity|].
  simpl. unfold len in *. simpl. specialize (IH (next + 1)). lia.
Qed.

Lemma select_all {R} (p : R -> bool) table :
  (forall r, In r table -> p r = true) -> select_where p table = table.
Proof.
  intros Hall. unfold select_where.
  induction table as [|x table IH]; [reflexivity|]. simpl.
  rewrite (Hall x (or_introl eq_refl)). f_equal. apply IH.
  intros r Hin. apply Hall. right. assumption.
Qed.

Lemma In_number_rows_pending t next subtasks r :
  In r (number_rows (pending_row t) next subtasks) ->
  exists s, In s subtasks /\ s_task_key r = SubTaskID s /\ s_step r = SubStep s.
Proof.
  revert next. induction subtasks as [|s l IH]; intros next Hin; [destruct Hin|].
  destruct Hin as [<-|Hin].
  - exists s. simpl. auto.
  - destruct (IH _ Hin) as (s' & Hs' & Hk). exists s'. split; [right; assumption|exact Hk].
Qed.

Lemma len_drop {A} (n : Z) (l : list A) :
  0 <= n <= len l -> len (drop (Z.to_nat n) l) = len l - n.
Proof. intros Hn. unfold len in *. rewrite length_drop. lia. Qed.

(** X3: on a store that answers, when the given subtasks are those of
    (task, nextStep) and no more rows than that are there already,
    SwitchTaskStepInBatch brings the number of rows for (task, nextStep) up
    to the number of subtasks given, whatever an earlier, interrupted call
    has inserted; a further call inserts nothing. *)
Theorem SwitchTaskStepInBatch_completes_step task nextState nextStep subtasks se :
  faults se = [] ->
  (forall s, In s subtasks -> SubTaskID s = ID task /\ SubStep s = nextStep) ->
  count_subtasks (ID task) nextStep (store se) <= len subtasks ->
  let se' := snd (SwitchTaskStepInBatch task nextState nextStep subtasks se) in
  fst (SwitchTaskStepInBatch task nextState nextStep subtasks se) = inr tt
  /\ count_subtasks (ID task) nextStep (store se') = len subtasks
  /\ (forall se2, faults se2 = [] -> store se2 = store se' ->
        fst (SwitchTaskStepInBatch task nextState nextStep subtasks se2) = inr tt
        /\ tidb_background_subtask
             (store (snd (SwitchTaskStepInBatch task nextState nextStep subtasks se2)))
           = tidb_background_subtask (store se')).
Proof.
  intros Hf Hsub Hcnt se'.
  destruct (SwitchTaskStepInBatch_run task nextState nextStep subtasks se Hf Hcnt)
    as (Hres & Hf' & Htab).
  fold se' in Hf', Htab.
  assert (Hcnt' : count_subtasks (ID task) nextStep (store se') = len subtasks).
  { unfold count_subtasks at 1. rewrite Htab, select_app, len_app.
    rewrite (select_all _ (number_rows _ _ _)).
    - rewrite number_rows_len, len_drop.
      + unfold count_subtasks. lia.
      + split; [apply len_nonneg|exact Hcnt].
    - intros r Hin. apply In_number_rows_pending in Hin.
      destruct Hin as (s & Hs & Hk & Hp).
      assert (Hs' : In s subtasks).
      { apply list_elem_of_In. eapply (subseteq_drop _ subtasks).
        apply list_elem_of_In. exact Hs. }
      destruct (Hsub s Hs') as [Hk' Hp'].
      rewrite Hk, Hp, Hk', Hp', !Z.eqb_refl. reflexivity. }
  split; [exact Hres|]. split; [exact Hcnt'|].
  intros se2 Hf2 Hstore.
  assert (Hcnt2 : count_subtasks (ID task) nextStep (store se2) <= len subtasks)
    by (rewrite Hstore, Hcnt'; lia).
  destruct (SwitchTaskStepInBatch_run task nextState nextStep subtasks se2 Hf2 Hcnt2)
    as (Hres2 & _ & Htab2).
  split; [exact Hres2|]. rewrite Htab2, Hstore, Hcnt'.
  unfold len. rewrite Nat2Z.id, drop_all. simpl. apply app_nil_r.
Qed.

End SwitchTaskStepInBatchRetry.

(** ** Empty batches *)

Section SplitSubtasksEmpty.
Context `{Extern}.

Lemma split_loop_nonempty bound subtasks res cur size :
  cur <> [] ->
  exists ext cur' size',
    fold_left (split_step bound) subtasks (res, cur, size) = (res ++ ext, cur', size')
    /\ Forall (fun batch => batch <> []) ext /\ cur' <> [].
Proof.
  revert res cur size. induction subtasks as [|s l IH]; intros res cur size Hcur.
  - exists [], cur, size. simpl. rewrite app_nil_r. auto.
  - simpl. destruct (bound <? size + len (SubMeta s)).
    + destruct (IH (res ++ [cur]) ([] ++ [s]) (0 + len (SubMeta s)))
        as (ext & cur' & size' & Heq & Hext & Hcur'); [discriminate|].
      exists (cur :: ext), cur', size'. rewrite Heq, <- app_assoc. simpl. auto.
    + destruct (IH res (cur ++ [s]) (size + len (SubMeta s)))
        as (ext & cur' & size' & Heq & Hext & Hcur').
      { destruct cur; discriminate. }
      exists ext, cur', size'. auto.
Qed.

(** X4: splitSubtasks gives no batch for no subtask, and otherwise only
    batches that hold a subtask, except that the batches start with an empty
    one exactly when the Meta of the first subtask alone is above the
    limit. *)
Theorem splitSubtasks_empty_batches (subtasks : list Subtask) :
  match subtasks with
  | [] => splitSubtasks subtasks = []
  | s :: _ =>
      exists batches,
        batches <> [] /\ Forall (fun batch => batch <> []) batches
        /\ splitSubtasks subtasks
           = if Z.min TxnTotalSizeLimit maxSubtaskBatchSize <? len (SubMeta s)
             then [] :: batches else batches
  end.
Proof.
  destruct subtasks as [|s l]; [reflexivity|].
  unfold splitSubtasks. fold maxSize.
  change (fold_left (split_step maxSize) (s :: l) ([], [], 0))
    with (fold_left (split_step maxSize) l (split_step maxSize ([], [], 0) s)).
  assert (Hfirst : split_step maxSize ([], [], 0) s
                   = if maxSize <? len (SubMeta s)
                     then ([[]], [s], len (SubMeta s))
                     else ([], [s], len (SubMeta s))).
  { unfold split_step. simpl (0 + _). destruct (maxSize <? _); reflexivity. }
  rewrite Hfirst. clear Hfirst.
  destruct (maxSize <? len (SubMeta s)).
  - destruct (split_loop_nonempty maxSize l [[]] [s] (len (SubMeta s)))
      as (ext & cur' & size' & Heq & Hext & Hcur'); [discriminate|].
    rewrite Heq.
    assert (Hlen : (0 <? len cur') = true).
    { apply Z.ltb_lt. destruct cur'; [contradiction|]. unfold len. simpl. lia. }
    rewrite Hlen. exists (ext ++ [cur']). split; [destruct ext; discriminate|].
    split; [|reflexivity].
    apply Forall_app. split; [exact Hext|]. constructor; [exact Hcur'|constructor].
  - destruct (split_loop_nonempty maxSize l [] [s] (len (SubMeta s)))
      as (ext & cur' & size' & Heq & Hext & Hcur'); [discriminate|].
    rewrite Heq.
    assert (Hlen : (0 <? len cur') = true).
    { apply Z.ltb_lt. destruct cur'; [contradiction|]. unfold len. simpl. lia. }
    rewrite Hlen. exists (ext ++ [cur']). split; [destruct ext; discriminate|].
    split; [|reflexivity].
    apply Forall_app. split; [exact Hext|]. constructor; [exact Hcur'|constructor].
Qed.

End SplitSubtasksEmpty.

(** ** UpdateTaskAndAddSubTasks on a store that answers *)

Section UpdateTaskAndAddSubTasksHealthy.
Context `{Extern}.

Lemma UpdateTaskAndAddSubTasks_healthy task subtasks prevState se :
  faults se = [] ->
  let d := store se in
  let set := legacy_update_row task (now se) in
  let n := changed_rows (at_state (ID task) prevState) set (tidb_global_task d) in
  let subtaskState := if String.eqb (State task) TaskStateReverting
                      then SubtaskStateRevertPending else SubtaskStatePending in
  let result := UpdateTaskAndAddSubTasks task subtasks prevState se in
  if (n =? 0)
     && (negb InTest
         || (len (select_where (at_state (ID task) prevState) (tidb_global_task d)) =? 0))
  then fst result = (false, inl ErrStateChanged) /\ store (snd result) = d
  else fst result = (true, inr tt)
       /\ faults (snd result) = []
       /\ store (snd result)
          = set_subtasks
              (tidb_background_subtask d
                 ++ number_rows (legacy_row task subtaskState (now se))
                      (subtask_auto_inc se) subtasks)
              (set_tasks (update_where (at_state (ID task) prevState) set
                            (tidb_global_task d)) d).
Proof.
  intros Hf d set n subtaskState result. subst result d set n subtaskState.
  unfold UpdateTaskAndAddSubTasks, WithNewTxnVar, update_and_add_fn.
  assert (Hmap : forall l : list TaskRow, len (map t_id l) = len l)
    by (intros l; unfold len; rewrite length_map; reflexivity).
  assert (Hnil : (0 <? len subtasks) = false ->
                 forall mk next, number_rows mk next subtasks = []).
  { intros Hl mk next. apply Z.ltb_ge in Hl. pose proof (len_nonneg subtasks).
    apply number_rows_nil. lia. }
  rewrite ?ExecSQL_healthy by assumption. simpl.
  destruct (changed_rows _ _ _ =? 0) eqn:Hn; simpl.
  - apply Z.eqb_eq in Hn. rewrite (update_where_unchanged _ _ _ Hn).
    destruct InTest; simpl.
    + rewrite ?ExecSQL_healthy by assumption. simpl. rewrite Hmap.
      destruct (len (select_where _ _) =? 0); simpl.
      * rewrite ?ExecSQL_healthy by assumption. simpl.
        split; reflexivity.
      * destruct (0 <? len subtasks) eqn:Hl;
          repeat (rewrite ?ExecSQL_healthy by assumption; simpl);
          (split; [reflexivity|]); (split; [assumption|]);
          [reflexivity|].
        rewrite (Hnil eq_refl), app_nil_r. destruct (store se); reflexivity.
    + rewrite ?ExecSQL_healthy by assumption. simpl.
      split; reflexivity.
  - destruct (0 <? len subtasks) eqn:Hl;
      repeat (rewrite ?ExecSQL_healthy by assumption; simpl);
      (split; [reflexivity|]); (split; [assumption|]);
      [reflexivity|].
    rewrite (Hnil eq_refl), app_nil_r. destruct (store se); reflexivity.
Qed.


(** X5: on a store that answers, when no live row has the task's id and
    prevState, UpdateTaskAndAddSubTasks fails with retryable = false and
    writes nothing, in tests and outside. *)
Theorem UpdateTaskAndAddSubTasks_state_changed task subtasks prevState se :
  faults se = [] ->
  (forall r, In r (tidb_global_task (store se)) ->
             t_id r = ID task -> t_state r <> prevState) ->
  fst (UpdateTaskAndAddSubTasks task subtasks prevState se)
  = (false, inl ErrStateChanged)
  /\ store (snd (UpdateTaskAndAddSubTasks task subtasks prevState se)) = store se.
Proof.
  intros Hf Hnone.
  pose proof (UpdateTaskAndAddSubTasks_healthy task subtasks prevState se Hf) as Hrun.
  cbv zeta in Hrun.
  assert (Hp : forall r, In r (tidb_global_task (store se)) ->
                         at_state (ID task) prevState r = false).
  { intros r Hin. destruct (at_state (ID task) prevState r) eqn:Hp; [|reflexivity].
    apply at_state_true in Hp. destruct Hp as [Hid Hst].
    exfalso. exact (Hnone r Hin Hid Hst). }
  rewrite (proj1 (update_where_no_match _ _ _ Hp)) in Hrun.
  rewrite (select_none _ _ Hp) in Hrun. simpl in Hrun.
  rewrite orb_true_r in Hrun. exact Hrun.
Qed.

(** X6: outside tests, an UPDATE that matches the task row but changes no
    column of it (the row already holds every new value, the time of the
    update included) counts as zero affected rows: the call fails with
    retryable = false like for a changed state, and no subtask is added. *)
Theorem UpdateTaskAndAddSubTasks_unchanged_row_fails task subtasks prevState se :
  faults se = [] -> InTest = false ->
  (forall r, In r (tidb_global_task (store se)) ->
             t_id r = ID task -> t_state r = prevState ->
             legacy_update_row task (now se) r = r) ->
  fst (UpdateTaskAndAddSubTasks task subtasks prevState se)
  = (false, inl ErrStateChanged)
  /\ store (snd (UpdateTaskAndAddSubTasks task subtasks prevState se)) = store se.
Proof.
  intros Hf Htest Hsame.
  pose proof (UpdateTaskAndAddSubTasks_healthy task subtasks prevState se Hf) as Hrun.
  cbv zeta in Hrun.
  assert (Hz : changed_rows (at_state (ID task) prevState)
                 (legacy_update_row task (now se)) (tidb_global_task (store se)) = 0).
  { apply changed_rows_zero. intros r Hin Hp. apply at_state_true in Hp.
    destruct Hp as [Hid Hst]. apply Hsame; assumption. }
  rewrite Hz, Htest in Hrun. simpl in Hrun. exact Hrun.
Qed.

Lemma number_rows_legacy task subtaskState t next subtasks :
  Forall (fun r => s_state r = subtaskState /\ s_task_key r = ID task
                   /\ s_ordinal r = None)
    (number_rows (legacy_row task subtaskState t) next subtasks).
Proof.
  revert next. induction subtasks as [|s l IH]; intros next; simpl; constructor.
  - simpl. auto.
  - apply IH.
Qed.

(** X7: on a store that answers, when the UPDATE changes a row,
    UpdateTaskAndAddSubTasks succeeds and has written the update and one row
    per subtask; the rows carry the id of the task whatever TaskID the
    subtasks name, no ordinal, and the state revert_pending when the task is
    reverting and pending otherwise. *)
Theorem UpdateTaskAndAddSubTasks_success task subtasks prevState se r :
  faults se = [] ->
  In r (tidb_global_task (store se)) ->
  t_id r = ID task -> t_state r = prevState ->
  legacy_update_row task (now se) r <> r ->
  let result := UpdateTaskAndAddSubTasks task subtasks prevState se in
  let subtaskState := if String.eqb (State task) TaskStateReverting
                      then SubtaskStateRevertPending else SubtaskStatePending in
  let inserted := number_rows (legacy_row task subtaskState (now se))
                    (subtask_auto_inc se) subtasks in
  fst result = (true, inr tt)
  /\ tidb_global_task (store (snd result))
     = update_where (at_state (ID task) prevState) (legacy_update_row task (now se))
         (tidb_global_task (store se))
  /\ tidb_background_subtask (store (snd result))
     = tidb_background_subtask (store se) ++ inserted
  /\ len inserted = len subtasks
  /\ Forall (fun row => s_state row = subtaskState /\ s_task_key row = ID task
                        /\ s_ordinal row = None) inserted.
Proof.
  intros Hf Hin Hid Hst Hchg result subtaskState inserted.
  pose proof (UpdateTaskAndAddSubTasks_healthy task subtasks prevState se Hf) as Hrun.
  cbv zeta in Hrun. fold result subtaskState inserted in Hrun.
  assert (Hp : at_state (ID task) prevState r = true) by (apply at_state_true; auto).
  pose proof (changed_rows_pos _ _ _ r Hin Hp Hchg) as Hpos.
  destruct (Z.eqb_spec
              (changed_rows (at_state (ID task) prevState)
                 (legacy_update_row task (now se)) (tidb_global_task (store se))) 0)
    as [Hz|_]; [lia|].
  simpl in Hrun. destruct Hrun as (Hres & _ & Hstore).
  split; [exact Hres|]. rewrite Hstore.
  split; [reflexivity|]. split; [reflexivity|].
  split; [apply number_rows_len|apply number_rows_legacy].
Qed.

(** X8: the error of a task goes through the store as its normalized cause:
    on a store that answers, with a codec that decodes what it encodes, a
    task whose row UpdateTaskAndAddSubTasks has updated is read back by
    GetTaskByID with the state, step, concurrency, meta and scheduler id of
    the task object, and with the cause of its error, annotations dropped. *)
Theorem UpdateTaskAndAddSubTasks_then_GetTaskByID task subtasks prevState se t0 err e b :
  faults se = [] ->
  fst (GetTaskByID (ID task) se) = inr t0 ->
  State t0 = prevState -> State task <> prevState ->
  Error task = Some err -> Cause err = ErrStd e ->
  MarshalJSON e = inr b -> UnmarshalJSON b = inr e ->
  let se' := snd (UpdateTaskAndAddSubTasks task subtasks prevState se) in
  fst (UpdateTaskAndAddSubTasks task subtasks prevState se) = (true, inr tt)
  /\ exists t1, fst (GetTaskByID (ID task) se') = inr t1
                /\ State t1 = State task /\ Step t1 = Step task
                /\ Concurrency t1 = Concurrency task /\ Meta t1 = Meta task
                /\ SchedulerID t1 = SchedulerID task
                /\ Error t1 = Some (ErrStd e).
Proof.
  intros Hf Hget Hst Hne Herr Hcause Hm Hu se'.
  rewrite GetTaskByID_healthy in Hget by assumption. simpl in Hget.
  destruct (select_where (fun r => t_id r =? ID task) (tidb_global_task (store se)))
    as [|r0 rest] eqn:Hsel; [discriminate|].
  injection Hget as Ht0. subst t0. simpl in Hst.
  assert (Hin0 : In r0 (tidb_global_task (store se)) /\ (t_id r0 =? ID task) = true).
  { apply (filter_In (fun r => t_id r =? ID task)). unfold select_where in Hsel.
    rewrite Hsel. left. reflexivity. }
  destruct Hin0 as [Hin0 Hid0]. apply Z.eqb_eq in Hid0.
  assert (Hchg : legacy_update_row task (now se) r0 <> r0).
  { intros Heq. apply Hne. rewrite <- Hst, <- Heq. reflexivity. }
  pose proof (UpdateTaskAndAddSubTasks_healthy task subtasks prevState se Hf) as Hrun.
  cbv zeta in Hrun.
  assert (Hp : at_state (ID task) prevState r0 = true) by (apply at_state_true; auto).
  pose proof (changed_rows_pos _ _ _ r0 Hin0 Hp Hchg) as Hpos.
  destruct (Z.eqb_spec
              (changed_rows (at_state (ID task) prevState)
                 (legacy_update_row task (now se)) (tidb_global_task (store se))) 0)
    as [Hz|_]; [lia|].
  simpl in Hrun. destruct Hrun as (Hres & Hf' & Hstore). fold se' in Hf', Hstore.
  split; [exact Hres|].
  rewrite GetTaskByID_healthy by assumption. simpl. rewrite Hstore. simpl.
  rewrite select_id_update_where by reflexivity. rewrite Hsel. simpl. rewrite Hp.
  eexists. split; [reflexivity|]. simpl.
  repeat (split; [reflexivity|]).
  unfold serializeErr. rewrite Herr, Hcause, Hm, Hu. reflexivity.
Qed.

End UpdateTaskAndAddSubTasksHealthy.

(** ** FailSubtask and CancelSubtask *)

Section FailCancel.
Context `{Extern}.

Lemma update_first_found {R} (p : R -> bool) (f : R -> R) pre r post :
  (forall x, In x pre -> p x = false) -> p r = true ->
  update_first p f (pre ++ r :: post) = pre ++ f r :: post.
Proof.
  intros Hpre Hr. induction pre as [|x pre IH]; simpl.
  - rewrite Hr. reflexivity.
  - rewrite (Hpre x (or_introl eq_refl)). f_equal. apply IH.
    intros y Hy. apply Hpre. right. assumption.
Qed.

Lemma update_first_none {R} (p : R -> bool) (f : R -> R) table :
  (forall x, In x table -> p x = false) -> update_first p f table = table.
Proof.
  intros Hnone. induction table as [|x table IH]; [reflexivity|]. simpl.
  rewrite (Hnone x (or_introl eq_refl)). f_equal. apply IH.
  intros y Hy. apply Hnone. right. assumption.
Qed.

Lemma first_match_split {R} (p : R -> bool) table :
  (exists x, In x table /\ p x = true) ->
  exists pre r post,
    table = pre ++ r :: post /\ (forall x, In x pre -> p x = false) /\ p r = true.
Proof.
  induction table as [|y table IH]; intros (x & Hin & Hp); [destruct Hin|].
  destruct (p y) eqn:Hy.
  - exists [], y, table. split; [reflexivity|]. split; [intros ? []|assumption].
  - destruct IH as (pre & r & post & -> & Hpre & Hr).
    { destruct Hin as [<-|Hin]; [congruence|]. exists x. auto. }
    exists (y :: pre), r, post. split; [reflexivity|]. split; [|assumption].
    intros z [<-|Hz]; [assumption|apply Hpre; assumption].
Qed.

Lemma active_on_true execID taskID r :
  active_on execID taskID r = true
  <-> s_exec_id r = execID /\ s_task_key r = taskID
      /\ (s_state r = SubtaskStatePending \/ s_state r = SubtaskStateRunning).
Proof.
  unfold active_on. rewrite !andb_true_iff, String.eqb_eq, Z.eqb_eq, in_states_In.
  simpl. intuition.
Qed.

(** X9: on a store that answers, FailSubtask with an error fails one
    subtask and no more: when the executor has a pending or running subtask
    of the task, one such row gets the state failed, the serialized error and
    the current time as start, update and end time, and every other row stays
    as it is, the other pending and running subtasks of the same executor and
    task included. *)
Theorem FailSubtask_fails_one execID taskID err se :
  faults se = [] ->
  (exists x, In x (tidb_background_subtask (store se))
             /\ active_on execID taskID x = true) ->
  let result := FailSubtask execID taskID (Some err) se in
  exists pre r post,
    tidb_background_subtask (store se) = pre ++ r :: post
    /\ active_on execID taskID r = true
    /\ fst result = inr tt
    /\ store (snd result)
       = set_subtasks (pre ++ fail_row (serializeErr (Some err)) (now se) r :: post)
           (store se)
    /\ s_state (fail_row (serializeErr (Some err)) (now se) r) = SubtaskStateFailed
    /\ s_error (fail_row (serializeErr (Some err)) (now se) r)
       = serializeErr (Some err).
Proof.
  intros Hf Hex result. subst result.
  destruct (first_match_split _ _ Hex) as (pre & r & post & Htab & Hpre & Hr).
  exists pre, r, post. split; [exact Htab|]. split; [exact Hr|].
  unfold FailSubtask, ExecuteSQLWithNewSession, WithNewSession.
  rewrite ExecSQL_healthy by assumption. simpl.
  rewrite Htab, (update_first_found _ _ pre r post Hpre Hr). auto.
Qed.

(** X10: FailSubtask without an error sends no statement, and on a store
    that answers FailSubtask and CancelSubtask for an executor and task with
    no pending or running subtask change nothing; all three return nil. *)
Theorem FailSubtask_CancelSubtask_nothing_to_do execID taskID se :
  FailSubtask execID taskID None se = (inr tt, se)
  /\ (faults se = [] ->
      (forall x, In x (tidb_background_subtask (store se)) ->
                 active_on execID taskID x = false) ->
      forall err,
        fst (FailSubtask execID taskID (Some err) se) = inr tt
        /\ store (snd (FailSubtask execID taskID (Some err) se)) = store se
        /\ fst (CancelSubtask execID taskID se) = inr tt
        /\ store (snd (CancelSubtask execID taskID se)) = store se).
Proof.
  split; [reflexivity|]. intros Hf Hnone err.
  unfold FailSubtask, CancelSubtask, ExecuteSQLWithNewSession, WithNewSession.
  rewrite !ExecSQL_healthy by assumption. simpl.
  rewrite !(update_first_none _ _ _ Hnone), set_subtasks_same. auto.
Qed.

(** X11: on a store that answers, CancelSubtask cancels one subtask and no
    more: when the executor has a pending or running subtask of the task, one
    such row gets the state canceled and the current time as start, update
    and end time, keeps its error, and every other row stays as it is. *)
Theorem CancelSubtask_cancels_one execID taskID se :
  faults se = [] ->
  (exists x, In x (tidb_background_subtask (store se))
             /\ active_on execID taskID x = true) ->
  let result := CancelSubtask execID taskID se in
  exists pre r post,
    tidb_background_subtask (store se) = pre ++ r :: post
    /\ active_on execID taskID r = true
    /\ fst result = inr tt
    /\ store (snd result)
       = set_subtasks (pre ++ cancel_row (now se) r :: post) (store se)
    /\ s_state (cancel_row (now se) r) = SubtaskStateCanceled
    /\ s_error (cancel_row (now se) r) = s_error r.
Proof.
  intros Hf Hex result. subst result.
  destruct (first_match_split _ _ Hex) as (pre & r & post & Htab & Hpre & Hr).
  exists pre, r, post. split; [exact Htab|]. split; [exact Hr|].
  unfold CancelSubtask, ExecuteSQLWithNewSession, WithNewSession.
  rewrite ExecSQL_healthy by assumption. simpl.
  rewrite Htab, (update_first_found _ _ pre r post Hpre Hr). auto.
Qed.

End FailCancel.

(** ** CollectSubTaskError on errors it can decode *)

Section CollectErrors.
Context `{Extern}.

Lemma collect_errors_decodable rs acc :
  Forall (decodable UnmarshalJSON) rs ->
  exists entries,
    collect_errors rs acc = inr (acc ++ entries)
    /\ Forall2 (collected UnmarshalJSON) rs entries.
Proof.
  intros Hall. revert acc. induction Hall as [|o rs Ho Hall IH]; intros acc.
  - exists []. simpl. rewrite app_nil_r. split; [reflexivity|constructor].
  - simpl. destruct o as [b|].
    + destruct (len b =? 0) eqn:Hb.
      * destruct (IH (acc ++ [None])) as (entries & Heq & Hent).
        exists (None :: entries). rewrite Heq, <- app_assoc.
        split; [reflexivity|]. constructor; [|exact Hent]. simpl. rewrite Hb. reflexivity.
      * destruct Ho as [Hz|[stdErr Hdec]]; [apply Z.eqb_neq in Hb; contradiction|].
        rewrite Hdec.
        destruct (IH (acc ++ [Some (ErrStd stdErr)])) as (entries & Heq & Hent).
        exists (Some (ErrStd stdErr) :: entries). rewrite Heq, <- app_assoc.
        split; [reflexivity|]. constructor; [|exact Hent]. simpl. rewrite Hb. eauto.
    + destruct (IH (acc ++ [None])) as (entries & Heq & Hent).
      exists (None :: entries). rewrite Heq, <- app_assoc.
      split; [reflexivity|]. constructor; [reflexivity|exact Hent].
Qed.

Lemma CollectSubTaskError_healthy taskID se :
  faults se = [] ->
  fst (CollectSubTaskError taskID se)
  = match collect_errors
            (map s_error
               (select_where
                  (fun r => (s_task_key r =? taskID)
                            && in_states [SubtaskStateFailed; SubtaskStateCanceled]
                                 (s_state r))
                  (tidb_background_subtask (store se)))) [] with
    | inl err => inl err
    | inr subTaskErrors => inr subTaskErrors
    end.
Proof.
  intros Hf. unfold CollectSubTaskError, ExecuteSQLWithNewSession, WithNewSession, bind.
  rewrite ExecSQL_healthy by assumption. cbn [query fst snd].
  destruct (collect_errors _ _); reflexivity.
Qed.

Lemma CollectSubTaskError_one_entry_per_subtask_aux taskID se :
  faults se = [] ->
  let rows := select_where
                (fun r => (s_task_key r =? taskID)
                          && in_states [SubtaskStateFailed; SubtaskStateCanceled]
                               (s_state r))
                (tidb_background_subtask (store se)) in
  Forall (fun r => decodable UnmarshalJSON (s_error r)) rows ->
  exists entries,
    fst (CollectSubTaskError taskID se) = inr entries
    /\ Forall2 (fun r entry => collected UnmarshalJSON (s_error r) entry) rows entries.
Proof.
  intros Hf rows Hall.
  rewrite CollectSubTaskError_healthy by assumption. fold rows.
  destruct (collect_errors_decodable (map s_error rows) [])
    as (entries & Heq & Hent).
  { apply Forall_map. exact Hall. }
  rewrite Heq. exists entries. split; [reflexivity|].
  clear -Hent. revert entries Hent.
  induction rows as [|r rows IH]; intros entries Hent; inversion Hent; subst;
    constructor; auto.
Qed.


(** X12: on a store that answers, when every error stored with a failed or
    canceled subtask of the task can be decoded, CollectSubTaskError returns
    one entry for each such subtask, in the order of the rows: nil for a NULL
    or empty error, the decoded error otherwise. *)
Theorem CollectSubTaskError_one_entry_per_subtask taskID se :
  faults se = [] ->
  let rows := select_where
                (fun r => (s_task_key r =? taskID)
                          && in_states [SubtaskStateFailed; SubtaskStateCanceled]
                               (s_state r))
                (tidb_background_subtask (store se)) in
  Forall (fun r => decodable UnmarshalJSON (s_error r)) rows ->
  exists entries,
    fst (CollectSubTaskError taskID se) = inr entries
    /\ Forall2 (fun r entry => collected UnmarshalJSON (s_error r) entry) rows entries.
Proof. exact (CollectSubTaskError_one_entry_per_subtask_aux taskID se). Qed.

Lemma Forall2_middle {A B} (P : A -> B -> Prop) l1 x l2 k :
  Forall2 P (l1 ++ x :: l2) k -> exists y, In y k /\ P x y.
Proof.
  revert k. induction l1 as [|a l1 IH]; intros k Hk; simpl in Hk;
    inversion Hk as [|? y0 ? k0 Hp Hrest]; subst.
  - exists y0. split; [left; reflexivity|assumption].
  - destruct (IH _ Hrest) as (y1 & Hy & Hp1).
    exists y1. split; [right; assumption|assumption].
Qed.

(** X13: an error reported with FailSubtask comes back from
    CollectSubTaskError: on a store that answers, for an executor with a
    pending or running subtask of the task, with a codec that decodes the
    bytes the error is serialized to, and the errors already stored with the
    subtasks decodable, the list CollectSubTaskError returns after FailSubtask
    holds the decoded error. *)
Theorem FailSubtask_then_CollectSubTaskError execID taskID err se b e :
  faults se = [] ->
  (exists x, In x (tidb_background_subtask (store se))
             /\ active_on execID taskID x = true) ->
  serializeErr (Some err) = Some b -> len b <> 0 -> UnmarshalJSON b = inr e ->
  (forall x, In x (tidb_background_subtask (store se)) ->
             decodable UnmarshalJSON (s_error x)) ->
  let se' := snd (FailSubtask execID taskID (Some err) se) in
  exists entries,
    fst (CollectSubTaskError taskID se') = inr entries
    /\ In (Some (ErrStd e)) entries.
Proof.
  intros Hf Hex Hser Hb Hdec Hothers se'.
  destruct (first_match_split _ _ Hex) as (pre & r & post & Htab & Hpre & Hr).
  assert (Hse' : faults se' = []
                 /\ tidb_background_subtask (store se')
                    = pre ++ fail_row (Some b) (now se) r :: post).
  { subst se'. unfold FailSubtask, ExecuteSQLWithNewSession, WithNewSession.
    rewrite Hser. rewrite ExecSQL_healthy by assumption.
    cbn [fst snd update_subtasks_limit1 store set_store set_AffectedRows faults
         tidb_background_subtask set_subtasks now].
    rewrite Htab, (update_first_found _ _ pre r post Hpre Hr). auto. }
  destruct Hse' as [Hf' Htab'].
  apply active_on_true in Hr. destruct Hr as (_ & Hkey & _).
  destruct (CollectSubTaskError_one_entry_per_subtask_aux taskID se' Hf')
    as (entries & Hres & Hent).
  { rewrite Htab'. apply Forall_forall. intros x Hx.
    apply filter_In in Hx. destruct Hx as [Hx _].
    apply in_app_or in Hx. destruct Hx as [Hx|[<-|Hx]].
    - apply Hothers. rewrite Htab. apply in_or_app. left. assumption.
    - simpl. right. exists e. assumption.
    - apply Hothers. rewrite Htab. apply in_or_app. right. right. assumption. }
  exists entries. split; [exact Hres|].
  rewrite Htab' in Hent. unfold select_where in Hent.
  rewrite List.filter_app in Hent. simpl in Hent.
  rewrite Hkey, Z.eqb_refl in Hent. simpl in Hent.
  apply Forall2_middle in Hent. destruct Hent as (y & Hy & Hcol).
  simpl in Hcol. destruct (Z.eqb_spec (len b) 0) as [Hz|_]; [contradiction|].
  destruct Hcol as (stdErr & Hd & ->). rewrite Hdec in Hd. injection Hd as <-. exact Hy.
Qed.

End CollectErrors.

(** ** Scoped subtask reads, pausing and resuming *)

Section ScopedReads.
Context `{Extern} `{Host}.

Lemma Repeat_nonneg s count : 0 <= count -> exists text, Repeat s count = Some text.
Proof.
  intros Hc. unfold Repeat. destruct (Z.ltb_spec count 0); [lia|]. eauto.
Qed.

(** X14: GetSubtasksByStepAndStates, GetFirstSubtaskInStates and
    HasSubtasksInStates build their placeholder list with a repeat count of
    len(states) - 1: called without a state all three panic before a session
    is taken. With a state, on a store that answers, they agree: the first
    subtask is one of the list of all, there is none exactly when the list is
    empty, and HasSubtasksInStates says whether the list is not empty. *)
Theorem scoped_subtask_reads_agree tidbID taskID step states :
  match states with
  | [] =>
      GetSubtasksByStepAndStates tidbID taskID step states = None
      /\ GetFirstSubtaskInStates tidbID taskID step states = None
      /\ HasSubtasksInStates tidbID taskID step states = None
  | _ :: _ =>
      exists getAll getFirst has,
        GetSubtasksByStepAndStates tidbID taskID step states = Some getAll
        /\ GetFirstSubtaskInStates tidbID taskID step states = Some getFirst
        /\ HasSubtasksInStates tidbID taskID step states = Some has
        /\ forall se, faults se = [] ->
             exists subtasks first,
               fst (getAll se) = inr subtasks
               /\ fst (getFirst se) = inr first
               /\ fst (has se) = inr (0 <? len subtasks)
               /\ match first with
                  | None => subtasks = []
                  | Some subtask => In subtask subtasks
                  end
               /\ subtasks
                  = map Row2SubTask
                      (select_where (on_exec_step_states tidbID taskID step states)
                         (tidb_background_subtask (store se)))
  end.
Proof.
  destruct states as [|st states]; [repeat split|].
  unfold GetSubtasksByStepAndStates, GetFirstSubtaskInStates, HasSubtasksInStates.
  destruct (Repeat_nonneg "%?," (len (st :: states) - 1)) as [text Htext].
  { unfold len. simpl. lia. }
  rewrite Htext. do 3 eexists. do 3 (split; [reflexivity|]).
  intros se Hf. unfold ExecuteSQLWithNewSession, WithNewSession, bind.
  rewrite !ExecSQL_healthy by assumption. cbn [query fst snd].
  destruct (select_where _ _) as [|r rows]; simpl.
  - exists [], None. repeat split.
  - exists (Row2SubTask r :: map Row2SubTask rows), (Some (Row2SubTask r)).
    repeat split. left. reflexivity.
Qed.

Lemma HasSubtasksInStates_healthy tidbID taskID step st states m se :
  HasSubtasksInStates tidbID taskID step (st :: states) = Some m ->
  faults se = [] ->
  fst (m se)
  = inr (0 <? len (select_where (on_exec_step_states tidbID taskID step (st :: states))
                     (tidb_background_subtask (store se)))).
Proof.
  unfold HasSubtasksInStates.
  destruct (Repeat _ _); [|discriminate]. intros Hm Hf. injection Hm as <-.
  unfold ExecuteSQLWithNewSession, WithNewSession, bind.
  rewrite ExecSQL_healthy by assumption. cbn [query fst snd ret].
  destruct (select_where _ _) as [|r rows]; reflexivity.
Qed.

(** X15: on a store that answers, after PauseSubtasks for an executor and a
    task, HasSubtasksInStates finds no pending or running subtask of that
    executor and task in any step, and the subtask rows of other executors and
    of other tasks are as they were. *)
Theorem PauseSubtasks_leaves_none_active execID taskID se :
  faults se = [] ->
  let se' := snd (PauseSubtasks execID taskID se) in
  fst (PauseSubtasks execID taskID se) = inr tt
  /\ (forall step has,
        HasSubtasksInStates execID taskID step
          [SubtaskStatePending; SubtaskStateRunning] = Some has ->
        fst (has se') = inr false)
  /\ (forall r, In r (tidb_background_subtask (store se)) ->
                s_task_key r <> taskID \/ s_exec_id r <> execID ->
                In r (tidb_background_subtask (store se')))
  /\ length (tidb_background_subtask (store se'))
     = length (tidb_background_subtask (store se)).
Proof.
  intros Hf se'.
  assert (Hrun : fst (PauseSubtasks execID taskID se) = inr tt
                 /\ faults se' = []
                 /\ tidb_background_subtask (store se')
                    = update_where
                        (fun r => (s_task_key r =? taskID)
                                  && in_states ["running"; "pending"] (s_state r)
                                  && String.eqb (s_exec_id r) execID)
                        (set_state "paused") (tidb_background_subtask (store se))).
  { subst se'. unfold PauseSubtasks, ExecuteSQLWithNewSession, WithNewSession.
    rewrite ExecSQL_healthy by assumption. simpl. auto. }
  destruct Hrun as (Hres & Hf' & Htab).
  split; [exact Hres|]. split; [|split].
  - intros step has Hhas.
    rewrite (HasSubtasksInStates_healthy _ _ _ _ _ _ _ Hhas Hf').
    rewrite select_none; [reflexivity|].
    intros r Hin. rewrite Htab in Hin. unfold update_where in Hin.
    apply in_map_iff in Hin. destruct Hin as (x & <- & _).
    unfold on_exec_step_states.
    destruct ((s_task_key x =? taskID)
              && in_states ["running"; "pending"] (s_state x)
              && String.eqb (s_exec_id x) execID) eqn:Hp.
    + simpl. rewrite !andb_false_r. reflexivity.
    + destruct (String.eqb (s_exec_id x) execID) eqn:He; [|reflexivity].
      destruct (s_task_key x =? taskID) eqn:Hk; [|reflexivity].
      simpl in Hp |- *. rewrite andb_true_r in Hp.
      destruct (s_step x =? step); [|reflexivity]. simpl.
      unfold in_states, SubtaskStatePending, SubtaskStateRunning in Hp |- *.
      simpl in Hp |- *.
      destruct (String.eqb (s_state x) "running"), (String.eqb (s_state x) "pending");
        simpl in Hp |- *; congruence.
  - intros r Hin Hother. rewrite Htab. unfold update_where.
    apply in_map_iff. exists r. split; [|assumption].
    destruct (s_task_key r =? taskID) eqn:Hk; [|reflexivity].
    destruct (String.eqb (s_exec_id r) execID) eqn:He;
      [|rewrite andb_false_r; reflexivity].
    apply Z.eqb_eq in Hk. apply String.eqb_eq in He. destruct Hother; contradiction.
  - rewrite Htab. unfold update_where. apply length_map.
Qed.

(** X16: pausing and then resuming does not put a subtask back where it
    was: on a store that answers, after PauseSubtasks for an executor and
    ResumeSubtasks for the task, every subtask of the task that was paused
    before, or was pending or running on that executor, is pending with its
    error cleared, and every other row is as it was. *)
Theorem PauseSubtasks_then_ResumeSubtasks execID taskID se :
  faults se = [] ->
  let se1 := snd (PauseSubtasks execID taskID se) in
  let se2 := snd (ResumeSubtasks taskID se1) in
  fst (PauseSubtasks execID taskID se) = inr tt
  /\ fst (ResumeSubtasks taskID se1) = inr tt
  /\ tidb_background_subtask (store se2)
     = map (fun r =>
              if (s_task_key r =? taskID)
                 && (String.eqb (s_state r) "paused"
                     || (String.eqb (s_exec_id r) execID
                         && in_states ["running"; "pending"] (s_state r)))
              then resume_row r else r)
         (tidb_background_subtask (store se))
  /\ (forall r, s_state (resume_row r) = SubtaskStatePending
                /\ s_error (resume_row r) = None).
Proof.
  intros Hf se1 se2.
  assert (Hrun1 : fst (PauseSubtasks execID taskID se) = inr tt
                  /\ faults se1 = []
                  /\ tidb_background_subtask (store se1)
                     = update_where
                         (fun r => (s_task_key r =? taskID)
                                   && in_states ["running"; "pending"] (s_state r)
                                   && String.eqb (s_exec_id r) execID)
                         (set_state "paused") (tidb_background_subtask (store se))).
  { subst se1. unfold PauseSubtasks, ExecuteSQLWithNewSession, WithNewSession.
    rewrite ExecSQL_healthy by assumption. simpl. auto. }
  destruct Hrun1 as (Hres1 & Hf1 & Htab1).
  assert (Hrun2 : fst (ResumeSubtasks taskID se1) = inr tt
                  /\ tidb_background_subtask (store se2)
                     = update_where
                         (fun r => (s_task_key r =? taskID)
                                   && String.eqb (s_state r) "paused")
                         resume_row (tidb_background_subtask (store se1))).
  { subst se2. unfold ResumeSubtasks, ExecuteSQLWithNewSession, WithNewSession.
    rewrite ExecSQL_healthy by assumption. simpl. auto. }
  destruct Hrun2 as (Hres2 & Htab2).
  split; [exact Hres1|]. split; [exact Hres2|]. split; [|intros r; split; reflexivity].
  rewrite Htab2, Htab1. unfold update_where. rewrite map_map.
  apply map_ext. intros r.
  destruct (s_task_key r =? taskID) eqn:Hk;
    destruct (in_states ["running"; "pending"] (s_state r)) eqn:Ha;
    destruct (String.eqb (s_exec_id r) execID) eqn:He;
    destruct (String.eqb (s_state r) "paused") eqn:Hs;
    simpl; rewrite ?Hk, ?Hs; simpl; reflexivity.
Qed.

End ScopedReads.

(** ** RunningSubtasksBack2Pending and UpdateSubtasksExecIDs *)

Section PerSubtaskUpdates.
Context `{Extern}.

Lemma for_each_update_healthy (p : Subtask -> SubtaskRow -> bool)
    (f : Subtask -> Z -> SubtaskRow -> SubtaskRow) subtasks se :
  faults se = [] ->
  exists se',
    for_each (fun s => ExecSQL (fun se => update_subtasks (p s) (f s (now se)) se))
      subtasks se = (inr tt, se')
    /\ faults se' = []
    /\ store se'
       = set_subtasks
           (updated_each p (fun s => f s (now se)) subtasks
              (tidb_background_subtask (store se)))
           (store se).
Proof.
  revert se. induction subtasks as [|s l IH]; intros se Hf.
  - exists se. simpl. rewrite set_subtasks_same. auto.
  - simpl. unfold bind. rewrite ExecSQL_healthy by assumption. cbn [fst snd].
    destruct (IH (snd (update_subtasks (p s) (f s (now se)) se)) Hf)
      as (se' & Hrun & Hf' & Hstore).
    exists se'. split; [exact Hrun|]. split; [exact Hf'|].
    rewrite Hstore. simpl. destruct (store se). reflexivity.
Qed.

Lemma keeps_txn_for_each_update (p : Subtask -> SubtaskRow -> bool)
    (f : Subtask -> Z -> SubtaskRow -> SubtaskRow) subtasks :
  keeps_txn (for_each (fun s => ExecSQL (fun se =>
                         update_subtasks (p s) (f s (now se)) se)) subtasks).
Proof. apply keeps_txn_for_each. intros s. apply keeps_txn_ExecSQL. reflexivity. Qed.



(** The given subtask that decides the executor of a row: the last one that
    records the row's id and state. *)
Lemma exec_ids_each subtasks table :
  updated_each
    (fun s r => (s_id r =? SubID s) && String.eqb (s_state r) (SubState s))
    (fun s => set_exec_id (SubExecID s)) subtasks table
  = map (fun r =>
           match List.find (fun s => (s_id r =? SubID s)
                                     && String.eqb (s_state r) (SubState s))
                   (rev subtasks) with
           | Some s => set_exec_id (SubExecID s) r
           | None => r
           end) table.
Proof.
  unfold updated_each. induction subtasks as [|s l IH] using rev_ind; simpl.
  - symmetry. apply map_id.
  - rewrite fold_left_app. simpl. rewrite IH. unfold update_where.
    rewrite map_map. apply map_ext. intros r. rewrite rev_unit. simpl.
    destruct (List.find _ (rev l)) as [s0|]; simpl;
      destruct ((s_id r =? SubID s) && String.eqb (s_state r) (SubState s));
      reflexivity.
Qed.

(** X18: on a store that answers, UpdateSubtasksExecIDs changes nothing but
    the exec_id column, and only of rows whose id and current state one of the
    given subtasks records; such a row gets the ExecID of the last of these
    subtasks. A row whose state has changed since the subtask object was read
    keeps its executor. On any store, a call that ends in an error has
    written nothing. *)
Theorem UpdateSubtasksExecIDs_guarded_by_state subtasks se :
  faults se = [] ->
  let result := UpdateSubtasksExecIDs subtasks se in
  fst result = inr tt
  /\ tidb_background_subtask (store (snd result))
     = map (fun r =>
              match List.find (fun s => (s_id r =? SubID s)
                                        && String.eqb (s_state r) (SubState s))
                      (rev subtasks) with
              | Some s => set_exec_id (SubExecID s) r
              | None => r
              end) (tidb_background_subtask (store se))
  /\ (forall r, In r (tidb_background_subtask (store se)) ->
                (forall s, In s subtasks -> SubID s = s_id r ->
                           SubState s <> s_state r) ->
                In r (tidb_background_subtask (store (snd result))))
  /\ (forall sf e, fst (UpdateSubtasksExecIDs subtasks sf) = inl e ->
                   store (snd (UpdateSubtasksExecIDs subtasks sf)) = store sf).
Proof.
  intros Hf result.
  assert (Htab : fst result = inr tt
                 /\ tidb_background_subtask (store (snd result))
                    = map (fun r =>
                             match List.find
                                     (fun s => (s_id r =? SubID s)
                                               && String.eqb (s_state r) (SubState s))
                                     (rev subtasks) with
                             | Some s => set_exec_id (SubExecID s) r
                             | None => r
                             end) (tidb_background_subtask (store se))).
  { subst result. unfold UpdateSubtasksExecIDs.
    destruct (len subtasks =? 0) eqn:Hl.
    - apply Z.eqb_eq, len_zero_nil in Hl. subst subtasks. simpl.
      split; [reflexivity|]. symmetry. apply map_id.
    - destruct (for_each_update_healthy
                  (fun s r => (s_id r =? SubID s) && String.eqb (s_state r) (SubState s))
                  (fun s _ => set_exec_id (SubExecID s))
                  subtasks (set_txn_begin (Some (store se)) se) Hf)
        as (se' & Hrun & Hf' & Hstore).
      match goal with
      | |- context [WithNewTxn ?body se] =>
          assert (Hc : WithNewTxn body se = (inr tt, set_txn_begin None se'))
            by exact (WithNewTxn_commit body se tt se' Hf Hrun Hf')
      end.
      rewrite Hc. simpl.
      split; [reflexivity|]. rewrite Hstore. simpl. apply exec_ids_each. }
  destruct Htab as [Hres Htab]. split; [exact Hres|]. split; [exact Htab|]. split.
  - intros r Hin Hnone. rewrite Htab. apply in_map_iff. exists r. split; [|assumption].
    destruct (List.find _ (rev subtasks)) as [s|] eqn:Hfind; [|reflexivity].
    apply find_some in Hfind. destruct Hfind as [Hs Hp].
    apply andb_true_iff in Hp. destruct Hp as [Hid Hst].
    apply Z.eqb_eq in Hid. apply String.eqb_eq in Hst.
    exfalso. apply (Hnone s); [apply in_rev; assumption|congruence|congruence].
  - intros sf e. unfold UpdateSubtasksExecIDs.
    destruct (len subtasks =? 0); [discriminate|].
    destruct (WithNewTxn _ sf) as [r sf'] eqn:Hrun. simpl. intros ->.
    refine (WithNewTxn_error_unchanged _ _ _ _ _ Hrun).
    apply (keeps_txn_for_each_update
             (fun s r => (s_id r =? SubID s) && String.eqb (s_state r) (SubState s))
             (fun s _ => set_exec_id (SubExecID s))).
Qed.

End PerSubtaskUpdates.

(** ** FinishSubtask and UpdateSubtaskStateAndError *)

Section FinishSubtask.
Context `{Extern} `{Host}.

(** X19: FinishSubtask and UpdateSubtaskStateAndError do not look at the
    number of rows their UPDATE changed: on a store that answers, for a
    subtask the executor does not own (or that does not exist) both return nil
    and leave every table as it is. *)
Theorem FinishSubtask_UpdateSubtaskStateAndError_not_owned execID id se :
  faults se = [] ->
  (forall r, In r (tidb_background_subtask (store se)) ->
             owned_by id execID r = false) ->
  forall meta state subTaskErr,
    fst (FinishSubtask execID id meta se) = inr tt
    /\ store (snd (FinishSubtask execID id meta se)) = store se
    /\ fst (UpdateSubtaskStateAndError execID id state subTaskErr se) = inr tt
    /\ store (snd (UpdateSubtaskStateAndError execID id state subTaskErr se))
       = store se.
Proof.
  intros Hf Hnone meta state subTaskErr.
  unfold FinishSubtask, UpdateSubtaskStateAndError, ExecuteSQLWithNewSession,
    WithNewSession.
  rewrite !ExecSQL_healthy by assumption. simpl.
  rewrite !(proj2 (update_where_no_match _ _ _ Hnone)), set_subtasks_same. auto.
Qed.

End FinishSubtask.

(** ** GCSubtasks *)

Section GCSubtasks.
Context `{Extern} `{Host}.

(** X20: on a store that answers, GCSubtasks deletes from the subtask
    history the rows whose update time is more than 14 days (1209600 seconds)
    before the current time and no other: a row updated exactly 1209600
    seconds ago and a row without update time stay, and the live subtasks and
    the tasks are not touched. *)
Theorem GCSubtasks_retention se :
  faults se = [] ->
  let d := store se in
  let d' := store (snd (GCSubtasks se)) in
  fst (GCSubtasks se) = inr tt
  /\ tidb_background_subtask d' = tidb_background_subtask d
  /\ tidb_global_task d' = tidb_global_task d
  /\ tidb_global_task_history d' = tidb_global_task_history d
  /\ dist_framework_meta d' = dist_framework_meta d
  /\ forall r,
       In r (tidb_background_subtask_history d')
       <-> In r (tidb_background_subtask_history d)
           /\ match s_state_update_time r with
              | Some t => now se - 1209600 <= t
              | None => True
              end.
Proof.
  intros Hf d d'. subst d d'.
  unfold GCSubtasks, ExecuteSQLWithNewSession, WithNewSession.
  rewrite ExecSQL_healthy by assumption. simpl.
  do 5 (split; [reflexivity|]).
  intros r. unfold delete_where. rewrite filter_In.
  unfold defaultSubtaskKeepDays.
  destruct (s_state_update_time r) as [t|]; simpl; [|tauto].
  destruct (Z.ltb_spec t (now se - 14 * 24 * 60 * 60)); simpl; split;
    intros [Hin Hk]; split; try assumption; try reflexivity; try discriminate; lia.
Qed.

End GCSubtasks.

(** ** GetSubtasksWithHistory *)

Section GetSubtasksWithHistory.
Context `{Extern} `{Host}.

Lemma select_select_imp {R} (p q : R -> bool) table :
  (forall r, p r = true -> q r = true) ->
  select_where p (select_where q table) = select_where p table.
Proof.
  intros Himp. unfold select_where.
  induction table as [|x table IH]; [reflexivity|]. simpl.
  destruct (q x) eqn:Hq; simpl.
  - rewrite IH. reflexivity.
  - destruct (p x) eqn:Hp; [|exact IH].
    rewrite (Himp x Hp) in Hq. discriminate.
Qed.

Lemma GetSubtasksWithHistory_healthy taskID step se :
  faults se = [] ->
  let p r := (s_task_key r =? taskID) && (s_step r =? step) in
  fst (GetSubtasksWithHistory taskID step se)
  = inr (map Row2SubTask
           (select_where p (tidb_background_subtask (store se))
            ++ select_where p (tidb_background_subtask_history (store se)))).
Proof.
  intros Hf p. unfold GetSubtasksWithHistory, bind at 1.
  match goal with |- context [WithNewTxn ?fn se] => set (body := fn) end.
  assert (Hbody : body (set_txn_begin (Some (store se)) se)
                  = (inr (select_where p (tidb_background_subtask (store se))
                          ++ select_where p (tidb_background_subtask_history (store se))),
                     set_AffectedRows 0 (set_txn_begin (Some (store se)) se))).
  { subst body. unfold bind.
    rewrite ExecSQL_healthy by assumption. cbn [query fst snd].
    rewrite ExecSQL_healthy by assumption. reflexivity. }
  rewrite (WithNewTxn_commit body se _ _ Hf Hbody Hf).
  destruct (len _ =? 0) eqn:Hl; [|reflexivity].
  apply Z.eqb_eq, len_zero_nil in Hl. rewrite Hl. reflexivity.
Qed.

(** X21: moving a task to the history loses none of its subtasks for
    GetSubtasksWithHistory: on a store that answers, the subtasks of a step of
    the task that GetSubtasksWithHistory returns after TransferTasks2History
    are those it returned before, the ones that were live now after the ones
    that were in the history already. *)
Theorem GetSubtasksWithHistory_after_transfer T step se :
  faults se = [] ->
  let p r := (s_task_key r =? ID T) && (s_step r =? step) in
  let live := map Row2SubTask (select_where p (tidb_background_subtask (store se))) in
  let old := map Row2SubTask
               (select_where p (tidb_background_subtask_history (store se))) in
  fst (GetSubtasksWithHistory (ID T) step se) = inr (live ++ old)
  /\ fst (GetSubtasksWithHistory (ID T) step (snd (TransferTasks2History [T] se)))
     = inr (old ++ live).
Proof.
  intros Hf p live old. subst live old.
  split.
  - rewrite GetSubtasksWithHistory_healthy by assumption. rewrite map_app. reflexivity.
  - destruct (TransferTasks2History_single_healthy T se Hf) as (_ & Hf' & Hstore).
    rewrite GetSubtasksWithHistory_healthy by assumption. rewrite Hstore. simpl.
    rewrite select_delete_disjoint.
    2:{ intros r Hr. apply andb_true_iff in Hr. tauto. }
    rewrite select_app, select_select_imp.
    2:{ intros r Hr. apply andb_true_iff in Hr. tauto. }
    simpl. rewrite map_app. reflexivity.
Qed.

End GetSubtasksWithHistory.

(** ** Reads of a task by key *)

Section TaskByKey.
Context `{Extern} `{Host}.



End TaskByKey.

(** ** The node registry *)

Section NodeRegistry.
Context `{Extern} `{Host}.

Lemma existsb_host_In host (nodes : list ManagedNode) :
  existsb (fun n => String.eqb (NodeID n) host) nodes = true
  <-> In host (map NodeID nodes).
Proof.
  rewrite existsb_exists, in_map_iff. split.
  - intros (n & Hin & Heq). apply String.eqb_eq in Heq. eauto.
  - intros (n & Heq & Hin). exists n. split; [assumption|].
    apply String.eqb_eq. assumption.
Qed.

Lemma upsert_node_hosts host role cpuCount onDuplicate se :
  (forall n, NodeID (onDuplicate n) = NodeID n) ->
  let nodes := dist_framework_meta (store se) in
  let nodes' := dist_framework_meta
                  (store (snd (upsert_node host role cpuCount onDuplicate se))) in
  map NodeID nodes'
  = (if existsb (fun n => String.eqb (NodeID n) host) nodes
     then map NodeID nodes else map NodeID nodes ++ [host])
  /\ (List.NoDup (map NodeID nodes) -> List.NoDup (map NodeID nodes'))
  /\ (forall n, In n nodes -> NodeID n <> host -> In n nodes')
  /\ (forall n', In n' nodes' ->
        In n' nodes /\ NodeID n' <> host
        \/ (exists n, In n nodes /\ NodeID n = host /\ n' = onDuplicate n)
        \/ ~ In host (map NodeID nodes)
           /\ n' = {| NodeID := host; Role := role; CPUCount := cpuCount |}).
Proof.
  intros Hkey nodes nodes'. subst nodes'. unfold upsert_node. fold nodes.
  destruct (existsb _ nodes) eqn:Hex; simpl.
  - assert (Hmap : map NodeID (update_where (fun n => String.eqb (NodeID n) host)
                                 onDuplicate nodes) = map NodeID nodes).
    { unfold update_where. rewrite map_map. apply map_ext. intros n.
      destruct (String.eqb _ _); [apply Hkey|reflexivity]. }
    rewrite Hmap. split; [reflexivity|]. split; [auto|]. split.
    + intros n Hin Hne. unfold update_where. apply in_map_iff. exists n.
      destruct (String.eqb_spec (NodeID n) host); [contradiction|auto].
    + intros n' Hin. unfold update_where in Hin. apply in_map_iff in Hin.
      destruct Hin as (n & Heq & Hin).
      destruct (String.eqb_spec (NodeID n) host); subst n'.
      * right. left. exists n. auto.
      * left. auto.
  - assert (Hnot : ~ In host (map NodeID nodes)).
    { intros Hin. apply existsb_host_In in Hin. congruence. }
    rewrite map_app. simpl. split; [reflexivity|]. split.
    + intros Hnd. apply NoDup_app; [assumption|repeat constructor; intros []|].
      intros a Ha [<-|[]]. contradiction.
    + split.
      * intros n Hin _. apply in_or_app. left. assumption.
      * intros n' Hin. apply in_app_or in Hin. destruct Hin as [Hin|[<-|[]]].
        -- left. split; [assumption|]. intros Heq. apply Hnot.
           apply in_map_iff. exists n'. auto.
        -- right. right. auto.
Qed.

(** X23: on a store that answers, RecoverMeta never changes the role of a
    node that is registered: for a host the table has, no row is added and
    every row keeps its host and role; for a new host one row with the given
    role is added. The row of the host has the CPU count of this machine
    afterwards, the rows of other hosts stay as they are, and hosts that were
    unique stay unique. *)
Theorem RecoverMeta_keeps_role execID role se :
  faults se = [] ->
  let nodes := dist_framework_meta (store se) in
  let nodes' := dist_framework_meta (store (snd (RecoverMeta execID role se))) in
  fst (RecoverMeta execID role se) = inr tt
  /\ (if existsb (fun n => String.eqb (NodeID n) execID) nodes
      then map NodeID nodes' = map NodeID nodes /\ map Role nodes' = map Role nodes
      else nodes' = nodes ++ [{| NodeID := execID; Role := role;
                                 CPUCount := GetCPUCount |}])
  /\ (forall n', In n' nodes' -> NodeID n' = execID -> CPUCount n' = GetCPUCount)
  /\ (forall n, In n nodes -> NodeID n <> execID -> In n nodes')
  /\ (List.NoDup (map NodeID nodes) -> List.NoDup (map NodeID nodes')).
Proof.
  intros Hf nodes nodes'. subst nodes'.
  unfold RecoverMeta, ExecuteSQLWithNewSession, WithNewSession.
  rewrite ExecSQL_healthy by assumption. cbn [fst snd].
  split; [destruct (fst _); reflexivity|].
  destruct (upsert_node_hosts execID role GetCPUCount
              (fun n => {| NodeID := NodeID n; Role := Role n; CPUCount := GetCPUCount |})
              se (fun n => eq_refl)) as (Hhosts & Hnd & Hkeep & Hinv).
  fold nodes in Hhosts, Hnd, Hkeep, Hinv |- *.
  split; [|split; [|split; [exact Hkeep|exact Hnd]]].
  - unfold upsert_node. fold nodes.
    destruct (existsb _ nodes) eqn:Hex; simpl; [|reflexivity].
    unfold update_where. rewrite !map_map. split; apply map_ext; intros n;
      destruct (String.eqb _ _); reflexivity.
  - intros n' Hin Hid. destruct (Hinv n' Hin) as [[_ Hne]|[(n & _ & _ & ->)|[_ ->]]];
      [contradiction|reflexivity|reflexivity].
Qed.

(** X24: on a store that answers, InitMeta leaves exactly one kind of row
    for the host: every row of the host has the given role and the CPU count
    of this machine afterwards, there is such a row, the rows of other hosts
    stay as they are, hosts that were unique stay unique, and a second
    InitMeta with the same arguments changes nothing. *)
Theorem InitMeta_sets_role tidbID role se :
  faults se = [] ->
  let self := {| NodeID := tidbID; Role := role; CPUCount := GetCPUCount |} in
  let nodes := dist_framework_meta (store se) in
  let se' := snd (InitMeta tidbID role se) in
  let nodes' := dist_framework_meta (store se') in
  fst (InitMeta tidbID role se) = inr tt
  /\ In self nodes'
  /\ (forall n', In n' nodes' -> NodeID n' = tidbID -> n' = self)
  /\ (forall n, In n nodes -> NodeID n <> tidbID -> In n nodes')
  /\ (List.NoDup (map NodeID nodes) -> List.NoDup (map NodeID nodes'))
  /\ store (snd (InitMeta tidbID role se')) = store se'.
Proof.
  intros Hf self nodes se' nodes'.
  assert (Hrun : InitMeta tidbID role se
                 = (inr tt, snd (upsert_node tidbID role GetCPUCount
                                   (fun n => {| NodeID := NodeID n; Role := role;
                                                CPUCount := GetCPUCount |}) se))).
  { unfold InitMeta, InitMetaSession, WithNewSession.
    rewrite ExecSQL_healthy by assumption.
    destruct (upsert_node _ _ _ _ se) as [[] ?]. reflexivity. }
  destruct (upsert_node_hosts tidbID role GetCPUCount
              (fun n => {| NodeID := NodeID n; Role := role; CPUCount := GetCPUCount |})
              se (fun n => eq_refl)) as (Hhosts & Hnd & Hkeep & Hinv).
  assert (Hnodes' : nodes' = dist_framework_meta
                               (store (snd (upsert_node tidbID role GetCPUCount
                                   (fun n => {| NodeID := NodeID n; Role := role;
                                                CPUCount := GetCPUCount |}) se)))).
  { subst nodes' se'. rewrite Hrun. reflexivity. }
  fold nodes in Hhosts, Hnd, Hkeep, Hinv. rewrite <- Hnodes' in Hhosts, Hnd, Hkeep, Hinv.
  assert (Hself : forall n', In n' nodes' -> NodeID n' = tidbID -> n' = self).
  { intros n' Hin Hid. destruct (Hinv n' Hin) as [[_ Hne]|[(n & _ & Hn & ->)|[_ ->]]];
      [contradiction| |reflexivity].
    subst self. rewrite Hn. reflexivity. }
  assert (Hhas : In self nodes').
  { assert (Hin : In tidbID (map NodeID nodes')).
    { rewrite Hhosts. destruct (existsb _ nodes) eqn:Hex.
      - apply existsb_host_In. assumption.
      - apply in_or_app. right. left. reflexivity. }
    apply in_map_iff in Hin. destruct Hin as (n' & Hid & Hin).
    rewrite <- (Hself n' Hin Hid). assumption. }
  split; [rewrite Hrun; reflexivity|]. split; [exact Hhas|].
  split; [exact Hself|]. split; [exact Hkeep|]. split; [exact Hnd|].
  assert (Hf' : faults se' = []).
  { subst se'. rewrite Hrun. unfold upsert_node.
    destruct (existsb _ _); simpl; assumption. }
  unfold InitMeta, InitMetaSession, WithNewSession.
  rewrite ExecSQL_healthy by assumption. cbn [snd]. unfold upsert_node.
  fold nodes'.
  assert (Hex : existsb (fun n => String.eqb (NodeID n) tidbID) nodes' = true).
  { apply existsb_host_In. apply in_map_iff. exists self. auto. }
  rewrite Hex. simpl.
  assert (Hsame : update_where (fun n => String.eqb (NodeID n) tidbID)
                    (fun n => {| NodeID := NodeID n; Role := role;
                                 CPUCount := GetCPUCount |}) nodes' = nodes').
  { unfold update_where. rewrite <- (map_id nodes') at 2. apply map_ext_in.
    intros n Hin. destruct (String.eqb_spec (NodeID n) tidbID) as [Hid|]; [|reflexivity].
    rewrite (Hself n Hin Hid). subst self. reflexivity. }
  rewrite Hsame. subst nodes'. destruct (store se'). reflexivity.
Qed.

Lemma In_merge_sort_host n nodes : In n (merge_sort host_le nodes) <-> In n nodes.
Proof.
  split; apply Permutation_in;
    [|symmetry]; apply merge_sort_Permutation.
Qed.

Lemma In_nodes_of_role n role nodes :
  In n (nodes_of_role role nodes) <-> In n nodes /\ Role n = role.
Proof. unfold nodes_of_role. rewrite filter_In, String.eqb_eq. reflexivity. Qed.

Lemma GetManagedNodes_healthy se :
  faults se = [] -> fst (GetManagedNodes se) = inr (managed_nodes (store se)).
Proof.
  intros Hf. unfold GetManagedNodes, WithNewSession.
  rewrite getManagedNodes_healthy by assumption. reflexivity.
Qed.

Lemma managed_nodes_spec d n :
  In n (managed_nodes d)
  <-> In n (dist_framework_meta d)
      /\ (Role n = "background"
          \/ Role n = ""
             /\ forall m, In m (dist_framework_meta d) -> Role m <> "background").
Proof.
  unfold managed_nodes.
  destruct (len (nodes_of_role "background" _) =? 0) eqn:Hl.
  - apply Z.eqb_eq, len_zero_nil in Hl.
    assert (Hnone : forall m, In m (dist_framework_meta d) -> Role m <> "background").
    { intros m Hin Hr.
      assert (Hm : In m (nodes_of_role "background"
                           (merge_sort host_le (dist_framework_meta d)))).
      { apply In_nodes_of_role. split; [apply In_merge_sort_host; assumption|assumption]. }
      rewrite Hl in Hm. destruct Hm. }
    rewrite In_nodes_of_role, In_merge_sort_host. split.
    + intros [Hin Hr]. auto.
    + intros [Hin [Hr|[Hr _]]]; [exfalso; apply (Hnone n Hin Hr)|auto].
  - rewrite In_nodes_of_role, In_merge_sort_host. split.
    + intros [Hin Hr]. auto.
    + intros [Hin [Hr|[Hr Hnone]]]; [auto|].
      exfalso. apply Z.eqb_neq in Hl. apply Hl.
      destruct (nodes_of_role "background" _) as [|m rest] eqn:Hnodes; [reflexivity|].
      assert (Hm : In m (nodes_of_role "background"
                           (merge_sort host_le (dist_framework_meta d))))
        by (rewrite Hnodes; left; reflexivity).
      apply In_nodes_of_role in Hm. destruct Hm as [Hm Hr'].
      apply (proj1 (In_merge_sort_host _ _)) in Hm. exfalso. apply (Hnone m Hm Hr').
Qed.

(** X25: on a store that answers, GetManagedNodes returns the registered
    nodes of one role: those with the role background when there is one, and
    those with the empty role only when there is none with the role
    background; a node with any other role is never returned. *)
Theorem GetManagedNodes_one_role se :
  faults se = [] ->
  exists nodes,
    fst (GetManagedNodes se) = inr nodes
    /\ forall n,
         In n nodes
         <-> In n (dist_framework_meta (store se))
             /\ (Role n = "background"
                 \/ Role n = ""
                    /\ forall m, In m (dist_framework_meta (store se)) ->
                                 Role m <> "background").
Proof.
  intros Hf. exists (managed_nodes (store se)).
  split; [apply GetManagedNodes_healthy; assumption|].
  intros n. apply managed_nodes_spec.
Qed.

(** X26: a node that registers itself with the role background is managed:
    on a store that answers, after InitMeta with that role GetManagedNodes
    returns the node with the CPU count of this machine, and only nodes with
    the role background. *)
Theorem InitMeta_then_GetManagedNodes tidbID se :
  faults se = [] ->
  exists nodes,
    fst (GetManagedNodes (snd (InitMeta tidbID "background" se))) = inr nodes
    /\ In {| NodeID := tidbID; Role := "background"; CPUCount := GetCPUCount |} nodes
    /\ Forall (fun n => Role n = "background") nodes.
Proof.
  intros Hf.
  assert (Hrun : InitMeta tidbID "background" se
                 = (inr tt, snd (upsert_node tidbID "background" GetCPUCount
                                   (fun n => {| NodeID := NodeID n; Role := "background";
                                                CPUCount := GetCPUCount |}) se))).
  { unfold InitMeta, InitMetaSession, WithNewSession.
    rewrite ExecSQL_healthy by assumption.
    destruct (upsert_node _ _ _ _ se) as [[] ?]. reflexivity. }
  destruct (upsert_node_hosts tidbID "background" GetCPUCount
              (fun n => {| NodeID := NodeID n; Role := "background";
                           CPUCount := GetCPUCount |})
              se (fun n => eq_refl)) as (Hhosts & _ & _ & Hinv).
  rewrite Hrun. cbn [snd].
  set (se' := snd (upsert_node _ _ _ _ se)) in *.
  assert (Hf' : faults se' = []).
  { subst se'. unfold upsert_node. destruct (existsb _ _); simpl; assumption. }
  assert (Hself : In {| NodeID := tidbID; Role := "background";
                        CPUCount := GetCPUCount |}
                    (dist_framework_meta (store se'))).
  { assert (Hin : In tidbID (map NodeID (dist_framework_meta (store se')))).
    { rewrite Hhosts. destruct (existsb _ _) eqn:Hex.
      - apply existsb_host_In. assumption.
      - apply in_or_app. right. left. reflexivity. }
    apply in_map_iff in Hin. destruct Hin as (n' & Hid & Hin).
    destruct (Hinv n' Hin) as [[_ Hne]|[(n & _ & Hn & Heq)|[_ Heq]]];
      [contradiction| |]; subst n'; [rewrite Hn in Hin|]; exact Hin. }
  exists (managed_nodes (store se')).
  split; [apply GetManagedNodes_healthy; assumption|]. split.
  - apply managed_nodes_spec. split; [exact Hself|]. left. reflexivity.
  - apply Forall_forall. intros n Hn. apply managed_nodes_spec in Hn.
    destruct Hn as [_ [Hr|[_ Hnone]]]; [exact Hr|].
    exfalso. apply (Hnone _ Hself). reflexivity.
Qed.

End NodeRegistry.

(** ** DISTINCT and GROUP BY reads *)

Section GroupedReads.
Context `{Extern} `{Host}.

Lemma distinct_acc {A} `{EqDecision A} (l acc : list A) :
  List.NoDup acc ->
  List.NoDup (fold_left (fun acc x => if bool_decide (x ∈ acc) then acc else acc ++ [x])
                l acc)
  /\ forall x,
       In x (fold_left (fun acc x => if bool_decide (x ∈ acc) then acc else acc ++ [x])
               l acc)
       <-> In x acc \/ In x l.
Proof.
  revert acc. induction l as [|y l IH]; intros acc Hnd; simpl.
  - split; [assumption|]. intros x. tauto.
  - destruct (bool_decide_reflect (y ∈ acc)) as [Hy|Hy].
    + destruct (IH acc Hnd) as [Hnd' Hin]. split; [assumption|].
      intros x. rewrite Hin. apply list_elem_of_In in Hy.
      split; [tauto|]. intros [Hx|[<-|Hx]]; auto.
    + assert (Hnd1 : List.NoDup (acc ++ [y])).
      { apply NoDup_app; [assumption|repeat constructor; intros []|].
        intros a Ha [<-|[]]. apply Hy, list_elem_of_In. assumption. }
      destruct (IH (acc ++ [y]) Hnd1) as [Hnd' Hin]. split; [assumption|].
      intros x. rewrite Hin, in_app_iff. simpl. tauto.
Qed.

Lemma distinct_spec {A} `{EqDecision A} (l : list A) :
  List.NoDup (distinct l) /\ forall x, In x (distinct l) <-> In x l.
Proof.
  unfold distinct. destruct (distinct_acc l [] (List.NoDup_nil A)) as [Hnd Hin].
  split; [assumption|]. intros x. rewrite Hin. simpl. tauto.
Qed.

(** X27: on a store that answers, GetTaskExecutorIDsByTaskID and
    GetTaskExecutorIDsByTaskIDAndStep return every executor that has a
    subtask of the task (of the task and step) once, and nothing else. *)
Theorem GetTaskExecutorIDs_distinct taskID step se :
  faults se = [] ->
  exists ofTask ofStep,
    fst (GetTaskExecutorIDsByTaskID taskID se) = inr ofTask
    /\ fst (GetTaskExecutorIDsByTaskIDAndStep taskID step se) = inr ofStep
    /\ List.NoDup ofTask /\ List.NoDup ofStep
    /\ (forall e, In e ofTask
                  <-> exists r, In r (tidb_background_subtask (store se))
                                /\ s_task_key r = taskID /\ s_exec_id r = e)
    /\ (forall e, In e ofStep
                  <-> exists r, In r (tidb_background_subtask (store se))
                                /\ s_task_key r = taskID /\ s_step r = step
                                /\ s_exec_id r = e).
Proof.
  intros Hf.
  unfold GetTaskExecutorIDsByTaskID, GetTaskExecutorIDsByTaskIDAndStep,
    ExecuteSQLWithNewSession, WithNewSession, bind.
  rewrite !ExecSQL_healthy by assumption. cbn [query fst snd].
  set (ofTask := distinct (map s_exec_id
                   (select_where (fun r => s_task_key r =? taskID)
                      (tidb_background_subtask (store se))))).
  set (ofStep := distinct (map s_exec_id
                   (select_where (fun r => (s_task_key r =? taskID) && (s_step r =? step))
                      (tidb_background_subtask (store se))))).
  exists ofTask, ofStep.
  split.
  { destruct (len ofTask =? 0) eqn:Hl; [|reflexivity].
    apply Z.eqb_eq, len_zero_nil in Hl. rewrite Hl. reflexivity. }
  split.
  { destruct (len ofStep =? 0) eqn:Hl; [|reflexivity].
    apply Z.eqb_eq, len_zero_nil in Hl. rewrite Hl. reflexivity. }
  subst ofTask ofStep.
  split; [apply distinct_spec|]. split; [apply distinct_spec|]. split.
  - intros e. rewrite (proj2 (distinct_spec _)), in_map_iff. split.
    + intros (r & He & Hin). apply filter_In in Hin. destruct Hin as [Hin Hk].
      apply Z.eqb_eq in Hk. eauto.
    + intros (r & Hin & Hk & He). exists r. split; [assumption|].
      apply filter_In. split; [assumption|]. apply Z.eqb_eq. assumption.
  - intros e. rewrite (proj2 (distinct_spec _)), in_map_iff. split.
    + intros (r & He & Hin). apply filter_In in Hin. destruct Hin as [Hin Hk].
      apply andb_true_iff in Hk. destruct Hk as [Hk Hs].
      apply Z.eqb_eq in Hk, Hs. eauto 6.
    + intros (r & Hin & Hk & Hs & He). exists r. split; [assumption|].
      apply filter_In. split; [assumption|].
      apply andb_true_iff. split; apply Z.eqb_eq; assumption.
Qed.

(** The Go map filled from the rows of a GROUP BY. *)
Lemma grouped_map_lookup (g : string -> Z) (ks : list string)
    (m : gmap.gmap string Z) k :
  fold_left (fun (res : gmap.gmap string Z) r => <[fst r := snd r]> res)
    (map (fun k => (k, g k)) ks) m !! k
  = if in_dec String.string_dec k ks then Some (g k) else m !! k.
Proof.
  revert m. induction ks as [|k0 ks IH]; intros m; [reflexivity|].
  simpl fold_left. rewrite IH.
  destruct (in_dec String.string_dec k ks) as [Hin|Hin];
    destruct (in_dec String.string_dec k (k0 :: ks)) as [Hin'|Hin'];
    try reflexivity.
  - exfalso. apply Hin'. right. assumption.
  - destruct Hin' as [->|Hin']; [|contradiction].
    simpl. apply fin_maps.lookup_insert_eq.
  - simpl. apply fin_maps.lookup_insert_ne. intros ->. apply Hin'. left. reflexivity.
Qed.

Lemma filter_select {R} (p q : R -> bool) table :
  List.filter q (select_where p table) = select_where (fun r => p r && q r) table.
Proof.
  unfold select_where. induction table as [|x table IH]; [reflexivity|]. simpl.
  destruct (p x); simpl; [|exact IH]. destruct (q x); rewrite IH; reflexivity.
Qed.

(** X28: on a store that answers, the map GetSubtaskCntGroupByStates returns
    has for every state the number of subtasks of the task and step in that
    state, and no entry for a state without such a subtask. *)
Theorem GetSubtaskCntGroupByStates_counts taskID step se :
  faults se = [] ->
  exists res,
    fst (GetSubtaskCntGroupByStates taskID step se) = inr res
    /\ forall state,
         res !! state
         = let cnt := len (select_where
                             (fun r => (s_task_key r =? taskID) && (s_step r =? step)
                                       && String.eqb (s_state r) state)
                             (tidb_background_subtask (store se))) in
           if cnt =? 0 then None else Some cnt.
Proof.
  intros Hf.
  unfold GetSubtaskCntGroupByStates, ExecuteSQLWithNewSession, WithNewSession, bind.
  rewrite ExecSQL_healthy by assumption. cbn [query fst snd].
  eexists. split; [reflexivity|]. intros state.
  unfold group_by. cbv zeta.
  set (rows := select_where (fun r => (s_task_key r =? taskID) && (s_step r =? step))
                 (tidb_background_subtask (store se))).
  rewrite (grouped_map_lookup
             (fun k => len (List.filter (fun r => bool_decide (s_state r = k)) rows))).
  assert (Hcnt : List.filter (fun r => bool_decide (s_state r = state)) rows
                 = select_where
                     (fun r => (s_task_key r =? taskID) && (s_step r =? step)
                               && String.eqb (s_state r) state)
                     (tidb_background_subtask (store se))).
  { subst rows. rewrite filter_select. unfold select_where. apply filter_ext.
    intros r. f_equal.
    destruct (String.eqb_spec (s_state r) state) as [Heq|Hne].
    - apply bool_decide_eq_true. assumption.
    - apply bool_decide_eq_false. assumption. }
  rewrite <- Hcnt.
  destruct (in_dec String.string_dec state (distinct (map s_state rows))) as [Hin|Hin].
  - apply (proj1 (proj2 (distinct_spec _) _)) in Hin. apply in_map_iff in Hin.
    destruct Hin as (r & Hst & Hin).
    assert (Hr : In r (List.filter (fun r => bool_decide (s_state r = state)) rows)).
    { apply filter_In. split; [assumption|]. apply bool_decide_eq_true. assumption. }
    destruct (Z.eqb_spec (len (List.filter (fun r => bool_decide (s_state r = state)) rows)) 0)
      as [Hz|]; [|reflexivity].
    apply len_zero_nil in Hz. rewrite Hz in Hr. destruct Hr.
  - rewrite fin_maps.lookup_empty.
    assert (Hnil : List.filter (fun r => bool_decide (s_state r = state)) rows = []).
    { apply (select_none (fun r => bool_decide (s_state r = state))).
      intros r Hr. apply bool_decide_eq_false. intros Hst. apply Hin.
      apply (proj2 (proj2 (distinct_spec _) _)). apply in_map_iff. eauto. }
    rewrite Hnil. reflexivity.
Qed.

End GroupedReads.

(** ** GetUsedSlotsOnNodes *)

Section UsedSlots.
Context `{Extern} `{Host}.

Lemma filter_unique {A} (p : A -> bool) (l : list A) v :
  List.NoDup l -> In v l -> p v = true ->
  (forall x, In x l -> p x = true -> x = v) ->
  List.filter p l = [v].
Proof.
  induction l as [|x l IH]; intros Hnd Hin Hv Huniq; [destruct Hin|].
  inversion Hnd as [|? ? Hx Hnd']; subst. simpl.
  destruct (p x) eqn:Hp.
  - assert (x = v) by (apply Huniq; [left; reflexivity|assumption]). subst x.
    f_equal. apply (select_none p). intros y Hy.
    destruct (p y) eqn:Hpy; [|reflexivity].
    assert (y = v) by (apply Huniq; [right; assumption|assumption]). subst y.
    contradiction.
  - destruct Hin as [->|Hin]; [congruence|].
    apply IH; [assumption|assumption|assumption|].
    intros y Hy. apply Huniq. right. assumption.
Qed.

Lemma filter_of_map {A B} (q : B -> bool) (f : A -> B) l :
  List.filter q (map f l) = map f (List.filter (fun x => q (f x)) l).
Proof.
  induction l as [|x l IH]; [reflexivity|]. simpl.
  destruct (q (f x)); simpl; rewrite IH; reflexivity.
Qed.

Lemma sql_max_const c l :
  l <> [] -> (forall x, In x l -> x = c) -> sql_max l = c.
Proof.
  destruct l as [|x rest]; [congruence|]. intros _ Hall. simpl.
  rewrite (Hall x (or_introl eq_refl)).
  assert (Hrest : forall y, In y rest -> y = c) by (intros y Hy; apply Hall; right; assumption).
  clear Hall. induction rest as [|y rest IH]; [reflexivity|]. simpl.
  rewrite (Hrest y (or_introl eq_refl)), Z.max_id. apply IH.
  intros z Hz. apply Hrest. right. assumption.
Qed.

(** X29: GetUsedSlotsOnNodes counts a task on a node once, however many of
    its subtasks the node has: on a store that answers, a node whose pending
    and running subtasks all belong to one task and have the concurrency c
    uses c slots, and a node without pending or running subtask has no entry
    in the map. *)
Theorem GetUsedSlotsOnNodes_counts_task_once execID taskID c se :
  faults se = [] ->
  (exists r, In r (tidb_background_subtask (store se)) /\ s_exec_id r = execID
             /\ in_states [TaskStatePending; TaskStateRunning] (s_state r) = true) ->
  (forall r, In r (tidb_background_subtask (store se)) -> s_exec_id r = execID ->
             in_states [TaskStatePending; TaskStateRunning] (s_state r) = true ->
             s_task_key r = taskID /\ s_concurrency r = c) ->
  exists slots,
    fst (GetUsedSlotsOnNodes se) = inr slots
    /\ slots !! execID = Some c
    /\ forall e,
         (forall r, In r (tidb_background_subtask (store se)) -> s_exec_id r = e ->
                    in_states [TaskStatePending; TaskStateRunning] (s_state r) = false) ->
         slots !! e = None.
Proof.
  intros Hf (r0 & Hin0 & He0 & Ha0) Hone.
  unfold GetUsedSlotsOnNodes, ExecuteSQLWithNewSession, WithNewSession, bind.
  rewrite ExecSQL_healthy by assumption. cbn [query fst snd].
  eexists. split; [reflexivity|].
  unfold used_slots_rows. cbv zeta.
  set (active := select_where
                   (fun r => in_states [TaskStatePending; TaskStateRunning] (s_state r))
                   (tidb_background_subtask (store se))).
  assert (Hactive : forall r, In r active
                      <-> In r (tidb_background_subtask (store se))
                          /\ in_states [TaskStatePending; TaskStateRunning] (s_state r)
                             = true).
  { intros r. subst active. apply filter_In. }
  set (a := group_by (fun r => (s_exec_id r, s_task_key r))
              (fun g => sql_max (map s_concurrency g)) active).
  assert (Hhosts : forall e,
            In e (distinct (map (fun row : string * Z * Z => fst (fst row)) a))
            <-> exists r, In r active /\ s_exec_id r = e).
  { intros e. rewrite (proj2 (distinct_spec _)), in_map_iff. subst a. unfold group_by.
    split.
    - intros (row & He & Hrow). apply in_map_iff in Hrow.
      destruct Hrow as (k & <- & Hk). apply (proj1 (proj2 (distinct_spec _) _)) in Hk.
      apply in_map_iff in Hk. destruct Hk as (r & <- & Hr). simpl in He. eauto.
    - intros (r & Hr & He). eexists. split; [|apply in_map_iff; eexists; split;
        [reflexivity|apply (proj2 (proj2 (distinct_spec _) _)); apply in_map_iff;
                      exists r; split; [reflexivity|exact Hr]]].
      simpl. exact He. }
  unfold group_by at 1.
  split.
  - etransitivity;
      [exact (grouped_map_lookup
                (fun k => sql_sum (map snd (List.filter
                                              (fun row : string * Z * Z =>
                                                 bool_decide (fst (fst row) = k)) a)))
                _ ∅ execID)|].
    destruct (in_dec String.string_dec execID _) as [_|Hnot].
    2:{ exfalso. apply Hnot, Hhosts. exists r0. split; [apply Hactive; auto|assumption]. }
    f_equal. subst a. unfold group_by. rewrite filter_of_map. cbn [fst].
    rewrite (filter_unique _ _ (execID, taskID)).
    + simpl. rewrite (sql_max_const c); [lia| |].
      * intros Hnil.
        assert (Hr0 : In (s_concurrency r0)
                        (map s_concurrency
                           (List.filter (fun r => bool_decide
                                           ((s_exec_id r, s_task_key r) = (execID, taskID)))
                              active))).
        { apply in_map. apply filter_In. split; [apply Hactive; auto|].
          apply bool_decide_eq_true. rewrite He0.
          rewrite (proj1 (Hone r0 Hin0 He0 Ha0)). reflexivity. }
        rewrite Hnil in Hr0. destruct Hr0.
      * intros x Hx. apply in_map_iff in Hx. destruct Hx as (r & <- & Hr).
        apply filter_In in Hr. destruct Hr as [Hr Hk].
        apply bool_decide_eq_true in Hk. injection Hk as He _.
        apply Hactive in Hr. destruct Hr as [Hr Ha]. apply (Hone r Hr He Ha).
    + apply distinct_spec.
    + apply (proj2 (distinct_spec _)). apply in_map_iff. exists r0.
      split; [|apply Hactive; auto].
      rewrite He0, (proj1 (Hone r0 Hin0 He0 Ha0)). reflexivity.
    + apply bool_decide_eq_true. reflexivity.
    + intros k Hk Hfst. apply bool_decide_eq_true in Hfst.
      apply (proj1 (proj2 (distinct_spec _) _)) in Hk. apply in_map_iff in Hk.
      destruct Hk as (r & <- & Hr). simpl in Hfst.
      apply Hactive in Hr. destruct Hr as [Hr Ha].
      rewrite Hfst, (proj1 (Hone r Hr Hfst Ha)). reflexivity.
  - intros e Hnone.
    etransitivity;
      [exact (grouped_map_lookup
                (fun k => sql_sum (map snd (List.filter
                                              (fun row : string * Z * Z =>
                                                 bool_decide (fst (fst row) = k)) a)))
                _ ∅ e)|].
    destruct (in_dec String.string_dec e _) as [Hin|_];
      [|apply fin_maps.lookup_empty].
    apply Hhosts in Hin. destruct Hin as (r & Hr & He).
    apply Hactive in Hr. destruct Hr as [Hr Ha].
    rewrite (Hnone r Hr He) in Ha. discriminate.
Qed.

End UsedSlots.

(** ** GetTasksInStates *)

Section GetTasksInStates.
Context `{Extern} `{Host}.

(** X30: GetTasksInStates called without a state returns no task and sends
    no statement, whatever the store would answer. On a store that answers,
    GetTopUnfinishedTasks returns the first MaxConcurrentTask * 2 of the tasks
    GetTasksInStates returns for the six unfinished states, with their basic
    columns. *)
Theorem GetTopUnfinishedTasks_prefix_of_GetTasksInStates se :
  GetTasksInStates [] se = (inr [], se)
  /\ (faults se = [] ->
      exists top tasks,
        fst (GetTopUnfinishedTasks se) = inr top
        /\ fst (GetTasksInStates unfinished_states se) = inr tasks
        /\ Forall2 (fun b t =>
                      ID b = ID t /\ Key b = Key t /\ Type_ b = Type_ t
                      /\ State b = State t /\ Step b = Step t
                      /\ Priority b = Priority t /\ Concurrency b = Concurrency t
                      /\ CreateTime b = CreateTime t)
             top (take (Z.to_nat (MaxConcurrentTask * 2)) tasks)).
Proof.
  split; [reflexivity|]. intros Hf.
  unfold GetTopUnfinishedTasks, GetTasksInStates, ExecuteSQLWithNewSession,
    WithNewSession, bind.
  simpl (len unfinished_states =? 0). cbv iota.
  rewrite !ExecSQL_healthy by assumption. cbn [query fst snd].
  do 2 eexists. split; [reflexivity|]. split; [reflexivity|].
  unfold limit.
  generalize (Z.to_nat (MaxConcurrentTask * 2)).
  generalize (merge_sort task_le
                (select_where (fun r => in_states unfinished_states (t_state r))
                   (tidb_global_task (store se)))).
  intros rows. induction rows as [|r rows IH]; intros [|n]; simpl; constructor.
  - repeat split.
  - apply IH.
Qed.

End GetTasksInStates.

(** ** The remaining reads *)

Section RemainingReads.
Context `{Extern} `{Host}.

(** GetSubtasksByExecIdsAndStepAndState panics without an executor, like the
    reads by states without a state. *)
Lemma GetSubtasksByExecIdsAndStepAndState_no_executor taskID step state :
  GetSubtasksByExecIdsAndStepAndState [] taskID step state = None.
Proof. reflexivity. Qed.

Lemma GetSubtasksByExecIdsAndStepAndState_healthy execID execIDs taskID step state se :
  faults se = [] ->
  exists read,
    GetSubtasksByExecIdsAndStepAndState (execID :: execIDs) taskID step state = Some read
    /\ fst (read se)
       = inr (map Row2SubTask
                (select_where
                   (fun r => (s_task_key r =? taskID) && (s_step r =? step)
                             && String.eqb (s_state r) state
                             && in_states (execID :: execIDs) (s_exec_id r))
                   (tidb_background_subtask (store se)))).
Proof.
  intros Hf. unfold GetSubtasksByExecIdsAndStepAndState.
  destruct (Repeat_nonneg "%?," (len (execID :: execIDs) - 1)) as [text ->].
  { unfold len. simpl. lia. }
  eexists. split; [reflexivity|].
  unfold ExecuteSQLWithNewSession, WithNewSession, bind.
  rewrite ExecSQL_healthy by assumption. reflexivity.
Qed.

(** After DeleteSubtasksByTaskID the reads of the task's live subtasks find
    nothing, and the subtasks of other tasks are all there. *)
Lemma DeleteSubtasksByTaskID_then_reads taskID se :
  faults se = [] ->
  let se' := snd (DeleteSubtasksByTaskID taskID se) in
  fst (DeleteSubtasksByTaskID taskID se) = inr tt
  /\ fst (GetActiveSubtasks taskID se') = inr []
  /\ (forall step state, fst (GetSubtasksByStepAndState taskID step state se') = inr [])
  /\ (forall r, In r (tidb_background_subtask (store se)) -> s_task_key r <> taskID ->
                In r (tidb_background_subtask (store se'))).
Proof.
  intros Hf se'.
  assert (Hrun : DeleteSubtasksByTaskID taskID se
                 = (inr tt, snd (delete_subtasks (fun r => s_task_key r =? taskID) se))).
  { unfold DeleteSubtasksByTaskID, ExecuteSQLWithNewSession, WithNewSession.
    rewrite ExecSQL_healthy by assumption. reflexivity. }
  assert (Hf' : faults se' = []) by (subst se'; rewrite Hrun; assumption).
  assert (Htab : tidb_background_subtask (store se')
                 = delete_where (fun r => s_task_key r =? taskID)
                     (tidb_background_subtask (store se)))
    by (subst se'; rewrite Hrun; reflexivity).
  split; [rewrite Hrun; reflexivity|]. split; [|split].
  - unfold GetActiveSubtasks, ExecuteSQLWithNewSession, WithNewSession, bind.
    rewrite ExecSQL_healthy by assumption. cbn [query fst snd]. rewrite Htab.
    rewrite select_delete_disjoint; [reflexivity|].
    intros r Hr. apply andb_true_iff in Hr. tauto.
  - intros step state.
    unfold GetSubtasksByStepAndState, ExecuteSQLWithNewSession, WithNewSession, bind.
    rewrite ExecSQL_healthy by assumption. cbn [query fst snd]. rewrite Htab.
    rewrite select_delete_disjoint; [reflexivity|].
    intros r Hr. apply andb_true_iff in Hr. destruct Hr as [Hr _].
    apply andb_true_iff in Hr. tauto.
  - intros r Hin Hne. rewrite Htab. apply filter_In. split; [assumption|].
    apply negb_true_iff, Z.eqb_neq. assumption.
Qed.

(** IsTaskCancelling says whether the live table has the task in the state
    cancelling; a task that is in the history only is not cancelling. *)
Lemma IsTaskCancelling_iff taskID se :
  faults se = [] ->
  exists cancelling,
    fst (IsTaskCancelling taskID se) = inr cancelling
    /\ (cancelling = true
        <-> exists r, In r (tidb_global_task (store se))
                      /\ t_id r = taskID /\ t_state r = TaskStateCancelling).
Proof.
  intros Hf. unfold IsTaskCancelling, ExecuteSQLWithNewSession, WithNewSession, bind.
  rewrite ExecSQL_healthy by assumption. cbn [query fst snd].
  eexists. split; [reflexivity|].
  destruct (select_where _ _) as [|r rows] eqn:Hsel.
  - split; [discriminate|]. intros (r & Hin & Hid & Hst).
    assert (Hr : In r (select_where
                         (fun r => (t_id r =? taskID)
                                   && String.eqb (t_state r) TaskStateCancelling)
                         (tidb_global_task (store se)))).
    { apply filter_In. split; [assumption|]. apply andb_true_iff.
      split; [apply Z.eqb_eq|apply String.eqb_eq]; assumption. }
    rewrite Hsel in Hr. destruct Hr.
  - split; [|intros _; unfold len; simpl; apply Z.ltb_lt; lia].
    intros _. exists r.
    assert (Hr : In r (select_where
                         (fun r => (t_id r =? taskID)
                                   && String.eqb (t_state r) TaskStateCancelling)
                         (tidb_global_task (store se))))
      by (rewrite Hsel; left; reflexivity).
    apply filter_In in Hr. destruct Hr as [Hin Hp].
    apply andb_true_iff in Hp. destruct Hp as [Hid Hst].
    apply Z.eqb_eq in Hid. apply String.eqb_eq in Hst. auto.
Qed.

(** GetOneTask returns a pending task of the live table, and nil exactly
    when there is none. *)
Lemma GetOneTask_pending se :
  faults se = [] ->
  exists task,
    fst (GetOneTask se) = inr task
    /\ match task with
       | Some t => State t = TaskStatePending
                   /\ exists r, In r (tidb_global_task (store se)) /\ t = row2Task r
       | None => forall r, In r (tidb_global_task (store se)) ->
                           t_state r <> TaskStatePending
       end.
Proof.
  intros Hf. unfold GetOneTask, ExecuteSQLWithNewSession, WithNewSession, bind.
  rewrite ExecSQL_healthy by assumption. cbn [query fst snd]. unfold limit.
  destruct (select_where _ _) as [|r rows] eqn:Hsel; simpl.
  - exists None. split; [reflexivity|]. intros r Hin Hst.
    assert (Hr : In r (select_where (fun r => String.eqb (t_state r) TaskStatePending)
                         (tidb_global_task (store se)))).
    { apply filter_In. split; [assumption|]. apply String.eqb_eq. assumption. }
    rewrite Hsel in Hr. destruct Hr.
  - exists (Some (row2Task r)). split; [reflexivity|].
    assert (Hr : In r (select_where (fun r => String.eqb (t_state r) TaskStatePending)
                         (tidb_global_task (store se))))
      by (rewrite Hsel; left; reflexivity).
    apply filter_In in Hr. destruct Hr as [Hin Hst]. apply String.eqb_eq in Hst.
    split; [exact Hst|]. exists r. auto.
Qed.

(** GetTasksFromHistoryInStates without a state sends no statement; with
    states it returns tasks of the history only, in one of the states. *)
Lemma GetTasksFromHistoryInStates_history_only states se :
  GetTasksFromHistoryInStates [] se = (inr [], se)
  /\ (faults se = [] ->
      exists tasks,
        fst (GetTasksFromHistoryInStates states se) = inr tasks
        /\ forall t, In t tasks ->
             In (State t) states
             /\ exists r, In r (tidb_global_task_history (store se)) /\ t = row2Task r).
Proof.
  split; [reflexivity|]. intros Hf. unfold GetTasksFromHistoryInStates.
  destruct (len states =? 0).
  - exists []. split; [reflexivity|]. intros t [].
  - unfold ExecuteSQLWithNewSession, WithNewSession, bind.
    rewrite ExecSQL_healthy by assumption. cbn [query fst snd].
    eexists. split; [reflexivity|]. intros t Ht.
    apply in_map_iff in Ht. destruct Ht as (r & <- & Hr).
    apply filter_In in Hr. destruct Hr as [Hin Hst]. apply in_states_In in Hst.
    split; [exact Hst|]. exists r. auto.
Qed.

(** GetAllNodes returns the registered nodes, and the managed nodes are
    among them. *)
Lemma GetAllNodes_registered se :
  faults se = [] ->
  exists nodes,
    fst (GetAllNodes se) = inr nodes
    /\ Permutation nodes (dist_framework_meta (store se))
    /\ forall n, In n (managed_nodes (store se)) -> In n nodes.
Proof.
  intros Hf. unfold GetAllNodes, WithNewSession, getAllNodesWithSession.
  rewrite ExecSQL_healthy by assumption. cbn [query fst snd].
  eexists. split; [reflexivity|]. split; [apply merge_sort_Permutation|].
  intros n Hn. apply managed_nodes_spec in Hn. apply In_merge_sort_host. tauto.
Qed.

Lemma first_cpu_count_nonneg nodes : 0 <= first_cpu_count nodes.
Proof.
  induction nodes as [|n nodes IH]; simpl; [lia|].
  destruct (Z.ltb_spec 0 (CPUCount n)); lia.
Qed.

(** GetCPUCountOfManagedNode never returns a count that is not positive. *)
Lemma GetCPUCountOfManagedNode_positive se cnt :
  faults se = [] -> fst (GetCPUCountOfManagedNode se) = inr cnt -> 0 < cnt.
Proof.
  intros Hf. unfold GetCPUCountOfManagedNode, WithNewSession.
  rewrite getCPUCountOfManagedNode_healthy by assumption. cbn [fst]. cbv zeta.
  destruct (len (managed_nodes (store se)) =? 0); [discriminate|].
  destruct (Z.eqb_spec (first_cpu_count (managed_nodes (store se))) 0); [discriminate|].
  intros Heq. injection Heq as <-.
  pose proof (first_cpu_count_nonneg (managed_nodes (store se))). lia.
Qed.

End RemainingReads.

(** ** The methods run on examples *)

Section Samples.
#[local] Existing Instance sample_env.

(** Subtasks of 3, 1 and 2 bytes under a limit of 5 bytes, and subtasks of 3
    and 1 bytes under a limit of 2 bytes: there the first batch is empty,
    because the loop closes the current batch before it looks whether the
    batch holds anything. *)
Example splitSubtasks_run :
  map (map SubMeta)
    (splitSubtasks
       [sample_subtask 1 1 "n1" ["a"; "b"; "c"]%byte;
        sample_subtask 1 1 "n1" ["d"]%byte;
        sample_subtask 1 1 "n1" ["e"; "f"]%byte])
  = [[["a"; "b"; "c"]%byte; ["d"]%byte]; [["e"; "f"]%byte]].
Proof. vm_compute. reflexivity. Qed.

Example splitSubtasks_run_oversized :
  map (map SubMeta)
    (@splitSubtasks (sample_extern 2 false)
       [sample_subtask 1 1 "n1" ["a"; "b"; "c"]%byte;
        sample_subtask 1 1 "n1" ["d"]%byte])
  = [[]; [["a"; "b"; "c"]%byte]; [["d"]%byte]].
Proof. vm_compute. reflexivity. Qed.

(** StartSubtask by "n1" on a running subtask that "n2" owns. *)
Lemma StartSubtask_not_owned_witness :
  let se := session_on
              (set_subtasks [sample_subtask_row 7 1 1 "n2" "running" None] empty_db)
              50 [] in
  fst (StartSubtask 7 "n1" se) = inl ErrSubtaskNotFound
  /\ store (snd (StartSubtask 7 "n1" se)) = store se.
Proof.
  intros se.
  destruct (StartSubtask_not_owned se 7 "n1") as (Hres & _ & Hstore).
  - intros r [<-|[]] _. discriminate.
  - split; [apply Hres; reflexivity|exact Hstore].
Defined.

(** StartSubtask by the owner on a subtask that has succeeded. *)
Lemma StartSubtask_ignores_state_witness :
  let r := sample_subtask_row 7 1 1 "n1" "succeed" None in
  let se := session_on (set_subtasks [r] empty_db) 50 [] in
  fst (StartSubtask 7 "n1" se) = inr tt
  /\ tidb_background_subtask (store (snd (StartSubtask 7 "n1" se)))
     = [start_row "running" 50 r].
Proof.
  intros r se.
  destruct (StartSubtask_ignores_state se 7 "n1" r
              eq_refl (or_introl eq_refl) eq_refl eq_refl)
    as (Htab & _ & _ & _ & Hok).
  split; [apply Hok; discriminate|exact Htab].
Defined.




(** A paused task is not terminal, and is not returned. *)
Lemma GetTopUnfinishedTasks_skips_paused :
  let se := session_on
              (set_tasks [sample_task_row 1 "paused" 1 512 10 [];
                          sample_task_row 2 "pausing" 1 512 11 []] empty_db)
              100 [] in
  fst (GetTopUnfinishedTasks se)
  = inr [row2TaskBasic (sample_task_row 2 "pausing" 1 512 11 [])].
Proof. vm_compute. reflexivity. Qed.

(** Four live tasks, one of them succeeded: the other three come back by
    priority, then create time, then id. *)
Lemma GetTopUnfinishedTasks_sorted_prefix_witness :
  let se := session_on
              (set_tasks [sample_task_row 1 "running" 1 512 30 [];
                          sample_task_row 2 "succeed" 1 100 10 [];
                          sample_task_row 3 "pending" 1 512 20 [];
                          sample_task_row 4 "resuming" 1 256 40 []] empty_db)
              100 [] in
  exists rs rest,
    fst (GetTopUnfinishedTasks se) = inr (map row2TaskBasic rs)
    /\ StronglySorted task_le (rs ++ rest)
    /\ length rs = Nat.min (Z.to_nat (MaxConcurrentTask * 2)) (length (rs ++ rest)).
Proof.
  intros se.
  destruct (GetTopUnfinishedTasks_sorted_prefix se eq_refl)
    as (rs & rest & Hres & _ & _ & Hsorted & Hlen & _).
  exists rs, rest. split; [exact Hres|]. split; [exact Hsorted|exact Hlen].
Defined.

Example GetTopUnfinishedTasks_run :
  let se := session_on
              (set_tasks [sample_task_row 1 "running" 1 512 30 [];
                          sample_task_row 2 "succeed" 1 100 10 [];
                          sample_task_row 3 "pending" 1 512 20 [];
                          sample_task_row 4 "resuming" 1 256 40 []] empty_db)
              100 [] in
  option_map (map ID) (match fst (GetTopUnfinishedTasks se) with
                       | inr l => Some l | inl _ => None end)
  = Some [4; 3; 1].
Proof. vm_compute. reflexivity. Qed.

(** The INSERT of the subtasks is the third statement and fails. *)
Lemma UpdateTaskAndAddSubTasks_insert_failure_commits_witness :
  let task := sample_task 1 "reverting" 1 ["m"]%byte in
  let r := sample_task_row 1 "running" 1 512 10 [] in
  let se := session_on (set_tasks [r] empty_db) 100 [false; false; true] in
  let result := UpdateTaskAndAddSubTasks task [sample_subtask 1 1 "n1" []] "running" se in
  fst result = (true, inr tt)
  /\ tidb_global_task (store (snd result)) = [legacy_update_row task 100 r]
  /\ tidb_background_subtask (store (snd result)) = [].
Proof.
  intros task r se result.
  assert (Hchg : legacy_update_row task (now se) r <> r) by discriminate.
  destruct (UpdateTaskAndAddSubTasks_insert_failure_commits se task
              [sample_subtask 1 1 "n1" []] "running" r
              eq_refl (or_introl eq_refl) eq_refl eq_refl Hchg ltac:(discriminate))
    as (Hres & Hstore & _ & Hsub).
  split; [exact Hres|]. split; [|exact Hsub].
  fold result in Hstore. rewrite Hstore. vm_compute. reflexivity.
Defined.

(** The same call on a store that answers every statement, for comparison:
    the update and one revert_pending subtask. *)
Example UpdateTaskAndAddSubTasks_run :
  let task := sample_task 1 "reverting" 1 ["m"]%byte in
  let se := session_on (set_tasks [sample_task_row 1 "running" 1 512 10 []] empty_db)
              100 [] in
  let result := UpdateTaskAndAddSubTasks task [sample_subtask 1 1 "n1" []] "running" se in
  fst result = (true, inr tt)
  /\ map t_state (tidb_global_task (store (snd result))) = ["reverting"]
  /\ map s_state (tidb_background_subtask (store (snd result))) = ["revert_pending"].
Proof. vm_compute. repeat split. Qed.

(** A failed subtask whose stored error is the four bytes "oops". *)
Lemma CollectSubTaskError_fails_on_malformed_witness :
  let errBytes := ["o"; "o"; "p"; "s"]%byte in
  let se := session_on
              (set_subtasks [sample_subtask_row 7 1 1 "n1" "failed" (Some errBytes)]
                 empty_db) 100 [] in
  (exists e, fst (CollectSubTaskError 1 se) = inl e)
  /\ Error (row2Task {| t_id := 1; t_task_key := "job1"; t_type := "import";
                        t_state := "failed"; t_step := 1; t_priority := 512;
                        t_concurrency := 4; t_create_time := 10;
                        t_start_time := None; t_state_update_time := None;
                        t_meta := []; t_dispatcher_id := "";
                        t_error := Some errBytes |})
     = Some (ErrNew "oops").
Proof.
  intros errBytes se.
  destruct (CollectSubTaskError_fails_on_malformed se 1
              (sample_subtask_row 7 1 1 "n1" "failed" (Some errBytes)) errBytes
              (ErrJSON "invalid character looking for beginning of value")
              eq_refl (or_introl eq_refl) eq_refl (or_introl eq_refl) eq_refl
              ltac:(discriminate) eq_refl)
    as [Hfail Hrow].
  split; [exact Hfail|]. apply Hrow. reflexivity.
Defined.

Example CollectSubTaskError_run :
  let se := session_on
              (set_subtasks
                 [sample_subtask_row 7 1 1 "n1" "failed" (Some ["o"; "o"; "p"; "s"]%byte)]
                 empty_db) 100 [] in
  fst (CollectSubTaskError 1 se)
  = inl (ErrJSON "invalid character looking for beginning of value").
Proof. vm_compute. reflexivity. Qed.


(** Scenario A of the spec: one managed node of 8 CPUs, concurrency 4. *)
Lemma CreateTask_admission_witness :
  let node := {| NodeID := "n1"; Role := ""; CPUCount := 8 |} in
  let d := {| tidb_global_task := []; tidb_global_task_history := [];
              tidb_background_subtask := []; tidb_background_subtask_history := [];
              dist_framework_meta := [node] |} in
  let se := session_on d 100 [] in
  let result := CreateTask "job1" "import" 4 [] se in
  ((exists taskID, fst result = inr taskID) <-> 4 <= 8)
  /\ exists row,
       fst result = inr (t_id row)
       /\ tidb_global_task (store (snd result)) = [row]
       /\ t_state row = TaskStatePending /\ t_step row = StepInit.
Proof.
  intros node d se result.
  destruct (CreateTask_admission se "job1" "import" 4 [] eq_refl) as (_ & _ & Hadm).
  assert (Hnodes : managed_nodes (store se) = [] ++ node :: [])
    by (vm_compute; reflexivity).
  destruct (Hadm [] node [] Hnodes ltac:(intros m []) ltac:(reflexivity))
    as (Hiff & _ & Hok).
  split; [exact Hiff|].
  destruct (Hok ltac:(discriminate)) as (row & Hid & Hstore & Hst & Hsp & _).
  exists row. split; [exact Hid|]. split; [|split; assumption].
  fold result in Hstore. rewrite Hstore. reflexivity.
Defined.

Example CreateTask_run :
  let d := {| tidb_global_task := []; tidb_global_task_history := [];
              tidb_background_subtask := []; tidb_background_subtask_history := [];
              dist_framework_meta :=
                [{| NodeID := "n2"; Role := ""; CPUCount := 16 |};
                 {| NodeID := "n1"; Role := ""; CPUCount := 0 |};
                 {| NodeID := "n3"; Role := ""; CPUCount := 8 |}] |} in
  fst (CreateTask "job1" "import" 16 [] (session_on d 100 [])) = inr 100
  /\ fst (CreateTask "job1" "import" 17 [] (session_on d 100 []))
     = inl (ErrConcurrencyExceedsCapacity 17 16)
  /\ fst (CreateTask "job1" "import" 1 [] (session_on empty_db 100 []))
     = inl ErrNoManagedNodes.
Proof. vm_compute. repeat split. Qed.

(** One subtask row of step 2 is there already and three subtasks are
    given: the last two are inserted. *)
Lemma SwitchTaskStepInBatch_healthy_witness :
  let task := sample_task 1 "running" 1 [] in
  let subtasks := [sample_subtask 1 2 "n1" ["a"]%byte;
                   sample_subtask 1 2 "n2" ["b"]%byte;
                   sample_subtask 1 2 "n3" ["c"]%byte] in
  let d := set_subtasks [sample_subtask_row 900 1 2 "n1" "pending" None]
             (set_tasks [sample_task_row 1 "running" 1 512 10 []] empty_db) in
  let se := session_on d 100 [] in
  let result := SwitchTaskStepInBatch task "running" 2 subtasks se in
  fst result = inr tt
  /\ map s_meta (tidb_background_subtask (store (snd result)))
     = [[]; ["b"]%byte; ["c"]%byte]
  /\ map (fun r => (t_state r, t_step r)) (tidb_global_task (store (snd result)))
     = [("running", 2)].
Proof.
  intros task subtasks d se result.
  destruct (SwitchTaskStepInBatch_healthy task "running" 2 subtasks se eq_refl)
    as (_ & Hok).
  assert (Hcnt : count_subtasks (ID task) 2 (store se) <= len subtasks)
    by (vm_compute; discriminate).
  destruct (Hok Hcnt) as (Hres & Hstore).
  split; [exact Hres|]. fold result in Hstore. rewrite Hstore.
  split; vm_compute; reflexivity.
Defined.

(** The row has moved on to (running, 2) while the caller still holds the
    task at (pending, 1): the subtask is inserted, the row is not touched. *)
Lemma SwitchTaskStepInBatch_update_is_conditional :
  let task := sample_task 1 "pending" 1 [] in
  let se := session_on (set_tasks [sample_task_row 1 "running" 2 512 10 []] empty_db)
              100 [] in
  let result := SwitchTaskStepInBatch task "running" 3 [sample_subtask 1 3 "n1" []] se in
  fst result = inr tt
  /\ map s_step (tidb_background_subtask (store (snd result))) = [3]
  /\ tidb_global_task (store (snd result)) = [sample_task_row 1 "running" 2 512 10 []].
Proof. vm_compute. repeat split. Qed.

(** Too many rows are there already. *)
Example SwitchTaskStepInBatch_unstable :
  let task := sample_task 1 "running" 1 [] in
  let d := set_subtasks [sample_subtask_row 900 1 2 "n1" "pending" None;
                         sample_subtask_row 901 1 2 "n2" "pending" None] empty_db in
  fst (SwitchTaskStepInBatch task "running" 2 [sample_subtask 1 2 "n1" []]
         (session_on d 100 []))
  = inl (Annotatef ErrUnstableSubtasks [1; 2]).
Proof. vm_compute. reflexivity. Qed.


Example TransferTasks2History_run :
  let T := sample_task 1 "succeed" 3 ["x"]%byte in
  let d := set_subtasks [sample_subtask_row 900 1 3 "n1" "succeed" None;
                         sample_subtask_row 901 2 1 "n1" "running" None]
             (set_tasks [sample_task_row 1 "succeed" 3 512 10 ["y"]%byte;
                         sample_task_row 2 "running" 1 512 11 []] empty_db) in
  let se' := snd (TransferTasks2History [T] (session_on d 100 [])) in
  map t_id (tidb_global_task (store se')) = [2]
  /\ map t_meta (tidb_global_task_history (store se')) = [["x"]%byte]
  /\ map s_id (tidb_background_subtask (store se')) = [901]
  /\ map s_id (tidb_background_subtask_history (store se')) = [900].
Proof. vm_compute. repeat split. Qed.

(** The store fails the DELETE of the task rows, the fourth statement: the
    loop over the tasks assigns [err] anew, the call returns nil and the
    transaction is committed with the task in both tables. *)
Example TransferTasks2History_delete_failure_is_dropped :
  let T := sample_task 1 "succeed" 3 ["x"]%byte in
  let d := set_subtasks [sample_subtask_row 900 1 3 "n1" "succeed" None]
             (set_tasks [sample_task_row 1 "succeed" 3 512 10 ["y"]%byte] empty_db) in
  let result := TransferTasks2History [T] (session_on d 100 [false; false; false; true]) in
  fst result = inr tt
  /\ map t_id (tidb_global_task (store (snd result))) = [1]
  /\ map t_id (tidb_global_task_history (store (snd result))) = [1]
  /\ map s_id (tidb_background_subtask_history (store (snd result))) = [900].
Proof. vm_compute. repeat split. Qed.

End Samples.

(** ** The other methods run on examples *)

Section MoreSamples.
#[local] Existing Instance sample_env.
#[local] Existing Instance sample_host.

(** One row of step 2 is left from an interrupted call; three subtasks are
    given. *)
Lemma SwitchTaskStepInBatch_completes_step_witness :
  let task := sample_task 1 "running" 1 [] in
  let subtasks := [sample_subtask 1 2 "n1" ["a"]%byte;
                   sample_subtask 1 2 "n2" ["b"]%byte;
                   sample_subtask 1 2 "n3" ["c"]%byte] in
  let d := set_subtasks [sample_subtask_row 900 1 2 "n1" "pending" None]
             (set_tasks [sample_task_row 1 "running" 1 512 10 []] empty_db) in
  let se := session_on d 100 [] in
  let se' := snd (SwitchTaskStepInBatch task "running" 2 subtasks se) in
  fst (SwitchTaskStepInBatch task "running" 2 subtasks se) = inr tt
  /\ count_subtasks 1 2 (store se') = 3.
Proof.
  intros task subtasks d se se'.
  assert (Hsub : forall s, In s subtasks -> SubTaskID s = ID task /\ SubStep s = 2)
    by (intros s [<-|[<-|[<-|[]]]]; split; reflexivity).
  assert (Hcnt : count_subtasks (ID task) 2 (store se) <= len subtasks)
    by (vm_compute; discriminate).
  destruct (SwitchTaskStepInBatch_completes_step task "running" 2 subtasks se
              eq_refl Hsub Hcnt) as (Hres & Hcount & _).
  split; [exact Hres|exact Hcount].
Defined.

(** The row of the task has succeeded while the caller thinks it running. *)
Lemma UpdateTaskAndAddSubTasks_state_changed_witness :
  let task := sample_task 1 "reverting" 1 [] in
  let se := session_on (set_tasks [sample_task_row 1 "succeed" 1 512 10 []] empty_db)
              100 [] in
  let result := UpdateTaskAndAddSubTasks task [sample_subtask 1 1 "n1" []] "running" se in
  fst result = (false, inl ErrStateChanged) /\ store (snd result) = store se.
Proof.
  intros task se result.
  apply (UpdateTaskAndAddSubTasks_state_changed task [sample_subtask 1 1 "n1" []]
           "running" se eq_refl).
  intros r [<-|[]] _. discriminate.
Defined.

(** The row is what the same update has left a moment ago, in the same
    second. *)
Lemma UpdateTaskAndAddSubTasks_unchanged_row_fails_witness :
  let task := sample_task 1 "running" 1 [] in
  let r := legacy_update_row task 100 (sample_task_row 1 "running" 1 512 10 []) in
  let se := session_on (set_tasks [r] empty_db) 100 [] in
  let result := UpdateTaskAndAddSubTasks task [sample_subtask 1 1 "n1" []] "running" se in
  fst result = (false, inl ErrStateChanged)
  /\ tidb_background_subtask (store (snd result)) = [].
Proof.
  intros task r se result.
  assert (Hprod : InTest = false) by reflexivity.
  destruct (UpdateTaskAndAddSubTasks_unchanged_row_fails task
              [sample_subtask 1 1 "n1" []] "running" se eq_refl Hprod)
    as [Hres Hstore].
  - intros x [<-|[]] _ _. reflexivity.
  - split; [exact Hres|]. fold result in Hstore. rewrite Hstore. reflexivity.
Defined.

(** A running task is set to reverting with one subtask. *)
Lemma UpdateTaskAndAddSubTasks_success_witness :
  let task := sample_task 1 "reverting" 1 ["m"]%byte in
  let r := sample_task_row 1 "running" 1 512 10 [] in
  let se := session_on (set_tasks [r] empty_db) 100 [] in
  let result := UpdateTaskAndAddSubTasks task [sample_subtask 5 1 "n1" []] "running" se in
  fst result = (true, inr tt)
  /\ map (fun row => (s_task_key row, s_state row))
       (tidb_background_subtask (store (snd result)))
     = [(1, "revert_pending")].
Proof.
  intros task r se result.
  assert (Hchg : legacy_update_row task (now se) r <> r) by discriminate.
  destruct (UpdateTaskAndAddSubTasks_success task [sample_subtask 5 1 "n1" []]
              "running" se r eq_refl (or_introl eq_refl) eq_refl eq_refl Hchg)
    as (Hres & _ & Hsub & _).
  split; [exact Hres|]. fold result in Hsub. rewrite Hsub. reflexivity.
Defined.

(** A task fails with an annotated error of the errors library. *)
Lemma UpdateTaskAndAddSubTasks_then_GetTaskByID_witness :
  let e := Normalize "{boom}" in
  let task := {| ID := 1; Key := "job1"; Type_ := "import"; State := "failed";
                 Step := 1; Priority := 512; Concurrency := 4; CreateTime := 10;
                 StartTime := None; StateUpdateTime := None; Meta := ["m"]%byte;
                 SchedulerID := "n1"; Error := Some (Annotatef (ErrStd e) [7]) |} in
  let se := session_on (set_tasks [sample_task_row 1 "running" 1 512 10 []] empty_db)
              100 [] in
  let se' := snd (UpdateTaskAndAddSubTasks task [] "running" se) in
  exists t1, fst (GetTaskByID 1 se') = inr t1
             /\ State t1 = "failed" /\ Error t1 = Some (ErrStd e).
Proof.
  intros e task se se'.
  assert (Hget : fst (GetTaskByID (ID task) se)
                 = inr (row2Task (sample_task_row 1 "running" 1 512 10 [])))
    by (vm_compute; reflexivity).
  assert (Hne : State task <> "running") by discriminate.
  assert (Henc : MarshalJSON e = inr (list_byte_of_string "{boom}"))
    by (vm_compute; reflexivity).
  assert (Hdec : UnmarshalJSON (list_byte_of_string "{boom}") = inr e)
    by (vm_compute; reflexivity).
  destruct (UpdateTaskAndAddSubTasks_then_GetTaskByID task [] "running" se _
              (Annotatef (ErrStd e) [7]) e _ eq_refl Hget eq_refl Hne eq_refl eq_refl
              Henc Hdec)
    as (_ & t1 & Hread & Hst & _ & _ & _ & _ & Herr).
  exists t1. split; [exact Hread|]. split; [exact Hst|exact Herr].
Defined.

(** An executor with a running and a pending subtask of the task. *)
Lemma FailSubtask_fails_one_witness :
  let table := [sample_subtask_row 7 1 1 "n1" "running" None;
                sample_subtask_row 8 1 1 "n1" "pending" None] in
  let se := session_on (set_subtasks table empty_db) 100 [] in
  let result := FailSubtask "n1" 1 (Some (ErrNew "boom")) se in
  exists pre r post,
    table = pre ++ r :: post
    /\ fst result = inr tt
    /\ tidb_background_subtask (store (snd result))
       = pre ++ fail_row (serializeErr (Some (ErrNew "boom"))) 100 r :: post.
Proof.
  intros table se result.
  destruct (FailSubtask_fails_one "n1" 1 (ErrNew "boom") se eq_refl)
    as (pre & r & post & Htab & _ & Hres & Hstore & _).
  - exists (sample_subtask_row 7 1 1 "n1" "running" None).
    split; [left; reflexivity|reflexivity].
  - exists pre, r, post. split; [exact Htab|]. split; [exact Hres|].
    fold result in Hstore. rewrite Hstore. reflexivity.
Defined.

Lemma CancelSubtask_cancels_one_witness :
  let table := [sample_subtask_row 7 1 1 "n1" "running" None;
                sample_subtask_row 8 1 1 "n1" "pending" None] in
  let se := session_on (set_subtasks table empty_db) 100 [] in
  let result := CancelSubtask "n1" 1 se in
  exists pre r post,
    table = pre ++ r :: post
    /\ fst result = inr tt
    /\ tidb_background_subtask (store (snd result)) = pre ++ cancel_row 100 r :: post.
Proof.
  intros table se result.
  destruct (CancelSubtask_cancels_one "n1" 1 se eq_refl)
    as (pre & r & post & Htab & _ & Hres & Hstore & _).
  - exists (sample_subtask_row 7 1 1 "n1" "running" None).
    split; [left; reflexivity|reflexivity].
  - exists pre, r, post. split; [exact Htab|]. split; [exact Hres|].
    fold result in Hstore. rewrite Hstore. reflexivity.
Defined.

(** A failed subtask with a stored error, a canceled one without, and a
    running one. *)
Lemma CollectSubTaskError_one_entry_per_subtask_witness :
  let b := list_byte_of_string "{boom}" in
  let table := [sample_subtask_row 7 1 1 "n1" "failed" (Some b);
                sample_subtask_row 8 1 1 "n1" "canceled" None;
                sample_subtask_row 9 1 1 "n1" "running" None] in
  let se := session_on (set_subtasks table empty_db) 100 [] in
  exists entries,
    fst (CollectSubTaskError 1 se) = inr entries /\ length entries = 2%nat.
Proof.
  intros b table se.
  destruct (CollectSubTaskError_one_entry_per_subtask 1 se eq_refl)
    as (entries & Hres & Hent).
  - constructor; [right; eexists; reflexivity|].
    constructor; [exact I|constructor].
  - exists entries. split; [exact Hres|].
    apply Forall2_length in Hent. rewrite <- Hent. reflexivity.
Defined.

(** The executor reports an error of the errors library for its running
    subtask. *)
Lemma FailSubtask_then_CollectSubTaskError_witness :
  let e := Normalize "{boom}" in
  let se := session_on
              (set_subtasks [sample_subtask_row 7 1 1 "n1" "running" None] empty_db)
              100 [] in
  let se' := snd (FailSubtask "n1" 1 (Some (ErrStd e)) se) in
  exists entries,
    fst (CollectSubTaskError 1 se') = inr entries /\ In (Some (ErrStd e)) entries.
Proof.
  intros e se se'.
  assert (Hser : serializeErr (Some (ErrStd e)) = Some (list_byte_of_string "{boom}"))
    by (vm_compute; reflexivity).
  assert (Hlen : len (list_byte_of_string "{boom}") <> 0) by (vm_compute; discriminate).
  assert (Hdec : UnmarshalJSON (list_byte_of_string "{boom}") = inr e)
    by (vm_compute; reflexivity).
  apply (FailSubtask_then_CollectSubTaskError "n1" 1 (ErrStd e) se
           (list_byte_of_string "{boom}") e eq_refl).
  - exists (sample_subtask_row 7 1 1 "n1" "running" None).
    split; [left; reflexivity|reflexivity].
  - exact Hser.
  - exact Hlen.
  - exact Hdec.
  - intros x [<-|[]]. exact I.
Defined.

(** Subtasks of two executors and two tasks. *)
Lemma PauseSubtasks_leaves_none_active_witness :
  let other := sample_subtask_row 9 1 1 "n2" "running" None in
  let table := [sample_subtask_row 7 1 1 "n1" "running" None;
                sample_subtask_row 8 1 2 "n1" "pending" None;
                other] in
  let se := session_on (set_subtasks table empty_db) 100 [] in
  let se' := snd (PauseSubtasks "n1" 1 se) in
  fst (PauseSubtasks "n1" 1 se) = inr tt
  /\ In other (tidb_background_subtask (store se')).
Proof.
  intros other table se se'.
  destruct (PauseSubtasks_leaves_none_active "n1" 1 se eq_refl)
    as (Hres & _ & Hkeep & _).
  split; [exact Hres|]. apply Hkeep.
  - right. right. left. reflexivity.
  - right. discriminate.
Defined.

(** A subtask that another executor had failed to start is paused already:
    resuming the task makes it pending as well. *)
Lemma PauseSubtasks_then_ResumeSubtasks_witness :
  let table := [sample_subtask_row 7 1 1 "n1" "running" None;
                sample_subtask_row 8 1 1 "n2" "paused" None;
                sample_subtask_row 9 1 1 "n2" "running" None;
                sample_subtask_row 10 1 1 "n1" "succeed" None] in
  let se := session_on (set_subtasks table empty_db) 100 [] in
  let se2 := snd (ResumeSubtasks 1 (snd (PauseSubtasks "n1" 1 se))) in
  map s_state (tidb_background_subtask (store se2))
  = ["pending"; "pending"; "running"; "succeed"].
Proof.
  intros table se se2.
  destruct (PauseSubtasks_then_ResumeSubtasks "n1" 1 se eq_refl)
    as (_ & _ & Htab & _).
  fold se2 in Htab. rewrite Htab. reflexivity.
Defined.


(** The subtask 7 is pending as the balancer has read it; the subtask 8 has
    started running since. *)
Lemma UpdateSubtasksExecIDs_guarded_by_state_witness :
  let moved id := {| SubID := id; SubStep := 1; SubTaskID := 1; SubType := "import";
                     SubExecID := "n2"; SubState := "pending"; SubConcurrency := 1;
                     SubCreateTime := 10; SubOrdinal := 1; SubStartTime := None;
                     SubUpdateTime := None; SubMeta := []; SubSummary := "{}" |} in
  let table := [sample_subtask_row 7 1 1 "n1" "pending" None;
                sample_subtask_row 8 1 1 "n1" "running" None] in
  let se := session_on (set_subtasks table empty_db) 100 [] in
  let result := UpdateSubtasksExecIDs [moved 7; moved 8] se in
  fst result = inr tt
  /\ map s_exec_id (tidb_background_subtask (store (snd result))) = ["n2"; "n1"].
Proof.
  intros moved table se result.
  destruct (UpdateSubtasksExecIDs_guarded_by_state [moved 7; moved 8] se eq_refl)
    as (Hres & Htab & _).
  split; [exact Hres|]. fold result in Htab. rewrite Htab. reflexivity.
Defined.

(** The subtask 7 belongs to "n2"; "n1" reports it finished and failed. *)
Lemma FinishSubtask_UpdateSubtaskStateAndError_not_owned_witness :
  let se := session_on
              (set_subtasks [sample_subtask_row 7 1 1 "n2" "running" None] empty_db)
              100 [] in
  fst (FinishSubtask "n1" 7 ["m"]%byte se) = inr tt
  /\ store (snd (FinishSubtask "n1" 7 ["m"]%byte se)) = store se
  /\ fst (UpdateSubtaskStateAndError "n1" 7 "failed" (Some (ErrNew "boom")) se) = inr tt.
Proof.
  intros se.
  destruct (FinishSubtask_UpdateSubtaskStateAndError_not_owned "n1" 7 se eq_refl)
    with (meta := ["m"]%byte) (state := "failed") (subTaskErr := Some (ErrNew "boom"))
    as (Hres & Hstore & Hres' & _).
  - intros r [<-|[]]. reflexivity.
  - split; [exact Hres|]. split; [exact Hstore|exact Hres'].
Defined.

(** A history row updated long ago, one updated exactly 1209600 seconds ago
    and one without update time. *)
Lemma GCSubtasks_retention_witness :
  let old := finish_row [] 100 (sample_subtask_row 1 1 1 "n1" "running" None) in
  let edge := finish_row [] 790400 (sample_subtask_row 2 1 1 "n1" "running" None) in
  let never := sample_subtask_row 3 1 1 "n1" "succeed" None in
  let se := session_on (set_subtask_history [old; edge; never] empty_db) 2000000 [] in
  let history := tidb_background_subtask_history (store (snd (GCSubtasks se))) in
  fst (GCSubtasks se) = inr tt
  /\ In edge history /\ In never history /\ ~ In old history.
Proof.
  intros old edge never se history.
  destruct (GCSubtasks_retention se eq_refl) as (Hres & _ & _ & _ & _ & Hkept).
  fold history in Hkept.
  split; [exact Hres|]. split; [|split].
  - apply Hkept. split; [right; left; reflexivity|]. simpl. lia.
  - apply Hkept. split; [right; right; left; reflexivity|]. exact I.
  - intros Hin. apply Hkept in Hin. destruct Hin as [_ Hle]. simpl in Hle. lia.
Defined.

(** The task of the round trip above, read with its subtasks. *)
Lemma GetSubtasksWithHistory_after_transfer_witness :
  let T := sample_task 1 "succeed" 3 ["x"]%byte in
  let d := set_subtasks [sample_subtask_row 900 1 3 "n1" "succeed" None;
                         sample_subtask_row 901 2 1 "n1" "running" None;
                         sample_subtask_row 902 1 3 "n2" "succeed" None]
             (set_tasks [sample_task_row 1 "succeed" 3 512 10 ["y"]%byte;
                         sample_task_row 2 "running" 1 512 11 []] empty_db) in
  let se := session_on d 100 [] in
  let se' := snd (TransferTasks2History [T] se) in
  fst (GetSubtasksWithHistory 1 3 se') = fst (GetSubtasksWithHistory 1 3 se)
  /\ fst (GetSubtasksWithHistory 1 3 se')
     = inr (map Row2SubTask [sample_subtask_row 900 1 3 "n1" "succeed" None;
                             sample_subtask_row 902 1 3 "n2" "succeed" None]).
Proof.
  intros T d se se'.
  destruct (GetSubtasksWithHistory_after_transfer T 3 se eq_refl) as [Hbefore Hafter].
  fold se' in Hafter. change (ID T) with 1 in Hbefore, Hafter.
  rewrite Hbefore, Hafter. split; reflexivity.
Defined.


(** A node that a user has given the role background restarts. *)
Lemma RecoverMeta_keeps_role_witness :
  let se := session_on
              (set_nodes [{| NodeID := "n1"; Role := "background"; CPUCount := 4 |}]
                 empty_db) 100 [] in
  fst (RecoverMeta "n1" "" se) = inr tt
  /\ dist_framework_meta (store (snd (RecoverMeta "n1" "" se)))
     = [{| NodeID := "n1"; Role := "background"; CPUCount := 8 |}].
Proof.
  intros se.
  destruct (RecoverMeta_keeps_role "n1" "" se eq_refl) as (Hres & _).
  split; [exact Hres|reflexivity].
Defined.

Lemma InitMeta_sets_role_witness :
  let se := session_on
              (set_nodes [{| NodeID := "n1"; Role := "background"; CPUCount := 4 |};
                          {| NodeID := "n2"; Role := ""; CPUCount := 4 |}]
                 empty_db) 100 [] in
  fst (InitMeta "n1" "" se) = inr tt
  /\ In {| NodeID := "n1"; Role := ""; CPUCount := 8 |}
        (dist_framework_meta (store (snd (InitMeta "n1" "" se)))).
Proof.
  intros se.
  destruct (InitMeta_sets_role "n1" "" se eq_refl) as (Hres & Hin & _).
  split; [exact Hres|exact Hin].
Defined.

(** Nodes of three roles. *)
Lemma GetManagedNodes_one_role_witness :
  let n1 := {| NodeID := "n1"; Role := ""; CPUCount := 8 |} in
  let n2 := {| NodeID := "n2"; Role := "background"; CPUCount := 8 |} in
  let n3 := {| NodeID := "n3"; Role := "other"; CPUCount := 8 |} in
  let se := session_on (set_nodes [n1; n2; n3] empty_db) 100 [] in
  exists nodes,
    fst (GetManagedNodes se) = inr nodes
    /\ In n2 nodes /\ ~ In n1 nodes /\ ~ In n3 nodes.
Proof.
  intros n1 n2 n3 se.
  destruct (GetManagedNodes_one_role se eq_refl) as (nodes & Hres & Hin).
  exists nodes. split; [exact Hres|]. split; [|split].
  - apply Hin. split; [right; left; reflexivity|left; reflexivity].
  - intros H1. apply Hin in H1. destruct H1 as [_ [Hr|[_ Hnone]]]; [discriminate|].
    apply (Hnone n2); [right; left; reflexivity|reflexivity].
  - intros H3. apply Hin in H3. destruct H3 as [_ [Hr|[Hr _]]]; discriminate.
Defined.

Lemma InitMeta_then_GetManagedNodes_witness :
  let se := session_on
              (set_nodes [{| NodeID := "n2"; Role := ""; CPUCount := 4 |}] empty_db)
              100 [] in
  exists nodes,
    fst (GetManagedNodes (snd (InitMeta "n1" "background" se))) = inr nodes
    /\ In {| NodeID := "n1"; Role := "background"; CPUCount := 8 |} nodes
    /\ Forall (fun n => Role n = "background") nodes.
Proof.
  intros se. exact (InitMeta_then_GetManagedNodes "n1" se eq_refl).
Defined.

(** Three subtasks of the task on two executors. *)
Lemma GetTaskExecutorIDs_distinct_witness :
  let table := [sample_subtask_row 7 1 1 "n1" "running" None;
                sample_subtask_row 8 1 2 "n2" "pending" None;
                sample_subtask_row 9 1 1 "n1" "pending" None] in
  let se := session_on (set_subtasks table empty_db) 100 [] in
  exists ofTask ofStep,
    fst (GetTaskExecutorIDsByTaskID 1 se) = inr ofTask
    /\ fst (GetTaskExecutorIDsByTaskIDAndStep 1 2 se) = inr ofStep
    /\ List.NoDup ofTask /\ In "n1" ofTask /\ In "n2" ofTask /\ ~ In "n1" ofStep.
Proof.
  intros table se.
  destruct (GetTaskExecutorIDs_distinct 1 2 se eq_refl)
    as (ofTask & ofStep & Hres1 & Hres2 & Hnd & _ & Hin1 & Hin2).
  exists ofTask, ofStep. split; [exact Hres1|]. split; [exact Hres2|].
  split; [exact Hnd|]. split; [|split].
  - apply Hin1. exists (sample_subtask_row 7 1 1 "n1" "running" None).
    split; [left; reflexivity|split; reflexivity].
  - apply Hin1. exists (sample_subtask_row 8 1 2 "n2" "pending" None).
    split; [right; left; reflexivity|split; reflexivity].
  - intros Hin. apply Hin2 in Hin. destruct Hin as (r & Hr & _ & Hstep & He).
    destruct Hr as [<-|[<-|[<-|[]]]]; discriminate.
Defined.

Lemma GetSubtaskCntGroupByStates_counts_witness :
  let table := [sample_subtask_row 7 1 1 "n1" "pending" None;
                sample_subtask_row 8 1 1 "n2" "running" None;
                sample_subtask_row 9 1 1 "n1" "pending" None;
                sample_subtask_row 10 1 2 "n1" "failed" None] in
  let se := session_on (set_subtasks table empty_db) 100 [] in
  exists res,
    fst (GetSubtaskCntGroupByStates 1 1 se) = inr res
    /\ res !! "pending" = Some 2 /\ res !! "running" = Some 1
    /\ res !! "failed" = None.
Proof.
  intros table se.
  destruct (GetSubtaskCntGroupByStates_counts 1 1 se eq_refl) as (res & Hres & Hcnt).
  exists res. split; [exact Hres|]. rewrite !Hcnt. repeat split.
Defined.

(** Two active subtasks of one task on "n1", a finished one on "n2". *)
Lemma GetUsedSlotsOnNodes_counts_task_once_witness :
  let table := [sample_subtask_row 7 1 1 "n1" "running" None;
                sample_subtask_row 8 1 1 "n1" "pending" None;
                sample_subtask_row 9 1 1 "n2" "succeed" None] in
  let se := session_on (set_subtasks table empty_db) 100 [] in
  exists slots,
    fst (GetUsedSlotsOnNodes se) = inr slots
    /\ slots !! "n1" = Some 1 /\ slots !! "n2" = None.
Proof.
  intros table se.
  destruct (GetUsedSlotsOnNodes_counts_task_once "n1" 1 1 se eq_refl)
    as (slots & Hres & Hn1 & Hnone).
  - exists (sample_subtask_row 7 1 1 "n1" "running" None).
    split; [left; reflexivity|split; reflexivity].
  - intros r [<-|[<-|[<-|[]]]] He Ha; try discriminate; split; reflexivity.
  - exists slots. split; [exact Hres|]. split; [exact Hn1|].
    apply Hnone. intros r [<-|[<-|[<-|[]]]] He; try discriminate; reflexivity.
Defined.

End MoreSamples.
